(** * YarnRunner: a shallow embedding of [yarnrunner_python/runner.py]

    The development follows the Python class [YarnRunner]: the values that
    live on the VM data stack, the regular expressions used by
    [__run_command] and [__push_variable], the protobuf program, the mutable
    fields of the runner object, every opcode implementation, the dispatch
    loop [__process_instruction] and the public methods [resume], [choose],
    [get_line], [get_lines] and [add_command_handler].

    Conventions.
    - A Python [str] is a Rocq [string]; a character is a code point below
      256.  Text-processing functions work on [list ascii] and are wrapped
      at the [string] level.
    - A Python exception is a constructor of [exn]; a method is a function
      [runner -> result A] that returns the final object state both on
      normal return ([Ok]) and when an exception propagates ([Raise]),
      because the mutations done before a [raise] stay visible to the host.
    - [__process_instruction] calls itself once per dispatched
      instruction; the [fuel] argument is the recursion depth left to the
      interpreter, and running out of it is Python's [RecursionError].
    - [__debug_log] only prints, and the [debug_*] methods and [__repr__]
      only read the object; they are left out. *)

From Stdlib Require Import ZArith Floats Ascii String List Lia.
From stdpp Require Import gmap strings list fin_maps.

Open Scope string_scope.
Open Scope Z_scope.

(** ** Python values *)

Module Py.

(** What the data stack and the variables hold: [str], [float], [bool],
    [None], and [int] (the visit counters pushed by [__push_variable]). *)
Inductive value :=
| VStr (s : string)
| VFloat (f : float)
| VBool (b : bool)
| VNone
| VInt (n : Z).

(** [type(v) == str] *)
Definition is_str (v : value) : bool :=
  match v with VStr _ => true | _ => false end.

(** [v == False].  [bool] is a subclass of [int] in Python, so [False]
    compares equal to the integer [0] and to the floats [0.0] and [-0.0];
    a string or [None] never equals [False]. *)
Definition eq_False (v : value) : bool :=
  match v with
  | VBool b => negb b
  | VInt n => (n =? 0)
  | VFloat f => PrimFloat.eqb f 0%float
  | VStr _ | VNone => false
  end.

(** [l[i]] for a Python list: indices [0 .. len-1] count from the front,
    [-len .. -1] from the back, anything else is an [IndexError]. *)
Definition index {A} (l : list A) (i : Z) : option A :=
  let n := Z.of_nat (length l) in
  if (0 <=? i) && (i <? n) then nth_error l (Z.to_nat i)
  else if (- n <=? i) && (i <? 0) then nth_error l (Z.to_nat (n + i))
  else None.

(** [str.isspace] on one character. *)
Definition isspace (c : ascii) : bool :=
  let n := nat_of_ascii c in
  ((9 <=? n) && (n <=? 13) || (28 <=? n) && (n <=? 32)
   || (n =? 133) || (n =? 160))%nat.

Fixpoint lstrip (s : list ascii) : list ascii :=
  match s with
  | c :: rest => if isspace c then lstrip rest else s
  | [] => []
  end.

(** [s.strip()] *)
Definition strip (s : list ascii) : list ascii :=
  rev (lstrip (rev (lstrip s))).

Definition is_digit (c : ascii) : bool :=
  let n := nat_of_ascii c in ((48 <=? n) && (n <=? 57))%nat.

Definition digit_val (c : ascii) : Z := Z.of_nat (nat_of_ascii c) - 48.

(** Decimal digits, single underscores allowed between two digits. *)
Fixpoint digits (acc : Z) (after_digit : bool) (s : list ascii) : option Z :=
  match s with
  | [] => if after_digit then Some acc else None
  | c :: rest =>
      if is_digit c then digits (10 * acc + digit_val c) true rest
      else if Ascii.eqb c "_" && after_digit then
             match rest with
             | d :: _ => if is_digit d then digits acc false rest else None
             | [] => None
             end
           else None
  end.

(** The whitespace that [int] skips around a number.  It is not that of
    [str.strip]: [int] skips the six ASCII whitespace characters of C,
    and the spaces above 127, which it turns into blanks before it
    parses; the separators 0x1c to 0x1f stay where they are and make
    the conversion fail. *)
Definition int_space (c : ascii) : bool :=
  let n := nat_of_ascii c in
  ((9 <=? n) && (n <=? 13) || (n =? 32) || (n =? 133) || (n =? 160))%nat.

Fixpoint int_lstrip (s : list ascii) : list ascii :=
  match s with
  | c :: rest => if int_space c then int_lstrip rest else s
  | [] => []
  end.

Definition int_strip (s : list ascii) : list ascii :=
  rev (int_lstrip (rev (int_lstrip s))).

(** [sys.get_int_max_str_digits()], at its default. *)
Definition max_str_digits : nat := 4300.

(** [int(s)] for a string: surrounding whitespace, an optional sign,
    decimal digits, no more of them than the interpreter converts.
    [None] is [ValueError]. *)
Definition int_of_str (s : string) : option Z :=
  let signed := int_strip (list_ascii_of_string s) in
  let unsigned :=
    match signed with
    | "-"%char :: rest | "+"%char :: rest => rest
    | rest => rest
    end in
  if (max_str_digits <? length (filter is_digit unsigned))%nat then None
  else
    match signed with
    | "-"%char :: rest => Z.opp <$> digits 0 false rest
    | _ => digits 0 false unsigned
    end.

(** [int(f)] for a float: truncation towards zero.  [None] is the
    [ValueError] of a NaN or the [OverflowError] of an infinity. *)
Definition int_of_float (f : float) : option Z :=
  match Prim2SF f with
  | S754_zero _ => Some 0
  | S754_finite s m e =>
      let z := if 0 <=? e then Z.shiftl (Z.pos m) e
               else Z.shiftr (Z.pos m) (- e) in
      Some (if s then - z else z)
  | S754_infinity _ | S754_nan => None
  end.

(** [int(v)]; [None] when the conversion raises. *)
Definition int (v : value) : option Z :=
  match v with
  | VStr s => int_of_str s
  | VFloat f => int_of_float f
  | VBool b => Some (if b then 1 else 0)
  | VInt n => Some n
  | VNone => None
  end.

(** [s.replace(".", "_")] *)
Definition replace_dots (s : list ascii) : list ascii :=
  map (fun c => if Ascii.eqb c "." then "_"%char else c) s.

End Py.

(** ** Regular expressions

    The patterns of [runner.py] are written in this small syntax and
    matched by Brzozowski derivatives. *)

Module Re.

Inductive regex :=
| Void
| Eps
| Cls (p : ascii -> bool)
| Seq (r1 r2 : regex)
| Alt (r1 r2 : regex)
| Star (r : regex).

Fixpoint nullable (r : regex) : bool :=
  match r with
  | Void | Cls _ => false
  | Eps | Star _ => true
  | Seq r1 r2 => nullable r1 && nullable r2
  | Alt r1 r2 => nullable r1 || nullable r2
  end.

Fixpoint deriv (c : ascii) (r : regex) : regex :=
  match r with
  | Void | Eps => Void
  | Cls p => if p c then Eps else Void
  | Seq r1 r2 =>
      if nullable r1 then Alt (Seq (deriv c r1) r2) (deriv c r2)
      else Seq (deriv c r1) r2
  | Alt r1 r2 => Alt (deriv c r1) (deriv c r2)
  | Star r1 => Seq (deriv c r1) (Star r1)
  end.

(** The whole of [s] matches [r]. *)
Fixpoint matches (r : regex) (s : list ascii) : bool :=
  match s with
  | [] => nullable r
  | c :: rest => matches (deriv c r) rest
  end.

(** The language of a regular expression, as a relation. *)
Inductive lang : regex -> list ascii -> Prop :=
| lang_eps : lang Eps []
| lang_cls p c : p c = true -> lang (Cls p) [c]
| lang_seq r1 r2 s1 s2 : lang r1 s1 -> lang r2 s2 -> lang (Seq r1 r2) (s1 ++ s2)
| lang_alt_l r1 r2 s : lang r1 s -> lang (Alt r1 r2) s
| lang_alt_r r1 r2 s : lang r2 s -> lang (Alt r1 r2) s
| lang_star_nil r : lang (Star r) []
| lang_star_cons r s1 s2 :
    lang r s1 -> lang (Star r) s2 -> lang (Star r) (s1 ++ s2).

Definition chr (c : ascii) : regex := Cls (Ascii.eqb c).
(** The double quote, written [\x22] in the patterns quoted below. *)
Definition dquote : ascii := "034".
Definition is_quote (c : ascii) : bool := Ascii.eqb c "'" || Ascii.eqb c dquote.
Definition is_newline (c : ascii) : bool := Ascii.eqb c "010".

(** [(?:[^'\x22]|'[^']*'|\x22[^\x22]*\x22)*] *)
Definition quoted_body : regex :=
  Alt (Cls (fun c => negb (is_quote c)))
      (Alt (Seq (chr "'") (Seq (Star (Cls (fun c => negb (Ascii.eqb c "'")))) (chr "'")))
           (Seq (chr dquote) (Seq (Star (Cls (fun c => negb (Ascii.eqb c dquote)))) (chr dquote)))).

Definition balanced : regex := Star quoted_body.

(** [$] without [re.MULTILINE]: the end of the string, or just before a
    newline that ends the string. *)
Definition dollar : regex := Alt Eps (Cls is_newline).

(** The lookahead [(?=(?:[^'\x22]|'[^']*'|\x22[^\x22]*\x22)*$)] tried on the text that
    follows the current position. *)
Definition lookahead (rest : list ascii) : bool :=
  matches (Seq balanced dollar) rest.

(** [re.split(''' (?=(?:[^'\x22]|'[^']*'|\x22[^\x22]*\x22)*$)''', s)]: every match is
    one space whose lookahead succeeds; the pieces between the matches
    are returned, so the result is never empty. *)
Fixpoint split (s : list ascii) : list (list ascii) :=
  match s with
  | [] => [[]]
  | c :: rest =>
      if Ascii.eqb c " " && lookahead rest then [] :: split rest
      else match split rest with
           | tok :: toks => (c :: tok) :: toks
           | [] => [[c]]
           end
  end.

(** [['\x22]$] at the current position. *)
Definition closing_quote (s : list ascii) : bool :=
  match s with
  | [q] => is_quote q
  | [q; n] => is_quote q && is_newline n
  | _ => false
  end.

(** Group 1 of [^['\x22](.{0,})['\x22]$] (the source writes the star
    form of [.{0,}]) once the opening quote is consumed: the greedy
    repetition takes every character that is not a newline and gives
    characters back until [['\x22]$] matches. *)
Fixpoint group1 (s : list ascii) : option (list ascii) :=
  match s with
  | [] => None
  | c :: rest =>
      match (if is_newline c then None else group1 rest) with
      | Some g => Some (c :: g)
      | None => if closing_quote s then Some [] else None
      end
  end.

(** [sanitize_quotes], the local function of [__run_command]. *)
Definition sanitize_quotes (arg : list ascii) : list ascii :=
  match arg with
  | q :: body =>
      if is_quote q then
        match group1 body with Some g => g | None => arg end
      else arg
  | [] => arg
  end.

Definition is_word (c : ascii) : bool :=
  let n := nat_of_ascii c in
  ((97 <=? n) && (n <=? 122) || (65 <=? n) && (n <=? 90)
   || (n =? 95) || (48 <=? n) && (n <=? 57))%nat.

Fixpoint take_while (p : ascii -> bool) (s : list ascii) : list ascii :=
  match s with
  | c :: rest => if p c then c :: take_while p rest else []
  | [] => []
  end.

Fixpoint strip_prefix (p s : list ascii) : option (list ascii) :=
  match p, s with
  | [], _ => Some s
  | a :: p', b :: s' => if Ascii.eqb a b then strip_prefix p' s' else None
  | _ :: _, [] => None
  end.

Definition visits_prefix : list ascii := list_ascii_of_string "$visits_".

(** [\$visits_([a-zA-Z\_0-9]+)] tried at the start of [s]: group 1. *)
Definition visits_at (s : list ascii) : option (list ascii) :=
  match strip_prefix visits_prefix s with
  | Some rest =>
      match take_while is_word rest with
      | [] => None
      | g => Some g
      end
  | None => None
  end.

(** [re.search(r"\$visits_([a-zA-Z\_0-9]+)", s)]: the leftmost match;
    the result is its group 1. *)
Fixpoint search_visits (s : list ascii) : option (list ascii) :=
  match s with
  | [] => None
  | _ :: rest =>
      match visits_at s with
      | Some g => Some g
      | None => search_visits rest
      end
  end.

Local Open Scope list_scope.

(** Which quote, if any, is open after a text: an independent reading
    of what the lookahead of the split pattern tests. *)

Inductive quoting := Outside | InSingle | InDouble.

Definition scan1 (q : quoting) (c : ascii) : quoting :=
  if Ascii.eqb c "'" then
    match q with Outside => InSingle | InSingle => Outside | InDouble => InDouble end
  else if Ascii.eqb c dquote then
    match q with Outside => InDouble | InDouble => Outside | InSingle => InSingle end
  else q.

Definition scan (q : quoting) (s : list ascii) : quoting := fold_left scan1 s q.

Definition closed (s : list ascii) : Prop := scan Outside s = Outside.

Arguments scan : simpl never.

(** The pieces put back together, one space between two pieces. *)
Fixpoint join (toks : list (list ascii)) : list ascii :=
  match toks with
  | [] => []
  | [tok] => tok
  | tok :: toks' => tok ++ " "%char :: join toks'
  end.

(** [name] contains the pattern [\$visits_([a-zA-Z\_0-9]+)], its leftmost
    occurrence starts after [pre], and [node_name] is the longest run
    of word characters that follows [$visits_] there. *)
Definition names_visits (name node_name : list ascii) : Prop :=
  exists pre post,
    name = pre ++ visits_prefix ++ node_name ++ post /\
    node_name <> [] /\
    forallb is_word node_name = true /\
    (forall c post', post = c :: post' -> is_word c = false) /\
    (forall pre1 c1 post1,
        name = pre1 ++ visits_prefix ++ c1 :: post1 ->
        is_word c1 = true -> (length pre <= length pre1)%nat).

End Re.

(** The first lines of [__run_command]: the command name and the
    sanitized arguments. *)
Definition parse_command (text : string) : string * list string :=
  match Re.split (Py.strip (list_ascii_of_string text)) with
  | command :: args =>
      (string_of_list_ascii command,
       map (fun arg => string_of_list_ascii (Re.sanitize_quotes arg)) args)
  | [] => (EmptyString, [])
  end.

(** ** The compiled program ([yarn_spinner.proto])

    The generated module [yarn_spinner_pb2] is not part of the sources; the
    messages are modelled from the way [runner.py] reads them. *)

(** Modelled from the spec: the operand message of [yarn_spinner_pb2]
    (string, number or boolean).  An operand holds one of
    [string_value], [bool_value], [float_value]; reading a field that is
    not the one set gives that field's default. *)
Inductive Operand :=
| OString (s : string)
| OBool (b : bool)
| OFloat (f : float)
| OUnset.

Definition string_value (o : Operand) : string :=
  match o with OString s => s | _ => EmptyString end.
Definition float_value (o : Operand) : float :=
  match o with OFloat f => f | _ => 0%float end.
Definition bool_value (o : Operand) : bool :=
  match o with OBool b => b | _ => false end.

(** Modelled from the spec: the enum [Instruction.OpCode] of
    [yarn_spinner_pb2], with the opcodes that [__process_instruction]
    names; an open protobuf enum also carries numbers outside the
    declared names. *)
Inductive OpCode :=
| JUMP_TO | JUMP | RUN_LINE | RUN_COMMAND | ADD_OPTION | SHOW_OPTIONS
| PUSH_STRING | PUSH_FLOAT | PUSH_BOOL | PUSH_NULL | JUMP_IF_FALSE | POP
| CALL_FUNC | PUSH_VARIABLE | STORE_VARIABLE | STOP | RUN_NODE
| UNRECOGNIZED (n : Z).

(** Modelled from the spec: the messages [Instruction], [Node] and
    [Program] of [yarn_spinner_pb2], with the fields that [runner.py]
    reads. *)
Record Instruction := { opcode : OpCode; operands : list Operand }.

Record Node := { instructions : list Instruction; labels : gmap string Z }.

Record Program := { nodes : gmap string Node }.

(** [Instruction(opcode=Instruction.OpCode.RUN_NODE)] *)
Definition run_node_marker : Instruction :=
  {| opcode := RUN_NODE; operands := [] |}.

(** The default [Node] message.  Reading [m[k]] on a protobuf map of
    messages creates the entry for an absent key, with the default
    message. *)
Definition default_node : Node := {| instructions := []; labels := ∅ |}.

(** ** The runner object *)

(** A row of the string table: the columns of the names CSV that the
    runner reads. *)
Record table_entry := { entry_text : string; entry_lineNumber : string }.

(** An element of the option buffer, built by [__add_option]. *)
Record option_entry := { index : Z; text : string; choice : string }.

(** What a host command handler does when called with the parsed
    arguments: it returns a string, returns anything else, or raises. *)
Inductive handler_result :=
| ReturnsStr (s : string)
| ReturnsOther
| HandlerRaises.

Abbreviation handler := (list string -> handler_result).

(** What the host can observe besides the object's fields: the
    instructions handed to their opcode function, the warnings issued
    through [warnings.warn], and the node transitions (the assignments
    [self.current_node = node_key] of [__go_to_node]).
    The field [log] of the runner records them, in order; it is not an
    attribute of the Python object. *)
Inductive event :=
| Dispatched (i : Instruction)
| Warned (msg : string)
| Entered (node_key : string).

Record runner := {
  compiled_yarn : Program;
  string_lookup_table : gmap string table_entry;
  enable_tracing : bool;
  experimental_newlines : bool;
  visits : list (string * Z);
  variables : gmap string Py.value;
  current_node : option string;
  command_handlers : gmap string handler;
  line_buffer : list string;
  option_buffer : list option_entry;
  vm_data_stack : list Py.value;
  vm_instruction_stack : list Instruction;
  program_counter : Z;
  previous_instruction : Instruction;
  paused : bool;
  finished : bool;
  autostart : bool;
  log : list event
}.

Definition set_compiled_yarn (v : Program) (r : runner) : runner :=
  {| compiled_yarn := v; string_lookup_table := string_lookup_table r;
     enable_tracing := enable_tracing r; experimental_newlines :=
     experimental_newlines r; visits := visits r; variables := variables r;
     current_node := current_node r; command_handlers := command_handlers r;
     line_buffer := line_buffer r; option_buffer := option_buffer r;
     vm_data_stack := vm_data_stack r; vm_instruction_stack :=
     vm_instruction_stack r; program_counter := program_counter r;
     previous_instruction := previous_instruction r; paused := paused r;
     finished := finished r; autostart := autostart r; log := log r |}.
Definition set_visits (v : list (string * Z)) (r : runner) : runner :=
  {| compiled_yarn := compiled_yarn r; string_lookup_table :=
     string_lookup_table r; enable_tracing := enable_tracing r;
     experimental_newlines := experimental_newlines r; visits := v;
     variables := variables r; current_node := current_node r;
     command_handlers := command_handlers r; line_buffer := line_buffer r;
     option_buffer := option_buffer r; vm_data_stack := vm_data_stack r;
     vm_instruction_stack := vm_instruction_stack r; program_counter :=
     program_counter r; previous_instruction := previous_instruction r;
     paused := paused r; finished := finished r; autostart := autostart r;
     log := log r |}.
Definition set_variables (v : gmap string Py.value) (r : runner) : runner :=
  {| compiled_yarn := compiled_yarn r; string_lookup_table :=
     string_lookup_table r; enable_tracing := enable_tracing r;
     experimental_newlines := experimental_newlines r; visits := visits r;
     variables := v; current_node := current_node r; command_handlers :=
     command_handlers r; line_buffer := line_buffer r; option_buffer :=
     option_buffer r; vm_data_stack := vm_data_stack r; vm_instruction_stack
     := vm_instruction_stack r; program_counter := program_counter r;
     previous_instruction := previous_instruction r; paused := paused r;
     finished := finished r; autostart := autostart r; log := log r |}.
Definition set_current_node (v : option string) (r : runner) : runner :=
  {| compiled_yarn := compiled_yarn r; string_lookup_table :=
     string_lookup_table r; enable_tracing := enable_tracing r;
     experimental_newlines := experimental_newlines r; visits := visits r;
     variables := variables r; current_node := v; command_handlers :=
     command_handlers r; line_buffer := line_buffer r; option_buffer :=
     option_buffer r; vm_data_stack := vm_data_stack r; vm_instruction_stack
     := vm_instruction_stack r; program_counter := program_counter r;
     previous_instruction := previous_instruction r; paused := paused r;
     finished := finished r; autostart := autostart r; log := log r |}.
Definition set_command_handlers (v : gmap string handler) (r : runner) : runner :=
  {| compiled_yarn := compiled_yarn r; string_lookup_table :=
     string_lookup_table r; enable_tracing := enable_tracing r;
     experimental_newlines := experimental_newlines r; visits := visits r;
     variables := variables r; current_node := current_node r;
     command_handlers := v; line_buffer := line_buffer r; option_buffer :=
     option_buffer r; vm_data_stack := vm_data_stack r; vm_instruction_stack
     := vm_instruction_stack r; program_counter := program_counter r;
     previous_instruction := previous_instruction r; paused := paused r;
     finished := finished r; autostart := autostart r; log := log r |}.
Definition set_line_buffer (v : list string) (r : runner) : runner :=
  {| compiled_yarn := compiled_yarn r; string_lookup_table :=
     string_lookup_table r; enable_tracing := enable_tracing r;
     experimental_newlines := experimental_newlines r; visits := visits r;
     variables := variables r; current_node := current_node r;
     command_handlers := command_handlers r; line_buffer := v; option_buffer
     := option_buffer r; vm_data_stack := vm_data_stack r;
     vm_instruction_stack := vm_instruction_stack r; program_counter :=
     program_counter r; previous_instruction := previous_instruction r;
     paused := paused r; finished := finished r; autostart := autostart r;
     log := log r |}.
Definition set_option_buffer (v : list option_entry) (r : runner) : runner :=
  {| compiled_yarn := compiled_yarn r; string_lookup_table :=
     string_lookup_table r; enable_tracing := enable_tracing r;
     experimental_newlines := experimental_newlines r; visits := visits r;
     variables := variables r; current_node := current_node r;
     command_handlers := command_handlers r; line_buffer := line_buffer r;
     option_buffer := v; vm_data_stack := vm_data_stack r;
     vm_instruction_stack := vm_instruction_stack r; program_counter :=
     program_counter r; previous_instruction := previous_instruction r;
     paused := paused r; finished := finished r; autostart := autostart r;
     log := log r |}.
Definition set_vm_data_stack (v : list Py.value) (r : runner) : runner :=
  {| compiled_yarn := compiled_yarn r; string_lookup_table :=
     string_lookup_table r; enable_tracing := enable_tracing r;
     experimental_newlines := experimental_newlines r; visits := visits r;
     variables := variables r; current_node := current_node r;
     command_handlers := command_handlers r; line_buffer := line_buffer r;
     option_buffer := option_buffer r; vm_data_stack := v;
     vm_instruction_stack := vm_instruction_stack r; program_counter :=
     program_counter r; previous_instruction := previous_instruction r;
     paused := paused r; finished := finished r; autostart := autostart r;
     log := log r |}.
Definition set_vm_instruction_stack (v : list Instruction) (r : runner) : runner :=
  {| compiled_yarn := compiled_yarn r; string_lookup_table :=
     string_lookup_table r; enable_tracing := enable_tracing r;
     experimental_newlines := experimental_newlines r; visits := visits r;
     variables := variables r; current_node := current_node r;
     command_handlers := command_handlers r; line_buffer := line_buffer r;
     option_buffer := option_buffer r; vm_data_stack := vm_data_stack r;
     vm_instruction_stack := v; program_counter := program_counter r;
     previous_instruction := previous_instruction r; paused := paused r;
     finished := finished r; autostart := autostart r; log := log r |}.
Definition set_program_counter (v : Z) (r : runner) : runner :=
  {| compiled_yarn := compiled_yarn r; string_lookup_table :=
     string_lookup_table r; enable_tracing := enable_tracing r;
     experimental_newlines := experimental_newlines r; visits := visits r;
     variables := variables r; current_node := current_node r;
     command_handlers := command_handlers r; line_buffer := line_buffer r;
     option_buffer := option_buffer r; vm_data_stack := vm_data_stack r;
     vm_instruction_stack := vm_instruction_stack r; program_counter := v;
     previous_instruction := previous_instruction r; paused := paused r;
     finished := finished r; autostart := autostart r; log := log r |}.
Definition set_previous_instruction (v : Instruction) (r : runner) : runner :=
  {| compiled_yarn := compiled_yarn r; string_lookup_table :=
     string_lookup_table r; enable_tracing := enable_tracing r;
     experimental_newlines := experimental_newlines r; visits := visits r;
     variables := variables r; current_node := current_node r;
     command_handlers := command_handlers r; line_buffer := line_buffer r;
     option_buffer := option_buffer r; vm_data_stack := vm_data_stack r;
     vm_instruction_stack := vm_instruction_stack r; program_counter :=
     program_counter r; previous_instruction := v; paused := paused r;
     finished := finished r; autostart := autostart r; log := log r |}.
Definition set_paused (v : bool) (r : runner) : runner :=
  {| compiled_yarn := compiled_yarn r; string_lookup_table :=
     string_lookup_table r; enable_tracing := enable_tracing r;
     experimental_newlines := experimental_newlines r; visits := visits r;
     variables := variables r; current_node := current_node r;
     command_handlers := command_handlers r; line_buffer := line_buffer r;
     option_buffer := option_buffer r; vm_data_stack := vm_data_stack r;
     vm_instruction_stack := vm_instruction_stack r; program_counter :=
     program_counter r; previous_instruction := previous_instruction r;
     paused := v; finished := finished r; autostart := autostart r; log :=
     log r |}.
Definition set_finished (v : bool) (r : runner) : runner :=
  {| compiled_yarn := compiled_yarn r; string_lookup_table :=
     string_lookup_table r; enable_tracing := enable_tracing r;
     experimental_newlines := experimental_newlines r; visits := visits r;
     variables := variables r; current_node := current_node r;
     command_handlers := command_handlers r; line_buffer := line_buffer r;
     option_buffer := option_buffer r; vm_data_stack := vm_data_stack r;
     vm_instruction_stack := vm_instruction_stack r; program_counter :=
     program_counter r; previous_instruction := previous_instruction r;
     paused := paused r; finished := v; autostart := autostart r; log := log
     r |}.
Definition set_log (v : list event) (r : runner) : runner :=
  {| compiled_yarn := compiled_yarn r; string_lookup_table :=
     string_lookup_table r; enable_tracing := enable_tracing r;
     experimental_newlines := experimental_newlines r; visits := visits r;
     variables := variables r; current_node := current_node r;
     command_handlers := command_handlers r; line_buffer := line_buffer r;
     option_buffer := option_buffer r; vm_data_stack := vm_data_stack r;
     vm_instruction_stack := vm_instruction_stack r; program_counter :=
     program_counter r; previous_instruction := previous_instruction r;
     paused := paused r; finished := finished r; autostart := autostart r;
     log := v |}.

(** ** Exceptions and the method monad *)

(** One constructor per [raise Exception(...)] of [runner.py], named after
    its message, and the built-in exceptions the code can run into. *)
Inductive exn :=
| NoOptionSelected
| NotInStringTable (string_key : string)
| NoSuchLabel (node_key label_key : string)
| ExpressionsNotSupported
| JumpRequiresString
| InvalidNode (node_key : string)
| FunctionNotImplemented (function_name : string)
| WrongParameterCount (function_name : string) (expected : nat) (actual : Z)
| VariableNotSet (variable_name : string)
| RunNodeRequiresString
| InstructionStackEmpty
| ProgramCounterOverrun
| OpCodeNotImplemented (op : OpCode)
| IndexError
| KeyError (key : string)
| TypeError
| ConversionError
| RecursionError
| Raised.

Inductive result (A : Type) :=
| Ok (a : A) (r : runner)
| Raise (e : exn) (r : runner).
Arguments Ok {A} a r.
Arguments Raise {A} e r.

(** The object after the call, whether it returned or raised. *)
Definition final {A} (x : result A) : runner :=
  match x with Ok _ r => r | Raise _ r => r end.

Definition M (A : Type) : Type := runner -> result A.

Definition ret {A} (a : A) : M A := fun r => Ok a r.
Definition raise {A} (e : exn) : M A := fun r => Raise e r.
Definition bind {A B} (m : M A) (k : A -> M B) : M B :=
  fun r => match m r with
           | Ok a r' => k a r'
           | Raise e r' => Raise e r'
           end.
Definition get : M runner := fun r => Ok r r.
Definition modify (f : runner -> runner) : M unit := fun r => Ok tt (f r).
Definition of_option {A} (o : option A) (e : exn) : M A :=
  match o with Some a => ret a | None => raise e end.

Declare Scope yarn_scope.
Delimit Scope yarn_scope with yarn.
Notation "'let*' x := m 'in' k" := (bind m (fun x => k))
  (at level 10, x name, m at level 100, k at level 200) : yarn_scope.
Open Scope yarn_scope.

Definition emit (e : event) : M unit :=
  modify (fun r => set_log (log r ++ [e]) r).

(** [warnings.warn(msg)] *)
Definition warn (msg : string) : M unit := emit (Warned msg).

(** ** Python dictionaries that are iterated

    [visits] is iterated by [__push_variable], so it keeps its insertion
    order: an association list, read and updated at the first binding of a
    key. *)

Fixpoint dict_get {V} (k : string) (d : list (string * V)) : option V :=
  match d with
  | [] => None
  | (k', v) :: d' => if String.eqb k k' then Some v else dict_get k d'
  end.

Fixpoint dict_set {V} (k : string) (v : V) (d : list (string * V))
  : list (string * V) :=
  match d with
  | [] => [(k, v)]
  | (k', v') :: d' =>
      if String.eqb k k' then (k, v) :: d' else (k', v') :: dict_set k v d'
  end.

(** [{f(k): v for (k, v) in d.items()}], one item after the other. *)
Definition rekey_step {V} (f : string -> string) (acc : list (string * V))
    (kv : string * V) : list (string * V) :=
  dict_set (f (fst kv)) (snd kv) acc.

Definition dict_rekey {V} (f : string -> string) (d : list (string * V))
  : list (string * V) :=
  fold_left (rekey_step f) d [].

(** [{key: 0 for key in self._compiled_yarn.nodes.keys()}]; protobuf leaves
    the iteration order of a map open, the order of [map_to_list] stands
    for it. *)
Definition zero_visits (p : Program) : list (string * Z) :=
  map (fun kv => (fst kv, 0)) (map_to_list (nodes p)).

Definition replace_dots (s : string) : string :=
  string_of_list_ascii (Py.replace_dots (list_ascii_of_string s)).

(** [match.group(1)] of [re.search(r"\$visits_([a-zA-Z\_0-9]+)", name)] *)
Definition search_visits (name : string) : option string :=
  string_of_list_ascii <$> Re.search_visits (list_ascii_of_string name).

(** [name] matches the pattern of [__push_variable] and [node_name] is
    what the pattern captures. *)
Definition names_visits (name node_name : string) : Prop :=
  Re.names_visits (list_ascii_of_string name)
                           (list_ascii_of_string node_name).

(** ** Helpers of the class *)

(** [__lookup_string] *)
Definition lookup_string (string_key : string) : M string :=
  let* r := get in
  match string_lookup_table r !! string_key with
  | None => raise (NotInStringTable string_key)
  | Some entry => ret (entry_text entry)
  end.

(** [__lookup_line_no] *)
Definition lookup_line_no (string_key : string) : M Z :=
  let* r := get in
  match string_lookup_table r !! string_key with
  | None => raise (NotInStringTable string_key)
  | Some entry => of_option (Py.int_of_str (entry_lineNumber entry)) ConversionError
  end.

(** [__find_label].  [self._compiled_yarn.nodes[self.current_node]] is a
    read of a protobuf map: [None] is not a valid key, and an absent key
    is added with an empty node (which has no label). *)
Definition find_label (label_key : string) : M Z :=
  let* r := get in
  match current_node r with
  | None => raise TypeError
  | Some n =>
      match nodes (compiled_yarn r) !! n with
      | Some nd =>
          match labels nd !! label_key with
          | Some i => ret i
          | None => raise (NoSuchLabel n label_key)
          end
      | None =>
          let* _ := modify (set_compiled_yarn
                              {| nodes := <[n := default_node]> (nodes (compiled_yarn r)) |}) in
          raise (NoSuchLabel n label_key)
      end
  end.

(** [__find_expressions] *)
Definition find_expressions (operand : Operand) : M unit :=
  let* n := of_option (Py.int_of_float (float_value operand)) ConversionError in
  if negb (n =? 0) then raise ExpressionsNotSupported else ret tt.

(** [instruction.operands[k]] *)
Definition operand_at (instruction : Instruction) (k : Z) : M Operand :=
  of_option (Py.index (operands instruction) k) IndexError.

(** [if len(instruction.operands) > k: self.__find_expressions(instruction.operands[k])] *)
Definition check_expressions (instruction : Instruction) (k : Z) : M unit :=
  if Z.of_nat (length (operands instruction)) >? k then
    let* operand := operand_at instruction k in find_expressions operand
  else ret tt.

(** [self._vm_data_stack.insert(0, v)] *)
Definition push (v : Py.value) : M unit :=
  modify (fun r => set_vm_data_stack (v :: vm_data_stack r) r).

(** [self._vm_data_stack.pop(0)] *)
Definition pop0 : M Py.value :=
  let* r := get in
  match vm_data_stack r with
  | [] => raise IndexError
  | v :: rest => let* _ := modify (set_vm_data_stack rest) in ret v
  end.

(** [self._vm_data_stack[0]] *)
Definition peek0 : M Py.value :=
  let* r := get in of_option (Py.index (vm_data_stack r) 0) IndexError.

(** [self._line_buffer.append(line)] *)
Definition append_line (line : string) : M unit :=
  modify (fun r => set_line_buffer (line_buffer r ++ [line]) r).

(** ** Public methods that do not run the VM *)

(** [get_line] *)
Definition get_line : M string :=
  let* r := get in
  match line_buffer r with
  | [] => raise IndexError
  | line :: rest => let* _ := modify (set_line_buffer rest) in ret line
  end.

(** [has_line] *)
Definition has_line (r : runner) : bool :=
  Z.of_nat (length (line_buffer r)) >? 0.

(** [get_lines] *)
Definition get_lines : M (list string) :=
  let* r := get in
  let* _ := modify (set_line_buffer []) in
  ret (line_buffer r).

(** [get_choices] *)
Definition get_choices (r : runner) : list option_entry := option_buffer r.

(** [add_command_handler] *)
Definition add_command_handler (command : string) (fn : handler) : M unit :=
  modify (fun r => set_command_handlers (<[command := fn]> (command_handlers r)) r).

(** ** OpCode implementations *)

(** [__jump_to] *)
Definition jump_to (instruction : Instruction) : M unit :=
  let* operand := operand_at instruction 0 in
  let* target := find_label (string_value operand) in
  modify (set_program_counter target).

(** [__jump] *)
Definition jump (_instruction : Instruction) : M unit :=
  let* r := get in
  match vm_data_stack r with
  | Py.VStr label_key :: _ =>
      let* target := find_label label_key in
      modify (set_program_counter target)
  | _ => raise JumpRequiresString
  end.

(** [__run_line] *)
Definition run_line (instruction : Instruction) : M unit :=
  let* operand := operand_at instruction 0 in
  let string_key := string_value operand in
  let* _ := check_expressions instruction 1 in
  let* r := get in
  let* _ :=
    if experimental_newlines r then
      match opcode (previous_instruction r) with
      | RUN_LINE =>
          let* prev_operand := operand_at (previous_instruction r) 0 in
          let* prev_line_no := lookup_line_no (string_value prev_operand) in
          let* curr_line_no := lookup_line_no string_key in
          let diff := curr_line_no - prev_line_no in
          if diff >? 1 then
            modify (fun r => set_line_buffer
                      (line_buffer r ++ repeat EmptyString (Z.to_nat (diff - 1))) r)
          else ret tt
      | _ => ret tt
      end
    else ret tt in
  let* line := lookup_string string_key in
  append_line line.

(** The message of the warning of [__run_command]. *)
Definition no_handler_warning (command : string) : string :=
  "Command '" +:+ command +:+ "' does not have a registered command handler.".

(** [__run_command] *)
Definition run_command (instruction : Instruction) : M unit :=
  let* operand := operand_at instruction 0 in
  let (command, args) := parse_command (string_value operand) in
  let* r := get in
  match command_handlers r !! command with
  | None => warn (no_handler_warning command)
  | Some fn =>
      let* _ := check_expressions instruction 1 in
      match fn args with
      | ReturnsStr line => append_line line
      | ReturnsOther => ret tt
      | HandlerRaises => raise Raised
      end
  end.

(** [__add_option] *)
Definition add_option (instruction : Instruction) : M unit :=
  let* title := operand_at instruction 0 in
  let* path := operand_at instruction 1 in
  let* _ := check_expressions instruction 2 in
  let* title_text := lookup_string (string_value title) in
  modify (fun r => set_option_buffer
            (option_buffer r ++
               [{| index := Z.of_nat (length (option_buffer r));
                   text := title_text;
                   choice := string_value path |}]) r).

(** [__show_options] *)
Definition show_options (_instruction : Instruction) : M unit :=
  modify (set_paused true).

(** [__push_string] *)
Definition push_string (instruction : Instruction) : M unit :=
  let* operand := operand_at instruction 0 in
  push (Py.VStr (string_value operand)).

(** [__push_float] *)
Definition push_float (instruction : Instruction) : M unit :=
  let* operand := operand_at instruction 0 in
  push (Py.VFloat (float_value operand)).

(** [__push_bool] *)
Definition push_bool (instruction : Instruction) : M unit :=
  let* operand := operand_at instruction 0 in
  push (Py.VBool (bool_value operand)).

(** [__push_null] *)
Definition push_null (_instruction : Instruction) : M unit :=
  push Py.VNone.

(** [__jump_if_false] *)
Definition jump_if_false (instruction : Instruction) : M unit :=
  let* top := peek0 in
  if Py.eq_False top then jump_to instruction else ret tt.

(** [__pop] *)
Definition pop (_instruction : Instruction) : M unit :=
  let* _ := pop0 in ret tt.

(** [__push_variable] *)
Definition push_variable (instruction : Instruction) : M unit :=
  let* operand := operand_at instruction 0 in
  let variable_name := string_value operand in
  match search_visits variable_name with
  | Some node_name =>
      let* r := get in
      let visits_lookup := dict_rekey replace_dots (visits r) in
      match dict_get node_name visits_lookup with
      | None => push (Py.VInt 0)
      | Some n => push (Py.VInt n)
      end
  | None =>
      let* r := get in
      match variables r !! variable_name with
      | None => raise (VariableNotSet variable_name)
      | Some v => push v
      end
  end.

(** [__store_variable]: the right-hand side is evaluated first. *)
Definition store_variable (instruction : Instruction) : M unit :=
  let* top := peek0 in
  let* operand := operand_at instruction 0 in
  modify (fun r => set_variables (<[string_value operand := top]> (variables r)) r).

(** [__stop] *)
Definition stop (_instruction : Instruction) : M unit :=
  modify (set_finished true).

(** ** Construction *)

(** [x if x else default]: [None] and an empty container are both
    falsy. *)
Definition list_or {A} (x : option (list A)) (default : list A) : list A :=
  match x with
  | Some (a :: l) => a :: l
  | Some [] | None => default
  end.

Definition map_or {V} (x : option (gmap string V)) (default : gmap string V)
  : gmap string V :=
  match x with
  | Some m => if decide (m = ∅) then default else m
  | None => default
  end.

(** The keyword arguments of [__init__].  The two ways of passing the
    program and the string table ([compiled_yarn_f] or [compiled_yarn],
    [names_csv_f] or [string_lookup_table]) are taken after decoding;
    [vm_instruction_stack] is taken after [json_format.Parse]. *)
Module Args.
Record t := {
  compiled_yarn : Program;
  string_lookup_table : option (gmap string table_entry);
  autostart : bool;
  enable_tracing : bool;
  experimental_newlines : bool;
  visits : option (list (string * Z));
  variables : option (gmap string Py.value);
  current_node : option string;
  command_handlers : option (gmap string handler);
  line_buffer : option (list string);
  option_buffer : option (list option_entry);
  vm_data_stack : option (list Py.value);
  vm_instruction_stack : option (list Instruction);
  program_counter : Z;
  previous_instruction : option Instruction
}.
End Args.

(** [len(stack) != 0 and stack[-1].opcode == Instruction.OpCode.STOP] *)
Definition ends_with_stop (stack : list Instruction) : bool :=
  negb (Z.of_nat (length stack) =? 0) &&
  match Py.index stack (-1) with
  | Some {| opcode := STOP |} => true
  | _ => false
  end.

(** The body of [__init__] up to [self._autostart = autostart]. *)
Definition init_fields (a : Args.t) : runner :=
  let stack := list_or (Args.vm_instruction_stack a) [run_node_marker] in
  {| compiled_yarn := Args.compiled_yarn a;
     string_lookup_table := map_or (Args.string_lookup_table a) ∅;
     enable_tracing := Args.enable_tracing a;
     experimental_newlines := Args.experimental_newlines a;
     visits := list_or (Args.visits a) (zero_visits (Args.compiled_yarn a));
     variables := map_or (Args.variables a) ∅;
     current_node := Args.current_node a;
     command_handlers := map_or (Args.command_handlers a) ∅;
     line_buffer := list_or (Args.line_buffer a) [];
     option_buffer := list_or (Args.option_buffer a) [];
     vm_data_stack := list_or (Args.vm_data_stack a) [Py.VStr "Start"];
     vm_instruction_stack := stack;
     program_counter := Args.program_counter a;
     previous_instruction :=
       match Args.previous_instruction a with
       | Some i => i
       | None => run_node_marker
       end;
     paused := true;
     finished := ends_with_stop stack;
     autostart := Args.autostart a;
     log := [] |}.

(** ** The VM, over a standard library *)

(** Modelled from the spec: the registry [vm_std_lib.functions], which is
    not among the sources.  It is a parameter of the VM: a finite map
    from a function name to the expected number of parameters and the
    function, which returns a value or raises ([None]). *)

Abbreviation std_lib :=
  (gmap string (nat * (list Py.value -> option Py.value))).

Section VM.

Variable std_lib_functions : std_lib.

(** The [while expected_params > 0] loop of [__call_func]. *)
Fixpoint pop_params (expected_params : nat) (params : list Py.value)
  : M (list Py.value) :=
  match expected_params with
  | O => ret params
  | S n => let* v := pop0 in pop_params n (v :: params)
  end.

(** [__call_func] *)
Definition call_func (instruction : Instruction) : M unit :=
  let* operand := operand_at instruction 0 in
  let function_name := string_value operand in
  match std_lib_functions !! function_name with
  | None => raise (FunctionNotImplemented function_name)
  | Some (expected_params, fn) =>
      let* top := pop0 in
      let* actual_params := of_option (Py.int top) ConversionError in
      if negb (Z.of_nat expected_params =? actual_params) then
        raise (WrongParameterCount function_name expected_params actual_params)
      else
        let* params := pop_params expected_params [] in
        match fn params with
        | None => raise Raised
        | Some ret_value => push ret_value
        end
  end.

(** [__go_to_node]; [process] is the call of [__process_instruction] that
    ends it. *)
Definition go_to_node (process : M unit) (node_key : string) : M unit :=
  let* r := get in
  match nodes (compiled_yarn r) !! node_key with
  | None => raise (InvalidNode node_key)
  | Some nd =>
      let* _ := modify (set_current_node (Some node_key)) in
      let* _ := emit (Entered node_key) in
      let* count := of_option (dict_get node_key (visits r)) (KeyError node_key) in
      let* _ := modify (set_visits (dict_set node_key (count + 1) (visits r))) in
      let* _ := modify (set_vm_instruction_stack (instructions nd)) in
      let* _ := modify (set_program_counter 0) in
      let* _ := modify (set_previous_instruction run_node_marker) in
      process
  end.

(** [__run_node] *)
Definition run_node (process : M unit) (instruction : Instruction) : M unit :=
  match operands instruction with
  | operand :: _ => go_to_node process (string_value operand)
  | [] =>
      let* r := get in
      match vm_data_stack r with
      | Py.VStr node_key :: _ =>
          let* _ := pop0 in go_to_node process node_key
      | _ => raise RunNodeRequiresString
      end
  end.

(** The dictionary [opcode_functions] of [__process_instruction]. *)
Definition opcode_functions (process : M unit) (op : OpCode)
  : option (Instruction -> M unit) :=
  match op with
  | JUMP_TO => Some jump_to
  | JUMP => Some jump
  | RUN_LINE => Some run_line
  | RUN_COMMAND => Some run_command
  | ADD_OPTION => Some add_option
  | SHOW_OPTIONS => Some show_options
  | PUSH_STRING => Some push_string
  | PUSH_FLOAT => Some push_float
  | PUSH_BOOL => Some push_bool
  | PUSH_NULL => Some push_null
  | JUMP_IF_FALSE => Some jump_if_false
  | POP => Some pop
  | CALL_FUNC => Some call_func
  | PUSH_VARIABLE => Some push_variable
  | STORE_VARIABLE => Some store_variable
  | STOP => Some stop
  | RUN_NODE => Some (run_node process)
  | UNRECOGNIZED _ => None
  end.

(** [__process_instruction].  Each call costs one unit of [fuel]. *)
Fixpoint process_instruction (fuel : nat) : M unit :=
  match fuel with
  | O => raise RecursionError
  | S fuel' =>
      let* r := get in
      let len := Z.of_nat (length (vm_instruction_stack r)) in
      if len <? 1 then raise InstructionStackEmpty
      else if program_counter r >? len - 1 then raise ProgramCounterOverrun
      else
        let* instruction :=
          of_option (Py.index (vm_instruction_stack r) (program_counter r))
                    IndexError in
        let* _ := modify (set_program_counter (program_counter r + 1)) in
        match opcode_functions (process_instruction fuel') (opcode instruction) with
        | None => raise (OpCodeNotImplemented (opcode instruction))
        | Some opcode_function =>
            let* _ := emit (Dispatched instruction) in
            let* _ := opcode_function instruction in
            let* r' := get in
            if negb (paused r') && negb (finished r') then
              let* _ := modify (set_previous_instruction instruction) in
              process_instruction fuel'
            else ret tt
        end
  end.

(** [resume] *)
Definition resume (fuel : nat) : M unit :=
  let* r := get in
  match vm_data_stack r with
  | Py.VStr _ :: _ =>
      let* _ := modify (set_paused false) in
      process_instruction fuel
  | _ => raise NoOptionSelected
  end.

(** [choose] *)
Definition choose (fuel : nat) (i : Z) : M unit :=
  let* r := get in
  let* chosen := of_option (Py.index (option_buffer r) i) IndexError in
  let* _ := modify (set_option_buffer []) in
  let* _ := push (Py.VStr (choice chosen)) in
  resume fuel.

(** [YarnRunner(...)]: the new object, or the exception of the
    [resume()] that [autostart] asks for. *)
Definition init (fuel : nat) (a : Args.t) : result unit :=
  if Args.autostart a then resume fuel (init_fields a)
  else Ok tt (init_fields a).

End VM.

(** ** Snapshots, sessions and the documented command syntax *)

(** The full snapshot of a runner, as keyword arguments of [__init__]:
    every attribute is passed back as it is, and [autostart] is
    disabled. *)
Definition snapshot (r : runner) : Args.t :=
  {| Args.compiled_yarn := compiled_yarn r;
     Args.string_lookup_table := Some (string_lookup_table r);
     Args.autostart := false;
     Args.enable_tracing := enable_tracing r;
     Args.experimental_newlines := experimental_newlines r;
     Args.visits := Some (visits r);
     Args.variables := Some (variables r);
     Args.current_node := current_node r;
     Args.command_handlers := Some (command_handlers r);
     Args.line_buffer := Some (line_buffer r);
     Args.option_buffer := Some (option_buffer r);
     Args.vm_data_stack := Some (vm_data_stack r);
     Args.vm_instruction_stack := Some (vm_instruction_stack r);
     Args.program_counter := program_counter r;
     Args.previous_instruction := Some (previous_instruction r) |}.

(** A construction without a prior snapshot: only the program, the string
    table, the command handlers and the three flags are passed. *)
Definition fresh (a : Args.t) : Prop :=
  Args.visits a = None /\ Args.variables a = None /\
  Args.current_node a = None /\ Args.line_buffer a = None /\
  Args.option_buffer a = None /\ Args.vm_data_stack a = None /\
  Args.vm_instruction_stack a = None /\ Args.program_counter a = 0 /\
  Args.previous_instruction a = None.

(** The states of a session on program [p]: what a fresh construction
    returns, and what each public method leaves behind, whether it
    returns or raises. *)
Inductive reachable (lib : std_lib) (p : Program) : runner -> Prop :=
| reach_init fuel a r :
    fresh a -> Args.compiled_yarn a = p ->
    init lib fuel a = Ok tt r -> reachable lib p r
| reach_resume fuel r :
    reachable lib p r -> reachable lib p (final (resume lib fuel r))
| reach_choose fuel i r :
    reachable lib p r -> reachable lib p (final (choose lib fuel i r))
| reach_get_line r :
    reachable lib p r -> reachable lib p (final (get_line r))
| reach_get_lines r :
    reachable lib p r -> reachable lib p (final (get_lines r))
| reach_add_command_handler command fn r :
    reachable lib p r ->
    reachable lib p (final (add_command_handler command fn r)).

(** The number of transitions into [node_key] recorded in a log. *)
Fixpoint transitions (node_key : string) (l : list event) : nat :=
  match l with
  | [] => O
  | Entered k :: l' =>
      if String.eqb node_key k then S (transitions node_key l')
      else transitions node_key l'
  | _ :: l' => transitions node_key l'
  end.

(** The number of instructions dispatched in a log. *)
Fixpoint dispatches (l : list event) : nat :=
  match l with
  | [] => O
  | Dispatched _ :: l' => S (dispatches l')
  | _ :: l' => dispatches l'
  end.

(** *** Invariants of a session *)

(** [__go_to_node] up to its closing call of [__process_instruction]. *)
Definition enter_node (node_key : string) : M unit :=
  go_to_node (ret tt) node_key.

(** The current node, when set, is a node of the program. *)
Definition current_node_known (r : runner) : Prop :=
  forall n, current_node r = Some n -> is_Some (nodes (compiled_yarn r) !! n).

(** [r'] differs from [r] in nothing that node transitions depend on. *)
Record frame (r r' : runner) : Prop := {
  frame_visits : visits r' = visits r;
  frame_current_node : current_node r' = current_node r;
  frame_finished : finished r = true -> finished r' = true;
  frame_transitions : forall n, transitions n (log r') = transitions n (log r);
  frame_program : current_node_known r -> compiled_yarn r' = compiled_yarn r
}.

(** The invariant of a session on program [p]: the program is the one
    given at construction, the current node is one of its nodes, every
    node has a counter, and every counter is the number of recorded
    transitions into its node. *)
Definition counts_transitions (p : Program) (r : runner) : Prop :=
  compiled_yarn r = p /\
  current_node_known r /\
  (forall n, is_Some (nodes p !! n) -> is_Some (dict_get n (visits r))) /\
  (forall n c, dict_get n (visits r) = Some c ->
               c = Z.of_nat (transitions n (log r))).

(** A runner without what the code never reads: the [autostart] flag,
    which only [__init__] tests, and the log. *)
Definition core (r : runner) : runner :=
  {| compiled_yarn := compiled_yarn r;
     string_lookup_table := string_lookup_table r;
     enable_tracing := enable_tracing r;
     experimental_newlines := experimental_newlines r;
     visits := visits r;
     variables := variables r;
     current_node := current_node r;
     command_handlers := command_handlers r;
     line_buffer := line_buffer r;
     option_buffer := option_buffer r;
     vm_data_stack := vm_data_stack r;
     vm_instruction_stack := vm_instruction_stack r;
     program_counter := program_counter r;
     previous_instruction := previous_instruction r;
     paused := paused r;
     finished := finished r;
     autostart := false;
     log := [] |}.

(** A result, compared up to [core]. *)
Definition erase {A} (x : result A) : result A :=
  match x with
  | Ok a r => Ok a (core r)
  | Raise e r => Raise e (core r)
  end.

(** [m] behaves the same on two runners with the same [core]. *)
Definition blind {A} (m : M A) : Prop :=
  forall x y, core x = core y -> erase (m x) = erase (m y).

(** *** What the dispatch loop maintains *)

(** The condition under which [__process_instruction] returns instead of
    calling itself again. *)
Definition suspended_or_finished (r : runner) : Prop :=
  paused r = true \/ finished r = true.

(** A call that did not exceed the recursion depth it was given. *)
Definition completed {A} (x : result A) : Prop :=
  match x with
  | Raise RecursionError _ => False
  | _ => True
  end.

(** The option that [__add_option] appends to a buffer. *)
Definition appended_option (buffer : list option_entry) (o : option_entry) : Prop :=
  index o = Z.of_nat (length buffer).

(** What one opcode function may change: [r'] is the runner that the
    function of opcode [op] leaves when started on [r], whether it
    returns or raises. *)
Record writes (op : OpCode) (r r' : runner) : Prop := {
  writes_program : vm_instruction_stack r' = vm_instruction_stack r /\
                   previous_instruction r' = previous_instruction r /\
                   string_lookup_table r' = string_lookup_table r /\
                   command_handlers r' = command_handlers r /\
                   experimental_newlines r' = experimental_newlines r;
  writes_visits : visits r' = visits r /\ current_node r' = current_node r;
  writes_variables : (op <> STORE_VARIABLE -> variables r' = variables r) /\
                     (variables r' = variables r \/
                      exists k v, variables r' = <[k := v]> (variables r));
  writes_lines : (op <> RUN_LINE -> op <> RUN_COMMAND ->
                  line_buffer r' = line_buffer r) /\
                 exists l, line_buffer r' = (line_buffer r ++ l)%list;
  writes_options : (op <> ADD_OPTION -> option_buffer r' = option_buffer r) /\
                   (option_buffer r' = option_buffer r \/
                    exists o, appended_option (option_buffer r) o /\
                              option_buffer r' = (option_buffer r ++ [o])%list);
  writes_stack : op <> PUSH_STRING -> op <> PUSH_FLOAT -> op <> PUSH_BOOL ->
                 op <> PUSH_NULL -> op <> PUSH_VARIABLE -> op <> POP ->
                 op <> CALL_FUNC -> vm_data_stack r' = vm_data_stack r;
  writes_paused : op <> SHOW_OPTIONS -> paused r' = paused r;
  writes_finished : op <> STOP -> finished r' = finished r;
  writes_counter : op <> JUMP_TO -> op <> JUMP -> op <> JUMP_IF_FALSE ->
                   program_counter r' = program_counter r
}.

(** [r'] has the dialogue data of [r]: the steps of the loop that only
    move the control state (counter, stacks, node, flags) are of this
    kind. *)
Record same_data (r r' : runner) : Prop := {
  same_lines : line_buffer r' = line_buffer r;
  same_options : option_buffer r' = option_buffer r;
  same_variables : variables r' = variables r;
  same_table : string_lookup_table r' = string_lookup_table r;
  same_handlers : command_handlers r' = command_handlers r;
  same_newlines : experimental_newlines r' = experimental_newlines r
}.

(** Every option of a buffer carries its own position. *)
Definition indexed (buffer : list option_entry) : Prop :=
  forall k o, nth_error buffer k = Some o -> index o = Z.of_nat k.

(** The configuration of [r] is still that of [r0], and no variable of
    [r0] has been lost. *)
Definition keeps_configuration (r0 r : runner) : Prop :=
  string_lookup_table r = string_lookup_table r0 /\
  command_handlers r = command_handlers r0 /\
  experimental_newlines r = experimental_newlines r0 /\
  forall k, is_Some (variables r0 !! k) -> is_Some (variables r !! k).

(** The node counters of [r] are those of [r0], in the same order, none
    lower. *)
Definition counters_grow (r0 r : runner) : Prop :=
  map fst (visits r) = map fst (visits r0) /\
  forall n c, dict_get n (visits r0) = Some c ->
              exists c', dict_get n (visits r) = Some c' /\ c <= c'.

(** The state in which [__go_to_node] calls [__process_instruction]: the
    runner has entered node [node_key], whose counter was [count]. *)
Definition entered (node_key : string) (nd : Node) (count : Z) (r : runner)
  : runner :=
  set_previous_instruction run_node_marker
    (set_program_counter 0
       (set_vm_instruction_stack (instructions nd)
          (set_visits (dict_set node_key (count + 1) (visits r))
             (set_log (log r ++ [Entered node_key])
                (set_current_node (Some node_key) r))))).

(** A construction with [autostart] and without a prior snapshot, when
    the initial [RUN_NODE] has been dispatched and has popped the node
    name. *)
Definition started (a : Args.t) : runner :=
  set_vm_data_stack []
    (set_log [Dispatched run_node_marker]
       (set_program_counter 1 (set_paused false (init_fields a)))).

(** An instruction with other operands. *)
Definition with_operands (ops : list Operand) (i : Instruction) : Instruction :=
  {| opcode := opcode i; operands := ops |}.

(** The value that the dictionary [{f(k): v for (k, v) in d.items()}]
    binds to [n]: that of the last item of [d] whose key is renamed to
    [n]. *)
Definition last_renamed {V} (f : string -> string) (n : string)
    (d : list (string * V)) : option V :=
  fold_left (fun found kv => if String.eqb (f (fst kv)) n then Some (snd kv)
                             else found) d None.


(** [k.replace(".", "_")], spelled out character by character: what
    [replace_dots] is compared with. *)
Definition underscored (k : string) : string :=
  string_of_list_ascii
    (map (fun c => if Ascii.eqb c "." then "_"%char else c)
       (list_ascii_of_string k)).

(** The keyword arguments [a] with another [autostart]. *)
Definition with_autostart (b : bool) (a : Args.t) : Args.t :=
  {| Args.compiled_yarn := Args.compiled_yarn a;
     Args.string_lookup_table := Args.string_lookup_table a;
     Args.autostart := b;
     Args.enable_tracing := Args.enable_tracing a;
     Args.experimental_newlines := Args.experimental_newlines a;
     Args.visits := Args.visits a;
     Args.variables := Args.variables a;
     Args.current_node := Args.current_node a;
     Args.command_handlers := Args.command_handlers a;
     Args.line_buffer := Args.line_buffer a;
     Args.option_buffer := Args.option_buffer a;
     Args.vm_data_stack := Args.vm_data_stack a;
     Args.vm_instruction_stack := Args.vm_instruction_stack a;
     Args.program_counter := Args.program_counter a;
     Args.previous_instruction := Args.previous_instruction a |}.


(** The instructions of a node that says the lines [keys] and stops. *)
Definition says (keys : list string) : list Instruction :=
  (map (fun key => {| opcode := RUN_LINE; operands := [OString key] |}) keys
     ++ [{| opcode := STOP; operands := [] |}])%list.


(** The instructions that offer the options [opts], each a line key and
    a target, and wait for the choice. *)
Definition offers (opts : list (string * string)) : list Instruction :=
  (map (fun o => {| opcode := ADD_OPTION;
                    operands := [OString (fst o); OString (snd o)] |}) opts
     ++ [{| opcode := SHOW_OPTIONS; operands := [] |}])%list.

(** The options of the texts and targets [opts], numbered from
    [start]. *)
Fixpoint numbered (start : Z) (opts : list (string * string))
  : list option_entry :=
  match opts with
  | [] => []
  | (title, target) :: rest =>
      {| index := start; text := title; choice := target |}
        :: numbered (start + 1) rest
  end.

(** The command syntax as the documentation words it: the text is split
    on whitespace, a substring in single or double quotes is one token,
    and a token loses one layer of matching surrounding quotes.  This
    is the reading that [parse_command] is compared with. *)
Module Documented.

Fixpoint tokens (s cur : list ascii) (open : option ascii)
  : list (list ascii) :=
  match s with
  | [] => match cur with [] => [] | _ => [rev cur] end
  | c :: rest =>
      match open with
      | Some q =>
          tokens rest (c :: cur) (if Ascii.eqb c q then None else Some q)
      | None =>
          if Py.isspace c then
            match cur with
            | [] => tokens rest [] None
            | _ => rev cur :: tokens rest [] None
            end
          else tokens rest (c :: cur) (if Re.is_quote c then Some c else None)
      end
  end.

Definition strip_matching_quotes (tok : list ascii) : list ascii :=
  match tok with
  | q :: body =>
      match rev body with
      | q' :: mid =>
          if Re.is_quote q && Ascii.eqb q q' then rev mid else tok
      | [] => tok
      end
  | [] => tok
  end.

Definition parse_command (text : string) : list string :=
  map (fun tok => string_of_list_ascii (strip_matching_quotes tok))
      (tokens (list_ascii_of_string text) [] None).

End Documented.

(** ** Concrete programs *)

Module Examples.

Definition I (op : OpCode) (ops : list Operand) : Instruction :=
  {| opcode := op; operands := ops |}.

Definition dq : string := String Re.dquote EmptyString.

(** [mycommand foo "bar baz" 'qux'], the double quotes spelled out. *)
Definition mycommand : string :=
  "mycommand foo " +:+ dq +:+ "bar baz" +:+ dq +:+ " 'qux'".

(** A command whose name is quoted. *)
Definition quoted_name : string := dq +:+ "a b" +:+ dq +:+ " c".

(** A node that offers one option, waits, and then says one line. *)
Definition start_node : Node :=
  {| instructions :=
       [ I ADD_OPTION [OString "l1"; OString "L"]; I SHOW_OPTIONS [];
         I JUMP []; I POP []; I RUN_LINE [OString "l2"]; I STOP [] ];
     labels := {[ "L" := 3 ]} |}.

Definition prog : Program := {| nodes := {[ "Start" := start_node ]} |}.

Definition table : gmap string table_entry :=
  {[ "l1" := {| entry_text := "Pick"; entry_lineNumber := "1" |};
     "l2" := {| entry_text := "Done"; entry_lineNumber := "2" |} ]}.

Definition fresh_args (p : Program) : Args.t :=
  {| Args.compiled_yarn := p;
     Args.string_lookup_table := Some table;
     Args.autostart := true;
     Args.enable_tracing := false;
     Args.experimental_newlines := false;
     Args.visits := None;
     Args.variables := None;
     Args.current_node := None;
     Args.command_handlers := None;
     Args.line_buffer := None;
     Args.option_buffer := None;
     Args.vm_data_stack := None;
     Args.vm_instruction_stack := None;
     Args.program_counter := 0;
     Args.previous_instruction := None |}.

(** The session on [prog], suspended at [SHOW_OPTIONS]. *)
Definition suspended : runner := final (init ∅ 100 (fresh_args prog)).

(** The same session rebuilt from its snapshot. *)
Definition restored : runner := final (init ∅ 100 (snapshot suspended)).

(** A node that keeps a string on the stack, offers one option, says
    one line and starts over. *)
Definition loop_node : Node :=
  {| instructions :=
       [ I PUSH_STRING [OString "keep"];
         I ADD_OPTION [OString "l1"; OString "L"]; I SHOW_OPTIONS [];
         I JUMP []; I POP []; I RUN_LINE [OString "l2"];
         I RUN_NODE [OString "Start"] ];
     labels := {[ "L" := 4 ]} |}.

Definition loop_prog : Program := {| nodes := {[ "Start" := loop_node ]} |}.

(** The session on [loop_prog], suspended at [SHOW_OPTIONS]. *)
Definition looping : runner := final (init ∅ 100 (fresh_args loop_prog)).

(** A node that leaves a string on the stack and stops before its end. *)
Definition early_stop_node : Node :=
  {| instructions :=
       [ I PUSH_STRING [OString "x"]; I STOP [];
         I RUN_LINE [OString "l2"]; I STOP [] ];
     labels := ∅ |}.

Definition early_stop_prog : Program :=
  {| nodes := {[ "Start" := early_stop_node ]} |}.

(** The session on [early_stop_prog] after its first [STOP]. *)
Definition stopped : runner := final (init ∅ 100 (fresh_args early_stop_prog)).

(** A runner inside [start_node] with the number zero on the stack. *)
Definition zero_on_top : runner :=
  set_vm_data_stack [Py.VFloat 0%float]
    (set_vm_instruction_stack [I JUMP_IF_FALSE [OString "L"]; I STOP []]
       (set_program_counter 1 suspended)).

(** A standard library with one function of two parameters. *)
Definition first_of_two (params : list Py.value) : option Py.value :=
  match params with
  | [a; _] => Some a
  | _ => None
  end.

Definition lib : std_lib := {[ "First" := (2%nat, first_of_two) ]}.

(** A string table with a gap between the lines of its two entries. *)
Definition spaced_table : gmap string table_entry :=
  {[ "l1" := {| entry_text := "Pick"; entry_lineNumber := "1" |};
     "l2" := {| entry_text := "Done"; entry_lineNumber := "4" |} ]}.

(** A runner with [experimental_newlines] that has just run line [l1]. *)
Definition after_first_line : runner :=
  {| compiled_yarn := prog;
     string_lookup_table := spaced_table;
     enable_tracing := false;
     experimental_newlines := true;
     visits := [("Start", 1)];
     variables := ∅;
     current_node := Some "Start";
     command_handlers := ∅;
     line_buffer := ["Pick"];
     option_buffer := [];
     vm_data_stack := [Py.VFloat 3%float];
     vm_instruction_stack := [I RUN_LINE [OString "l1"]; I RUN_LINE [OString "l2"]];
     program_counter := 1;
     previous_instruction := I RUN_LINE [OString "l1"];
     paused := false;
     finished := false;
     autostart := false;
     log := [] |}.

(** A command handler that answers with its first argument. *)
Definition echo (args : list string) : handler_result :=
  match args with
  | a :: _ => ReturnsStr a
  | [] => ReturnsOther
  end.

(** A program without a node named [Start]. *)
Definition no_start_prog : Program := {| nodes := {[ "Intro" := start_node ]} |}.

(** Counters of two nodes whose names differ in a dot only, the dotted
    one last. *)
Definition dotted : runner :=
  set_visits [("a_b", 5); ("a.b", 2)] after_first_line.

(** The string of the separator 0x1c followed by [digits]. *)
Definition after_separator (digits : string) : string := String "028" digits.

(** [after_first_line] with the separator 0x1c in front of the line
    number of [l2]. *)
Definition separator_line : runner :=
  {| compiled_yarn := prog;
     string_lookup_table :=
       {[ "l1" := {| entry_text := "Pick"; entry_lineNumber := "1" |};
          "l2" := {| entry_text := "Done";
                     entry_lineNumber := after_separator "4" |} ]};
     enable_tracing := false;
     experimental_newlines := true;
     visits := [("Start", 1)];
     variables := ∅;
     current_node := Some "Start";
     command_handlers := ∅;
     line_buffer := ["Pick"];
     option_buffer := [];
     vm_data_stack := [Py.VFloat 3%float];
     vm_instruction_stack := [I RUN_LINE [OString "l1"]; I RUN_LINE [OString "l2"]];
     program_counter := 1;
     previous_instruction := I RUN_LINE [OString "l1"];
     paused := false;
     finished := false;
     autostart := false;
     log := [] |}.

(** [calling] with the separator 0x1c in front of the count. *)
Definition separator_count : runner :=
  set_vm_data_stack
    [Py.VStr (after_separator "2"); Py.VStr "top"; Py.VStr "below"; Py.VStr "rest"]
    after_first_line.

(** A runner with a variable whose name contains the visits pattern. *)
Definition pattern_inside : runner :=
  set_variables {[ "x$visits_Start" := Py.VStr "v" ]} after_first_line.

(** The arguments of a construction on [prog] with the default
    [autostart] and an empty value stack as snapshot. *)
Definition empty_stack_args : Args.t :=
  {| Args.compiled_yarn := prog;
     Args.string_lookup_table := Some table;
     Args.autostart := true;
     Args.enable_tracing := false;
     Args.experimental_newlines := false;
     Args.visits := None;
     Args.variables := None;
     Args.current_node := None;
     Args.command_handlers := None;
     Args.line_buffer := None;
     Args.option_buffer := None;
     Args.vm_data_stack := Some [];
     Args.vm_instruction_stack := None;
     Args.program_counter := 0;
     Args.previous_instruction := None |}.

(** A runner about to call [First] on two arguments. *)
Definition calling : runner :=
  set_vm_data_stack
    [Py.VFloat 2%float; Py.VStr "top"; Py.VStr "below"; Py.VStr "rest"]
    after_first_line.

(** A node that says two lines and stops. *)
Definition lines_node : Node :=
  {| instructions := says ["l1"; "l2"]; labels := ∅ |}.

Definition lines_prog : Program := {| nodes := {[ "Start" := lines_node ]} |}.

End Examples.

(** * Properties *)

(** ** Construction from an empty snapshot *)

(** C10, as the code has it.  An empty list or mapping passed to the
    constructor is falsy and is replaced by the construction-time
    default when [__init__] assigns the attributes: an empty value
    stack becomes the one-element stack holding the string Start, an
    empty line buffer, option buffer or variables mapping becomes the
    (empty) default, an empty visits mapping becomes the zeroed
    counters of the program; so the value stack that [__init__]
    assigns is never empty, whatever snapshot is supplied.  With
    autostart disabled this is the state of the constructed session.
    With autostart, the default, the constructor then calls resume()
    on it; after an empty stack snapshot resume() finds the string
    Start on top, passes its check and runs the dispatch loop, and the
    constructed session has the stack that this run leaves. *)
Theorem init_replaces_empty_snapshot (lib : std_lib) (fuel : nat) (a : Args.t) :
  (Args.vm_data_stack a = Some [] ->
   vm_data_stack (init_fields a) = [Py.VStr "Start"]) /\
  (Args.line_buffer a = Some [] -> line_buffer (init_fields a) = []) /\
  (Args.option_buffer a = Some [] -> option_buffer (init_fields a) = []) /\
  (Args.variables a = Some ∅ -> variables (init_fields a) = ∅) /\
  (Args.visits a = Some [] ->
   visits (init_fields a) = zero_visits (Args.compiled_yarn a)) /\
  vm_data_stack (init_fields a) <> [] /\
  (Args.autostart a = false -> init lib fuel a = Ok tt (init_fields a)) /\
  (Args.autostart a = true -> init lib fuel a = resume lib fuel (init_fields a)) /\
  (Args.autostart a = true -> Args.vm_data_stack a = Some [] ->
   init lib fuel a =
   process_instruction lib fuel (set_paused false (init_fields a))).
Proof.
  split; [intros H; unfold init_fields; simpl; rewrite H; reflexivity|].
  split; [intros H; unfold init_fields; simpl; rewrite H; reflexivity|].
  split; [intros H; unfold init_fields; simpl; rewrite H; reflexivity|].
  split; [intros H; unfold init_fields; simpl; rewrite H; reflexivity|].
  split; [intros H; unfold init_fields; simpl; rewrite H; reflexivity|].
  split.
  { unfold init_fields; simpl.
    destruct (Args.vm_data_stack a) as [[|v l]|]; discriminate. }
  split; [intros H; unfold init; rewrite H; reflexivity|].
  split; [intros H; unfold init; rewrite H; reflexivity|].
  intros Hauto Hstack. unfold init. rewrite Hauto.
  unfold resume. unfold bind at 1. unfold get at 1.
  assert (Hs : vm_data_stack (init_fields a) = [Py.VStr "Start"])
    by (unfold init_fields; simpl; rewrite Hstack; reflexivity).
  rewrite Hs. reflexivity.
Qed.

Lemma init_replaces_empty_snapshot_witness :
  let r := set_vm_data_stack [] (set_visits [] Examples.suspended) in
  vm_data_stack (init_fields (snapshot r)) = [Py.VStr "Start"] /\
  visits (init_fields (snapshot r)) = [("Start", 0)] /\
  init ∅ 7 (snapshot r) = Ok tt (init_fields (snapshot r)) /\
  init ∅ 7 Examples.empty_stack_args =
  process_instruction ∅ 7 (set_paused false (init_fields Examples.empty_stack_args)).
Proof.
  intros r.
  destruct (init_replaces_empty_snapshot ∅ 7 (snapshot r))
    as (Hstack & _ & _ & _ & Hvisits & _ & Hinit & _).
  split; [apply Hstack; reflexivity|].
  split; [rewrite Hvisits by reflexivity; vm_compute; reflexivity|].
  split; [apply Hinit; reflexivity|].
  destruct (init_replaces_empty_snapshot ∅ 7 Examples.empty_stack_args)
    as (_ & _ & _ & _ & _ & _ & _ & _ & Hrun).
  apply Hrun; reflexivity.
Defined.

(** C10, as stated, fails for the default construction: with autostart
    the constructor runs the program before it returns, the initial
    RUN_NODE pops the string Start, and the constructed session, built
    from an empty value stack, has an empty value stack. *)
Lemma autostart_pops_start :
  Args.vm_data_stack Examples.empty_stack_args = Some [] /\
  exists r', init ∅ 100 Examples.empty_stack_args = Ok tt r' /\
             vm_data_stack r' = [] /\
             vm_data_stack r' <> [Py.VStr "Start"].
Proof.
  split; [reflexivity|].
  eexists. split; [vm_compute; reflexivity|].
  split; [reflexivity|discriminate].
Qed.

(** ** JUMP_IF_FALSE *)

Lemma eq_False_cases (v : Py.value) :
  Py.eq_False v = true <->
  v = Py.VBool false \/ v = Py.VInt 0 \/
  exists f, v = Py.VFloat f /\ PrimFloat.eqb f 0%float = true.
Proof.
  split.
  - destruct v as [s|f|[|]| |n]; simpl; try discriminate; intros H.
    + right; right; exists f; split; [reflexivity|exact H].
    + left; reflexivity.
    + right; left; f_equal; lia.
  - intros [->|[->|(f & -> & H)]]; simpl; auto.
Qed.

Lemma peek0_cons (r : runner) (top : Py.value) (rest : list Py.value) :
  vm_data_stack r = top :: rest -> peek0 r = Ok top r.
Proof. intros H; unfold peek0, bind, get; rewrite H; reflexivity. Qed.

Lemma jump_to_resolved (instruction : Instruction) (r : runner)
    (op : Operand) (more : list Operand) (n : string) (nd : Node) (target : Z) :
  operands instruction = op :: more ->
  current_node r = Some n ->
  nodes (compiled_yarn r) !! n = Some nd ->
  labels nd !! string_value op = Some target ->
  jump_to instruction r = Ok tt (set_program_counter target r).
Proof.
  intros Hops Hcur Hnode Hlabel.
  unfold jump_to, operand_at, find_label, bind, get, modify, of_option.
  rewrite Hops; simpl. rewrite Hcur, Hnode, Hlabel; reflexivity.
Qed.

Lemma jump_to_stack (instruction : Instruction) (r : runner) :
  vm_data_stack (final (jump_to instruction r)) = vm_data_stack r.
Proof.
  unfold jump_to, operand_at, find_label, bind, get, modify, of_option, ret, raise.
  destruct (Py.index (operands instruction) 0); simpl; [|reflexivity].
  destruct (current_node r); simpl; [|reflexivity].
  destruct (nodes (compiled_yarn r) !! s); simpl; [|reflexivity].
  destruct (labels n !! string_value o); reflexivity.
Qed.

(** C2, as the code has it.  With a non-empty value stack, JUMP_IF_FALSE
    behaves as JUMP_TO exactly when the peeked top compares equal to
    False in Python, that is when it is the boolean false or a number
    equal to zero (the integer 0, the floats 0.0 and -0.0); for every
    other top value the state is left as it is; when the label resolves
    in the current node the program counter becomes the label's index in
    the first case; in all cases the value stack is unchanged. *)
Theorem jump_if_false_peeks (instruction : Instruction) (r : runner)
    (top : Py.value) (rest : list Py.value) :
  vm_data_stack r = top :: rest ->
  (Py.eq_False top = true <->
   top = Py.VBool false \/ top = Py.VInt 0 \/
   exists f, top = Py.VFloat f /\ PrimFloat.eqb f 0%float = true) /\
  (Py.eq_False top = true ->
   jump_if_false instruction r = jump_to instruction r) /\
  (Py.eq_False top = false -> jump_if_false instruction r = Ok tt r) /\
  (forall op more n nd target,
      operands instruction = op :: more ->
      current_node r = Some n ->
      nodes (compiled_yarn r) !! n = Some nd ->
      labels nd !! string_value op = Some target ->
      jump_if_false instruction r =
      Ok tt (if Py.eq_False top then set_program_counter target r else r)) /\
  vm_data_stack (final (jump_if_false instruction r)) = top :: rest.
Proof.
  intros Hstack.
  assert (Hjif : jump_if_false instruction r =
                 if Py.eq_False top then jump_to instruction r else Ok tt r).
  { unfold jump_if_false, bind. rewrite (peek0_cons _ _ _ Hstack).
    destruct (Py.eq_False top); reflexivity. }
  split; [apply eq_False_cases|].
  split; [intros H; rewrite Hjif, H; reflexivity|].
  split; [intros H; rewrite Hjif, H; reflexivity|].
  split.
  - intros op more n nd target Hops Hcur Hnode Hlabel. rewrite Hjif.
    destruct (Py.eq_False top); [|reflexivity].
    eapply jump_to_resolved; eauto.
  - rewrite Hjif. destruct (Py.eq_False top); [|exact Hstack].
    rewrite jump_to_stack; exact Hstack.
Qed.

Lemma jump_if_false_peeks_witness :
  jump_if_false (Examples.I JUMP_IF_FALSE [OString "L"])
    (set_vm_data_stack [Py.VBool false] Examples.zero_on_top) =
  Ok tt (set_program_counter 3
           (set_vm_data_stack [Py.VBool false] Examples.zero_on_top)).
Proof.
  pose (r := set_vm_data_stack [Py.VBool false] Examples.zero_on_top).
  destruct (jump_if_false_peeks (Examples.I JUMP_IF_FALSE [OString "L"]) r
              (Py.VBool false) [] eq_refl) as (_ & _ & _ & H & _).
  apply (H (OString "L") [] "Start" Examples.start_node 3);
    vm_compute; reflexivity.
Defined.

(** C2, as stated, fails: with the number zero on top of the stack the
    jump is taken, although the top is not the boolean false. *)
Lemma jump_if_false_taken_on_zero :
  vm_data_stack Examples.zero_on_top = [Py.VFloat 0%float] /\
  Py.VFloat 0%float <> Py.VBool false /\
  program_counter Examples.zero_on_top = 1 /\
  jump_if_false (Examples.I JUMP_IF_FALSE [OString "L"]) Examples.zero_on_top =
  Ok tt (set_program_counter 3 Examples.zero_on_top).
Proof.
  split; [reflexivity|]. split; [discriminate|]. split; [reflexivity|].
  vm_compute; reflexivity.
Qed.

(** ** choose *)

Lemma index_out_of_range {A} (l : list A) (i : Z) :
  i < - Z.of_nat (length l) \/ Z.of_nat (length l) <= i ->
  Py.index l i = None.
Proof.
  intros H. unfold Py.index.
  destruct (Z.leb_spec 0 i), (Z.ltb_spec i (Z.of_nat (length l)));
    destruct (Z.leb_spec (- Z.of_nat (length l)) i), (Z.ltb_spec i 0);
    simpl; try reflexivity; lia.
Qed.

Lemma index_in_range {A} (l : list A) (i : Z) :
  - Z.of_nat (length l) <= i < Z.of_nat (length l) ->
  exists x, Py.index l i = Some x /\
            nth_error l (Z.to_nat (i mod Z.of_nat (length l))) = Some x.
Proof.
  intros H. unfold Py.index.
  destruct (Z.leb_spec 0 i), (Z.ltb_spec i (Z.of_nat (length l)));
    destruct (Z.leb_spec (- Z.of_nat (length l)) i), (Z.ltb_spec i 0);
    simpl; try lia.
  - rewrite Z.mod_small by lia.
    destruct (nth_error l (Z.to_nat i)) eqn:E; [eauto|].
    apply nth_error_None in E; lia.
  - replace (i mod Z.of_nat (length l)) with (Z.of_nat (length l) + i).
    + destruct (nth_error l (Z.to_nat (Z.of_nat (length l) + i))) eqn:E; [eauto|].
      apply nth_error_None in E; lia.
    + apply Z.mod_unique with (q := -1); lia.
Qed.

(** C4, as the code has it.  With n options in the buffer, choose(index)
    raises for every index below -n or above n-1 and then leaves the
    whole object, the option buffer included, as it was; for every
    index from -n to n-1 it takes the option at that index (a negative
    index counts from the end of the buffer), clears the option buffer,
    pushes the chosen option's choice target on top of the value stack
    and resumes: the dispatch loop runs on that state, unpaused. *)
Theorem choose_by_python_index (lib : std_lib) (fuel : nat) (i : Z) (r : runner) :
  let n := Z.of_nat (length (option_buffer r)) in
  (i < - n \/ n <= i -> choose lib fuel i r = Raise IndexError r) /\
  (- n <= i < n ->
   exists chosen,
     nth_error (option_buffer r) (Z.to_nat (i mod n)) = Some chosen /\
     choose lib fuel i r =
     process_instruction lib fuel
       (set_paused false
          (set_vm_data_stack (Py.VStr (choice chosen) :: vm_data_stack r)
             (set_option_buffer [] r)))).
Proof.
  intros n; split; intros H.
  - unfold choose, bind, get, of_option.
    rewrite (index_out_of_range _ _ H); reflexivity.
  - destruct (index_in_range _ _ H) as (chosen & Hidx & Hnth).
    exists chosen; split; [exact Hnth|].
    unfold choose, bind, get, of_option. rewrite Hidx; reflexivity.
Qed.

Lemma choose_by_python_index_witness :
  choose ∅ 100 1 Examples.suspended = Raise IndexError Examples.suspended /\
  exists chosen,
    nth_error (option_buffer Examples.suspended) 0 = Some chosen /\
    choose ∅ 100 (-1) Examples.suspended =
    process_instruction ∅ 100
      (set_paused false
         (set_vm_data_stack
            (Py.VStr (choice chosen) :: vm_data_stack Examples.suspended)
            (set_option_buffer [] Examples.suspended))).
Proof.
  split.
  - apply (choose_by_python_index ∅ 100 1 Examples.suspended).
    right; vm_compute; intro; discriminate.
  - apply (choose_by_python_index ∅ 100 (-1) Examples.suspended).
    vm_compute; split; [intro; discriminate|reflexivity].
Defined.

(** C4, as stated, fails: with one option in the buffer the index -1 is
    outside 0..0, and choose(-1) does not fail: it clears the buffer and
    runs the chosen branch to the end. *)
Lemma choose_accepts_negative_index :
  length (option_buffer Examples.suspended) = 1%nat /\
  exists r', choose ∅ 100 (-1) Examples.suspended = Ok tt r' /\
             option_buffer r' = [] /\ line_buffer r' = ["Done"] /\
             finished r' = true.
Proof.
  split; [reflexivity|].
  eexists; split; [vm_compute; reflexivity|].
  repeat split.
Qed.

(** ** Stack depth *)

Ltac unfold_m :=
  repeat (progress
    unfold jump_to, find_label, operand_at, peek0, pop0, push, append_line,
      check_expressions, find_expressions, lookup_string, lookup_line_no,
      warn, emit, bind, get, modify, of_option, ret, raise in *).

Ltac crush_m :=
  unfold_m;
  repeat (simpl in *;
          match goal with
          | H : Ok _ _ = Ok _ _ |- _ => inversion H; subst; clear H
          | H : Raise _ _ = Ok _ _ |- _ => discriminate H
          | H : context [match ?x with _ => _ end] |- _ => destruct x eqn:?
          | H : context [if ?x then _ else _] |- _ => destruct x eqn:?
          end);
  repeat match goal with
         | H : vm_data_stack ?r = _ |- context [vm_data_stack ?r] => rewrite H
         end;
  simpl; try reflexivity; try lia.

Lemma pop_params_depth (n : nat) (acc : list Py.value) (r r' : runner)
    (params : list Py.value) :
  pop_params n acc r = Ok params r' ->
  length (vm_data_stack r) = (n + length (vm_data_stack r'))%nat.
Proof.
  revert acc r. induction n as [|n IH]; intros acc r H; simpl in H.
  - inversion H; reflexivity.
  - unfold_m.
    destruct (vm_data_stack r) as [|v rest] eqn:E; simpl in H; [discriminate|].
    apply IH in H. simpl in H. simpl. lia.
Qed.

(** The depth of the value stack after an opcode function has returned. *)
Lemma stack_depth_on_return (lib : std_lib) (instruction : Instruction) (r r' : runner) :
  let depth x := length (vm_data_stack x) in
  (jump instruction r = Ok tt r' -> depth r' = depth r) /\
  (jump_if_false instruction r = Ok tt r' -> depth r' = depth r) /\
  (store_variable instruction r = Ok tt r' -> depth r' = depth r) /\
  (push_string instruction r = Ok tt r' -> depth r' = S (depth r)) /\
  (push_float instruction r = Ok tt r' -> depth r' = S (depth r)) /\
  (push_bool instruction r = Ok tt r' -> depth r' = S (depth r)) /\
  (push_null instruction r = Ok tt r' -> depth r' = S (depth r)) /\
  (pop instruction r = Ok tt r' -> S (depth r') = depth r) /\
  (forall op more N fn,
      operands instruction = op :: more ->
      lib !! string_value op = Some (N, fn) ->
      call_func lib instruction r = Ok tt r' ->
      (depth r' + N)%nat = depth r).
Proof.
  intros depth; unfold depth.
  repeat split.
  - intros H. unfold jump in H. crush_m.
  - intros H. unfold jump_if_false in H. crush_m.
  - intros H. unfold store_variable in H. crush_m.
  - intros H. unfold push_string in H. crush_m.
  - intros H. unfold push_float in H. crush_m.
  - intros H. unfold push_bool in H. crush_m.
  - intros H. unfold push_null in H. crush_m.
  - intros H. unfold pop in H. crush_m.
  - intros op more N fn Hops Hlib H.
    unfold call_func in H. unfold_m.
    rewrite Hops in H; simpl in H. rewrite Hlib in H.
    destruct (vm_data_stack r) as [|top rest] eqn:Hstack; simpl in H;
      [discriminate|].
    destruct (Py.int top) as [actual|]; [|discriminate].
    destruct (negb (Z.of_nat N =? actual)); [discriminate|].
    destruct (pop_params N [] (set_vm_data_stack rest r)) as [params r1|] eqn:Hpop;
      [|discriminate].
    apply pop_params_depth in Hpop; simpl in Hpop.
    destruct (fn params); [|discriminate].
    inversion H; subst; simpl. lia.
Qed.

(** ** RUN_COMMAND without a handler *)

Lemma index_some_range {A} (l : list A) (i : Z) (x : A) :
  Py.index l i = Some x ->
  - Z.of_nat (length l) <= i < Z.of_nat (length l).
Proof.
  intros H.
  destruct (Z.lt_ge_cases i (- Z.of_nat (length l))) as [Hlt|Hge].
  - rewrite index_out_of_range in H by lia. discriminate.
  - destruct (Z.lt_ge_cases i (Z.of_nat (length l))) as [Hlt'|Hge']; [lia|].
    rewrite index_out_of_range in H by lia. discriminate.
Qed.

(** The beginning of [__process_instruction] when an instruction with a
    known opcode is fetched: the counter is advanced and the instruction
    is handed to its opcode function. *)
Lemma process_instruction_fetch (lib : std_lib) (fuel : nat) (r : runner)
    (instruction : Instruction) (f : Instruction -> M unit) :
  Py.index (vm_instruction_stack r) (program_counter r) = Some instruction ->
  opcode_functions lib (process_instruction lib fuel) (opcode instruction) = Some f ->
  process_instruction lib (S fuel) r =
  match f instruction
          (set_log (log r ++ [Dispatched instruction])
             (set_program_counter (program_counter r + 1) r)) with
  | Ok _ r' =>
      if negb (paused r') && negb (finished r') then
        process_instruction lib fuel (set_previous_instruction instruction r')
      else Ok tt r'
  | Raise e r' => Raise e r'
  end.
Proof.
  intros Hidx Hop.
  pose proof (index_some_range _ _ _ Hidx) as Hrange.
  simpl. unfold bind at 1. unfold get at 1.
  destruct (Z.ltb_spec (Z.of_nat (length (vm_instruction_stack r))) 1); [lia|].
  destruct (Z.gtb_spec (program_counter r)
              (Z.of_nat (length (vm_instruction_stack r)) - 1)); [lia|].
  rewrite Hidx. unfold of_option, bind, ret, modify, emit, get. simpl.
  rewrite Hop. simpl.
  destruct (f instruction _) as [[] r0|e r0]; [|reflexivity].
  destruct (negb (paused r0) && negb (finished r0)); reflexivity.
Qed.

(** C7.  When RUN_COMMAND names a command without a registered handler,
    [__run_command] issues one warning and returns normally, leaving the
    line buffer and the value stack as they are; and a running dispatch
    loop (not paused, not finished) that fetches such an instruction
    goes on with the next instruction. *)
Theorem unhandled_command_is_skipped (lib : std_lib) (fuel : nat) (r : runner)
    (instruction : Instruction) (op : Operand) (more : list Operand) :
  let command := fst (parse_command (string_value op)) in
  let warned x := set_log (log x ++ [Warned (no_handler_warning command)]) x in
  opcode instruction = RUN_COMMAND ->
  operands instruction = op :: more ->
  command_handlers r !! command = None ->
  (run_command instruction r = Ok tt (warned r) /\
   line_buffer (warned r) = line_buffer r /\
   vm_data_stack (warned r) = vm_data_stack r) /\
  (Py.index (vm_instruction_stack r) (program_counter r) = Some instruction ->
   paused r = false -> finished r = false ->
   process_instruction lib (S fuel) r =
   process_instruction lib fuel
     (set_previous_instruction instruction
        (warned (set_log (log r ++ [Dispatched instruction])
                   (set_program_counter (program_counter r + 1) r))))).
Proof.
  intros command warned Hop Hops Hnone.
  assert (Hrun : forall x, command_handlers x = command_handlers r ->
                           run_command instruction x = Ok tt (warned x)).
  { intros x Hx. unfold run_command. unfold_m.
    rewrite Hops; simpl.
    unfold warned, command in *.
    destruct (parse_command (string_value op)) as [c args].
    simpl in *.
    rewrite Hx, Hnone. reflexivity. }
  split.
  - split; [apply Hrun; reflexivity|]. split; reflexivity.
  - intros Hidx Hpaused Hfinished.
    rewrite (process_instruction_fetch lib fuel r instruction run_command Hidx)
      by (rewrite Hop; reflexivity).
    rewrite Hrun by reflexivity. simpl.
    rewrite Hpaused, Hfinished. reflexivity.
Qed.

Lemma unhandled_command_is_skipped_witness :
  let shake := Examples.I RUN_COMMAND [OString "shake camera 2"] in
  let r := set_paused false
             (set_program_counter 0
                (set_vm_instruction_stack [shake; Examples.I STOP []]
                   Examples.suspended)) in
  exists r', process_instruction ∅ 2 r = Ok tt r' /\
             finished r' = true /\
             line_buffer r' = line_buffer r /\
             vm_data_stack r' = vm_data_stack r /\
             log r' =
             (log r ++
                [Dispatched shake;
                 Warned "Command 'shake' does not have a registered command handler.";
                 Dispatched (Examples.I STOP [])])%list.
Proof.
  intros shake r.
  destruct (unhandled_command_is_skipped ∅ 1 r shake (OString "shake camera 2") []
              eq_refl eq_refl eq_refl) as [_ Hloop].
  rewrite Hloop by reflexivity.
  eexists; split; [vm_compute; reflexivity|].
  repeat split.
Defined.

(** ** What the opcode functions leave alone *)

Lemma transitions_app (n : string) (l l' : list event) :
  transitions n (l ++ l') = (transitions n l + transitions n l')%nat.
Proof.
  induction l as [|[i|m|k] l IH]; simpl; auto.
  destruct (String.eqb n k); simpl; auto.
Qed.

Lemma dispatches_app (l l' : list event) :
  dispatches (l ++ l') = (dispatches l + dispatches l')%nat.
Proof. induction l as [|[i|m|k] l IH]; simpl; auto. Qed.

Lemma frame_refl (r : runner) : frame r r.
Proof. constructor; auto. Qed.

Lemma frame_trans (r1 r2 r3 : runner) : frame r1 r2 -> frame r2 r3 -> frame r1 r3.
Proof.
  intros [Hv Hc Hf Ht Hp] [Hv' Hc' Hf' Ht' Hp'].
  constructor.
  - congruence.
  - congruence.
  - auto.
  - intros n. rewrite Ht', Ht. reflexivity.
  - intros Hk. rewrite Hp', Hp; auto.
    intros n Hn. rewrite Hp by assumption. apply Hk. congruence.
Qed.

Ltac frame_leaf :=
  constructor; simpl; auto;
  try (intros; rewrite transitions_app; simpl; lia);
  try (intros Hk;
       match goal with
       | Hc : current_node _ = Some ?n, Hn : nodes _ !! ?n = None |- _ =>
           destruct (Hk _ Hc) as [? Hsome]; rewrite Hn in Hsome; discriminate
       end).

Ltac crush_goal :=
  unfold_m;
  repeat (simpl;
          match goal with
          | |- context [match ?x with _ => _ end] =>
              lazymatch x with
              | context [match _ with _ => _ end] => fail
              | _ => destruct x eqn:?
              end
          end);
  simpl.

Lemma pop0_eq (r : runner) :
  pop0 r = match vm_data_stack r with
           | [] => Raise IndexError r
           | v :: rest => Ok v (set_vm_data_stack rest r)
           end.
Proof. unfold_m. destruct (vm_data_stack r); reflexivity. Qed.

Lemma set_vm_data_stack_id (r : runner) :
  set_vm_data_stack (vm_data_stack r) r = r.
Proof. destruct r; reflexivity. Qed.

Lemma pop_params_args (args : list Py.value) (acc rest : list Py.value)
    (r : runner) :
  vm_data_stack r = (args ++ rest)%list ->
  pop_params (length args) acc r =
  Ok (rev args ++ acc)%list (set_vm_data_stack rest r).
Proof.
  revert acc r. induction args as [|a args IH]; intros acc r Hstack; simpl.
  - unfold ret. simpl in Hstack. rewrite <- Hstack.
    rewrite set_vm_data_stack_id. reflexivity.
  - unfold bind at 1. rewrite pop0_eq, Hstack. simpl.
    rewrite (IH (a :: acc) (set_vm_data_stack (args ++ rest) r) eq_refl).
    rewrite <- app_assoc. reflexivity.
Qed.

(** ** Stack depth: the preconditions suffice *)

Lemma jump_resolved (instruction : Instruction) (r : runner)
    (label : string) (rest : list Py.value) (n : string) (nd : Node) (target : Z) :
  vm_data_stack r = Py.VStr label :: rest ->
  current_node r = Some n ->
  nodes (compiled_yarn r) !! n = Some nd ->
  labels nd !! label = Some target ->
  jump instruction r = Ok tt (set_program_counter target r).
Proof.
  intros Hstack Hcur Hnode Hlabel.
  unfold jump, find_label, bind, get, modify.
  rewrite Hstack, Hcur, Hnode, Hlabel. reflexivity.
Qed.

(** C5.  For every state that satisfies the precondition of the opcode,
    the opcode function returns, and whenever it returns the depth of
    the value stack has changed as follows.  PUSH_NULL always returns,
    PUSH_STRING, PUSH_FLOAT and PUSH_BOOL return when the instruction
    has an operand, and each leaves the old stack under one new value:
    the depth increases by exactly one.  POP returns on a non-empty
    stack and leaves the stack without its top: the depth decreases by
    exactly one.  STORE_VARIABLE returns on a non-empty stack when the
    instruction has an operand, JUMP when the top is a label of the
    current node, JUMP_IF_FALSE when the top is not false or the
    operand is a label of the current node, and each leaves the stack
    as it is.  CALL_FUNC of a function registered with N parameters
    returns when the stack holds a count that converts to N above N
    values and the function returns a value; the count and the N
    values are replaced by the result: the depth decreases by exactly
    N. *)
Theorem stack_depth (lib : std_lib) (instruction : Instruction) (r r' : runner) :
  let depth x := length (vm_data_stack x) in
  let pushed v := Ok tt (set_vm_data_stack (v :: vm_data_stack r) r) in
  ((jump instruction r = Ok tt r' -> depth r' = depth r) /\
   (jump_if_false instruction r = Ok tt r' -> depth r' = depth r) /\
   (store_variable instruction r = Ok tt r' -> depth r' = depth r) /\
   (push_string instruction r = Ok tt r' -> depth r' = S (depth r)) /\
   (push_float instruction r = Ok tt r' -> depth r' = S (depth r)) /\
   (push_bool instruction r = Ok tt r' -> depth r' = S (depth r)) /\
   (push_null instruction r = Ok tt r' -> depth r' = S (depth r)) /\
   (pop instruction r = Ok tt r' -> S (depth r') = depth r) /\
   (forall op more N fn,
       operands instruction = op :: more ->
       lib !! string_value op = Some (N, fn) ->
       call_func lib instruction r = Ok tt r' ->
       (depth r' + N)%nat = depth r)) /\
  push_null instruction r = pushed Py.VNone /\
  (forall op more,
      operands instruction = op :: more ->
      push_string instruction r = pushed (Py.VStr (string_value op)) /\
      push_float instruction r = pushed (Py.VFloat (float_value op)) /\
      push_bool instruction r = pushed (Py.VBool (bool_value op))) /\
  (forall top rest,
      vm_data_stack r = top :: rest ->
      pop instruction r = Ok tt (set_vm_data_stack rest r) /\
      (forall op more,
          operands instruction = op :: more ->
          store_variable instruction r =
          Ok tt (set_variables (<[string_value op := top]> (variables r)) r)) /\
      (Py.eq_False top = false -> jump_if_false instruction r = Ok tt r) /\
      (forall n nd target,
          current_node r = Some n ->
          nodes (compiled_yarn r) !! n = Some nd ->
          (forall op more,
              operands instruction = op :: more ->
              labels nd !! string_value op = Some target ->
              Py.eq_False top = true ->
              jump_if_false instruction r = Ok tt (set_program_counter target r)) /\
          (forall label,
              top = Py.VStr label ->
              labels nd !! label = Some target ->
              jump instruction r = Ok tt (set_program_counter target r)))) /\
  (forall op more fn count args rest ret_value,
      operands instruction = op :: more ->
      lib !! string_value op = Some (length args, fn) ->
      vm_data_stack r = (count :: args ++ rest)%list ->
      Py.int count = Some (Z.of_nat (length args)) ->
      fn (rev args) = Some ret_value ->
      call_func lib instruction r =
      Ok tt (set_vm_data_stack (ret_value :: rest) r)).
Proof.
  intros depth pushed.
  split; [exact (stack_depth_on_return lib instruction r r')|].
  split; [reflexivity|].
  split.
  { intros op more Hops.
    unfold push_string, push_float, push_bool, pushed, operand_at, of_option,
      bind, push, modify.
    rewrite Hops. repeat split. }
  split.
  { intros top rest Hstack. split.
    - unfold pop, bind, ret. rewrite pop0_eq, Hstack. reflexivity.
    - split.
      + intros op more Hops.
        unfold store_variable, peek0, operand_at, of_option, bind, get, modify.
        rewrite Hstack, Hops. reflexivity.
      + split.
        * intros Hfalse.
          unfold jump_if_false, peek0, of_option, bind, get, ret.
          rewrite Hstack. simpl. rewrite Hfalse. reflexivity.
        * intros n nd target Hcur Hnode. split.
          -- intros op more Hops Hlabel Htrue.
             unfold jump_if_false, peek0, of_option, bind, get, ret.
             rewrite Hstack. simpl. rewrite Htrue.
             exact (jump_to_resolved instruction r op more n nd target
                      Hops Hcur Hnode Hlabel).
          -- intros label -> Hlabel.
             exact (jump_resolved instruction r label rest n nd target
                      Hstack Hcur Hnode Hlabel). }
  intros op more fn count args rest ret_value Hops Hlib Hstack Hint Hfn.
  unfold call_func. unfold bind at 1. unfold operand_at, of_option.
  rewrite Hops. simpl. rewrite Hlib.
  unfold bind at 1. rewrite pop0_eq, Hstack.
  unfold bind at 1. rewrite Hint. unfold ret at 1. cbv beta iota.
  rewrite Z.eqb_refl. simpl.
  unfold bind at 1.
  rewrite (pop_params_args args [] rest (set_vm_data_stack (args ++ rest) r) eq_refl).
  rewrite app_nil_r, Hfn. reflexivity.
Qed.

Lemma stack_depth_witness :
  push_null (Examples.I CALL_FUNC [OString "First"]) Examples.calling =
  Ok tt (set_vm_data_stack (Py.VNone :: vm_data_stack Examples.calling)
           Examples.calling) /\
  pop (Examples.I CALL_FUNC [OString "First"]) Examples.calling =
  Ok tt (set_vm_data_stack [Py.VStr "top"; Py.VStr "below"; Py.VStr "rest"]
           Examples.calling) /\
  call_func Examples.lib (Examples.I CALL_FUNC [OString "First"]) Examples.calling =
  Ok tt (set_vm_data_stack [Py.VStr "below"; Py.VStr "rest"] Examples.calling) /\
  (length (vm_data_stack
             (set_vm_data_stack [Py.VStr "below"; Py.VStr "rest"] Examples.calling))
   + 2)%nat = length (vm_data_stack Examples.calling).
Proof.
  destruct (stack_depth Examples.lib (Examples.I CALL_FUNC [OString "First"])
              Examples.calling
              (set_vm_data_stack [Py.VStr "below"; Py.VStr "rest"] Examples.calling))
    as (Hdepth & Hnull & _ & Hpop & Hcall).
  assert (Hlib : Examples.lib !! "First" = Some (2%nat, Examples.first_of_two))
    by (vm_compute; reflexivity).
  assert (Hrun : call_func Examples.lib (Examples.I CALL_FUNC [OString "First"])
                   Examples.calling =
                 Ok tt (set_vm_data_stack [Py.VStr "below"; Py.VStr "rest"]
                          Examples.calling)).
  { exact (Hcall (OString "First") [] Examples.first_of_two (Py.VFloat 2%float)
             [Py.VStr "top"; Py.VStr "below"] [Py.VStr "rest"] (Py.VStr "below")
             eq_refl Hlib eq_refl eq_refl eq_refl). }
  split; [exact Hnull|]. split.
  - destruct (Hpop (Py.VFloat 2%float)
                [Py.VStr "top"; Py.VStr "below"; Py.VStr "rest"] eq_refl)
      as [H _]. exact H.
  - split; [exact Hrun|].
    destruct Hdepth as (_ & _ & _ & _ & _ & _ & _ & _ & Hd).
    exact (Hd (OString "First") [] 2%nat Examples.first_of_two eq_refl Hlib Hrun).
Defined.

(** ** The frame of an opcode function *)

Lemma pop_params_frame (n : nat) (acc : list Py.value) (r : runner) :
  frame r (final (pop_params n acc r)).
Proof.
  revert acc r. induction n as [|n IH]; intros acc r; simpl.
  - apply frame_refl.
  - unfold bind at 1. rewrite pop0_eq.
    destruct (vm_data_stack r) as [|v rest]; simpl; [apply frame_refl|].
    eapply frame_trans; [|apply IH]. frame_leaf.
Qed.

Lemma call_func_frame (lib : std_lib) (i : Instruction) (r : runner) :
  frame r (final (call_func lib i r)).
Proof.
  unfold call_func, bind.
  destruct (operand_at i 0 r) as [op r1|e r1] eqn:E1.
  2:{ revert E1. crush_goal; intros E; inversion E; subst; frame_leaf. }
  assert (r1 = r) as ->.
  { revert E1. crush_goal; intros E; inversion E; subst; reflexivity. }
  destruct (lib !! string_value op) as [[expected fn]|]; [|apply frame_refl].
  destruct (pop0 r) as [top r2|e r2] eqn:E2.
  2:{ revert E2. crush_goal; intros E; inversion E; subst; frame_leaf. }
  assert (F2 : frame r r2).
  { revert E2. crush_goal; intros E; inversion E; subst; frame_leaf. }
  unfold of_option. destruct (Py.int top) as [actual|]; simpl; [|exact F2].
  destruct (negb (Z.of_nat expected =? actual)); simpl; [exact F2|].
  pose proof (pop_params_frame expected [] r2) as F3.
  destruct (pop_params expected [] r2) as [params r3|e r3]; simpl in *.
  - destruct (fn params); simpl.
    + eapply frame_trans; [exact F2|]. eapply frame_trans; [exact F3|]. frame_leaf.
    + eapply frame_trans; eauto.
  - eapply frame_trans; eauto.
Qed.

(** Every opcode function but [__run_node] leaves the visit counters,
    the current node, a set [finished] flag, the recorded transitions
    and (inside a known node) the program as they are. *)
Lemma simple_opcode_frame (lib : std_lib) (process : M unit) (op : OpCode)
    (f : Instruction -> M unit) (i : Instruction) (r : runner) :
  op <> RUN_NODE ->
  opcode_functions lib process op = Some f ->
  frame r (final (f i r)).
Proof.
  intros Hop Hf.
  destruct op; simpl in Hf; inversion Hf; subst; clear Hf;
    try congruence; try apply call_func_frame.
  - unfold jump_to. crush_goal; frame_leaf.
  - unfold jump. crush_goal; frame_leaf.
  - unfold run_line. crush_goal; frame_leaf.
  - unfold run_command. crush_goal; frame_leaf.
  - unfold add_option. crush_goal; frame_leaf.
  - unfold show_options. crush_goal; frame_leaf.
  - unfold push_string. crush_goal; frame_leaf.
  - unfold push_float. crush_goal; frame_leaf.
  - unfold push_bool. crush_goal; frame_leaf.
  - unfold push_null. crush_goal; frame_leaf.
  - unfold jump_if_false. crush_goal; frame_leaf.
  - unfold pop. crush_goal; frame_leaf.
  - unfold push_variable. crush_goal; frame_leaf.
  - unfold store_variable. crush_goal; frame_leaf.
  - unfold stop. crush_goal; frame_leaf.
Qed.

(** ** Invariants of the dispatch loop *)

Lemma go_to_node_enter (process : M unit) (node_key : string) (r : runner) :
  go_to_node process node_key r =
  match enter_node node_key r with
  | Ok _ r' => process r'
  | Raise e r' => Raise e r'
  end.
Proof.
  unfold enter_node, go_to_node. unfold_m.
  destruct (nodes (compiled_yarn r) !! node_key); simpl; [|reflexivity].
  destruct (dict_get node_key (visits r)); reflexivity.
Qed.

Lemma go_to_node_cases (process : M unit) (k : string) (r : runner) :
  go_to_node process k r =
  match nodes (compiled_yarn r) !! k with
  | None => Raise (InvalidNode k) r
  | Some nd =>
      match dict_get k (visits r) with
      | None => Raise (KeyError k)
                  (set_log (log r ++ [Entered k]) (set_current_node (Some k) r))
      | Some count => process (entered k nd count r)
      end
  end.
Proof.
  unfold go_to_node, entered. unfold_m.
  destruct (nodes (compiled_yarn r) !! k) as [nd|]; simpl; [|reflexivity].
  destruct (dict_get k (visits r)) as [count|]; simpl; reflexivity.
Qed.

Lemma process_instruction_S (lib : std_lib) (fuel : nat) (r : runner) :
  process_instruction lib (S fuel) r =
  let len := Z.of_nat (length (vm_instruction_stack r)) in
  if len <? 1 then Raise InstructionStackEmpty r
  else if program_counter r >? len - 1 then Raise ProgramCounterOverrun r
  else
    match Py.index (vm_instruction_stack r) (program_counter r) with
    | None => Raise IndexError r
    | Some instruction =>
        let r1 := set_program_counter (program_counter r + 1) r in
        match opcode_functions lib (process_instruction lib fuel)
                (opcode instruction) with
        | None => Raise (OpCodeNotImplemented (opcode instruction)) r1
        | Some f =>
            match f instruction
                    (set_log (log r ++ [Dispatched instruction]) r1) with
            | Ok _ r' =>
                if negb (paused r') && negb (finished r') then
                  process_instruction lib fuel
                    (set_previous_instruction instruction r')
                else Ok tt r'
            | Raise e r' => Raise e r'
            end
        end
    end.
Proof.
  simpl. unfold bind at 1. unfold get at 1.
  destruct (Z.of_nat (length (vm_instruction_stack r)) <? 1); [reflexivity|].
  destruct (program_counter r >? Z.of_nat (length (vm_instruction_stack r)) - 1);
    [reflexivity|].
  unfold_m.
  destruct (Py.index (vm_instruction_stack r) (program_counter r))
    as [instruction|]; simpl; [|reflexivity].
  destruct (opcode_functions lib (process_instruction lib fuel) (opcode instruction))
    as [f|]; simpl; [|reflexivity].
  destruct (f instruction _) as [[] r'|e r']; [|reflexivity].
  destruct (negb (paused r') && negb (finished r')); reflexivity.
Qed.

Section Preservation.

Variable lib : std_lib.
Variable Q : runner -> Prop.
Hypothesis Q_frame : forall r r', frame r r' -> Q r -> Q r'.
Hypothesis Q_enter : forall k r, Q r -> Q (final (enter_node k r)).

Lemma run_node_preserves (process : M unit) (i : Instruction) (r : runner) :
  (forall x, Q x -> Q (final (process x))) ->
  Q r -> Q (final (run_node process i r)).
Proof.
  intros Hprocess HQ.
  assert (Hgo : forall k x, Q x -> Q (final (go_to_node process k x))).
  { intros k x Hx. rewrite go_to_node_enter.
    pose proof (Q_enter k x Hx) as He.
    destruct (enter_node k x); simpl in *; auto. }
  unfold run_node.
  destruct (operands i) as [|operand more]; [|apply Hgo; exact HQ].
  unfold bind at 1. unfold get at 1.
  destruct (vm_data_stack r) as [|[node_key|f|b| |n] rest] eqn:Hstack;
    try exact HQ.
  unfold bind. rewrite pop0_eq, Hstack.
  apply Hgo. eapply Q_frame; [|exact HQ]. frame_leaf.
Qed.

Lemma process_instruction_preserves (fuel : nat) (r : runner) :
  Q r -> Q (final (process_instruction lib fuel r)).
Proof.
  revert r. induction fuel as [|fuel IH]; intros r HQ; [exact HQ|].
  rewrite process_instruction_S. cbv zeta.
  destruct (Z.of_nat (length (vm_instruction_stack r)) <? 1); [exact HQ|].
  destruct (program_counter r >? Z.of_nat (length (vm_instruction_stack r)) - 1);
    [exact HQ|].
  destruct (Py.index (vm_instruction_stack r) (program_counter r))
    as [instruction|]; [|exact HQ].
  set (r1 := set_program_counter (program_counter r + 1) r).
  set (r2 := set_log (log r ++ [Dispatched instruction]) r1).
  assert (HQ1 : Q r1) by (eapply Q_frame; [|exact HQ]; frame_leaf).
  assert (HQ2 : Q r2) by (eapply Q_frame; [|exact HQ]; frame_leaf).
  destruct (opcode_functions lib (process_instruction lib fuel) (opcode instruction))
    as [f|] eqn:Hf; [|exact HQ1].
  assert (HQ3 : Q (final (f instruction r2))).
  { assert (Hdec : opcode instruction = RUN_NODE \/ opcode instruction <> RUN_NODE)
      by (destruct (opcode instruction); (left; reflexivity) || (right; discriminate)).
    destruct Hdec as [Hrun|Hother].
    - rewrite Hrun in Hf. simpl in Hf. inversion Hf; subst f.
      apply run_node_preserves; [exact IH|exact HQ2].
    - eapply Q_frame; [|exact HQ2].
      eapply simple_opcode_frame; eassumption. }
  destruct (f instruction r2) as [[] r'|e r']; simpl in HQ3; [|exact HQ3].
  destruct (negb (paused r') && negb (finished r')); [|exact HQ3].
  apply IH. eapply Q_frame; [|exact HQ3]. frame_leaf.
Qed.

Lemma resume_preserves (fuel : nat) (r : runner) :
  Q r -> Q (final (resume lib fuel r)).
Proof.
  intros HQ. unfold resume. unfold bind at 1. unfold get at 1.
  destruct (vm_data_stack r) as [|[s|f|b| |n] rest]; try exact HQ.
  unfold bind, modify. apply process_instruction_preserves.
  eapply Q_frame; [|exact HQ]. frame_leaf.
Qed.

Lemma choose_preserves (fuel : nat) (i : Z) (r : runner) :
  Q r -> Q (final (choose lib fuel i r)).
Proof.
  intros HQ. unfold choose. unfold_m.
  destruct (Py.index (option_buffer r) i) as [chosen|]; simpl; [|exact HQ].
  apply process_instruction_preserves.
  eapply Q_frame; [|exact HQ]. frame_leaf.
Qed.

End Preservation.

(** ** The finished flag *)

Lemma enter_node_keeps_finished (k : string) (r : runner) :
  finished r = true -> finished (final (enter_node k r)) = true.
Proof. intros H. unfold enter_node, go_to_node. crush_goal; exact H. Qed.

Lemma frame_keeps_finished (r r' : runner) :
  frame r r' -> finished r = true -> finished r' = true.
Proof. intros F. apply (frame_finished _ _ F). Qed.

(** C3, as the code has it.  Once the finished flag is set it stays set
    through every later call of the dispatch loop, of resume() and of
    choose(); the call of the dispatch loop that executes STOP returns
    right after it; and a call of the dispatch loop in a finished
    session hands exactly the instruction at the program counter to its
    opcode function and returns without going on to the next one.
    Neither resume() nor choose() tests the flag, so such a call can
    still happen. *)
Theorem finished_stops_the_loop (lib : std_lib) (fuel : nat) (r : runner) :
  (finished r = true ->
   finished (final (process_instruction lib fuel r)) = true /\
   finished (final (resume lib fuel r)) = true /\
   (forall i, finished (final (choose lib fuel i r)) = true)) /\
  (forall instruction f,
      Py.index (vm_instruction_stack r) (program_counter r) = Some instruction ->
      opcode_functions lib (process_instruction lib fuel) (opcode instruction)
      = Some f ->
      let r1 := set_log (log r ++ [Dispatched instruction])
                  (set_program_counter (program_counter r + 1) r) in
      (opcode instruction = STOP ->
       process_instruction lib (S fuel) r = Ok tt (set_finished true r1)) /\
      (finished r = true ->
       process_instruction lib (S fuel) r = f instruction r1)).
Proof.
  split.
  - intros Hfin. split; [|split].
    + exact (process_instruction_preserves lib (fun x => finished x = true)
               frame_keeps_finished enter_node_keeps_finished fuel r Hfin).
    + exact (resume_preserves lib (fun x => finished x = true)
               frame_keeps_finished enter_node_keeps_finished fuel r Hfin).
    + intros i.
      exact (choose_preserves lib (fun x => finished x = true)
               frame_keeps_finished enter_node_keeps_finished fuel i r Hfin).
  - intros instruction f Hidx Hf r1.
    rewrite (process_instruction_fetch lib fuel r instruction f Hidx Hf).
    fold r1. split.
    + intros Hop. rewrite Hop in Hf. simpl in Hf. inversion Hf; subst f.
      unfold stop, modify. simpl. rewrite andb_false_r. reflexivity.
    + intros Hfin.
      assert (Hkeep : finished (final (f instruction r1)) = true).
      { assert (Hdec : opcode instruction = RUN_NODE \/ opcode instruction <> RUN_NODE)
          by (destruct (opcode instruction);
              (left; reflexivity) || (right; discriminate)).
        destruct Hdec as [Hrun|Hother].
        - rewrite Hrun in Hf. simpl in Hf. inversion Hf; subst f.
          apply (run_node_preserves (fun x => finished x = true)
                   frame_keeps_finished enter_node_keeps_finished).
          + exact (process_instruction_preserves lib (fun x => finished x = true)
                     frame_keeps_finished enter_node_keeps_finished fuel).
          + exact Hfin.
        - eapply frame_keeps_finished; [|exact Hfin].
          eapply frame_trans; [|eapply simple_opcode_frame; eassumption].
          unfold r1. frame_leaf. }
      destruct (f instruction r1) as [[] r'|e r']; simpl in Hkeep; [|reflexivity].
      rewrite Hkeep. rewrite andb_false_r. reflexivity.
Qed.

Lemma finished_stops_the_loop_witness :
  finished Examples.stopped = true /\
  finished (final (resume ∅ 100 Examples.stopped)) = true /\
  process_instruction ∅ 100 Examples.stopped =
  run_line (Examples.I RUN_LINE [OString "l2"])
    (set_log (log Examples.stopped ++
                [Dispatched (Examples.I RUN_LINE [OString "l2"])])
       (set_program_counter (program_counter Examples.stopped + 1)
          Examples.stopped)).
Proof.
  assert (Hfin : finished Examples.stopped = true) by reflexivity.
  assert (Hidx : Py.index (vm_instruction_stack Examples.stopped)
                   (program_counter Examples.stopped)
                 = Some (Examples.I RUN_LINE [OString "l2"]))
    by (vm_compute; reflexivity).
  destruct (finished_stops_the_loop ∅ 99 Examples.stopped) as [_ Hone].
  destruct (finished_stops_the_loop ∅ 100 Examples.stopped) as [Hkeep _].
  destruct (Hkeep Hfin) as (_ & Hresume & _).
  destruct (Hone (Examples.I RUN_LINE [OString "l2"]) run_line Hidx eq_refl)
    as [_ Hdispatch].
  split; [exact Hfin|]. split; [exact Hresume|]. exact (Hdispatch Hfin).
Defined.

(** C3, as stated, fails: the session below has executed STOP with a
    string left on the stack, and the next resume() dispatches the
    instruction that follows the STOP, which adds a line. *)
Lemma resume_dispatches_after_stop :
  finished Examples.stopped = true /\
  line_buffer Examples.stopped = [] /\
  exists r', resume ∅ 100 Examples.stopped = Ok tt r' /\
             log r' = (log Examples.stopped ++
                         [Dispatched (Examples.I RUN_LINE [OString "l2"])])%list /\
             line_buffer r' = ["Done"].
Proof.
  split; [reflexivity|]. split; [reflexivity|].
  eexists; split; [vm_compute; reflexivity|].
  split; reflexivity.
Qed.

(** ** Visit counters *)

Lemma dict_get_set_eq {V} (k : string) (v : V) (d : list (string * V)) :
  dict_get k (dict_set k v d) = Some v.
Proof.
  induction d as [|[k' v'] d IH]; simpl.
  - rewrite String.eqb_refl. reflexivity.
  - destruct (String.eqb k k') eqn:E; simpl.
    + rewrite String.eqb_refl. reflexivity.
    + rewrite E. exact IH.
Qed.

Lemma dict_get_set_ne {V} (k k' : string) (v : V) (d : list (string * V)) :
  k <> k' -> dict_get k' (dict_set k v d) = dict_get k' d.
Proof.
  intros Hne. induction d as [|[k0 v0] d IH]; simpl.
  - destruct (String.eqb_spec k' k); [congruence|reflexivity].
  - destruct (String.eqb_spec k k0) as [->|Hk]; simpl.
    + destruct (String.eqb_spec k' k0); [congruence|reflexivity].
    + destruct (String.eqb k' k0); [reflexivity|exact IH].
Qed.

Lemma dict_get_zero_value (n : string) (c : Z) (l : list (string * Node)) :
  dict_get n (map (fun kv => (fst kv, 0)) l) = Some c -> c = 0.
Proof.
  induction l as [|[k nd] l IH]; simpl; [discriminate|].
  destruct (String.eqb n k); [intros H; inversion H; reflexivity|exact IH].
Qed.

Lemma dict_get_zero_present (n : string) (nd : Node) (l : list (string * Node)) :
  In (n, nd) l -> dict_get n (map (fun kv => (fst kv, 0)) l) = Some 0.
Proof.
  induction l as [|[k nd'] l IH]; simpl; [tauto|].
  intros [H|H].
  - inversion H; subst. rewrite String.eqb_refl. reflexivity.
  - destruct (String.eqb n k); [reflexivity|auto].
Qed.

Lemma zero_visits_get (p : Program) (n : string) :
  is_Some (nodes p !! n) -> dict_get n (zero_visits p) = Some 0.
Proof.
  intros [nd Hnd]. unfold zero_visits.
  apply dict_get_zero_present with (nd := nd).
  apply list_elem_of_In. apply elem_of_map_to_list. exact Hnd.
Qed.

Lemma counts_transitions_frame (p : Program) (r r' : runner) :
  frame r r' -> counts_transitions p r -> counts_transitions p r'.
Proof.
  intros [Hv Hc Hf Ht Hp] (Hprog & Hknown & Hall & Hcount).
  unfold counts_transitions, current_node_known in *.
  rewrite Hv, Hc, (Hp Hknown).
  repeat split; auto.
  intros n c Hn. rewrite Ht. auto.
Qed.

Lemma counts_transitions_enter (p : Program) (k : string) (r : runner) :
  counts_transitions p r -> counts_transitions p (final (enter_node k r)).
Proof.
  intros (Hprog & Hknown & Hall & Hcount).
  unfold enter_node, go_to_node. unfold_m.
  destruct (nodes (compiled_yarn r) !! k) as [nd|] eqn:Hnd; simpl;
    [|repeat split; assumption].
  destruct (Hall k) as [c Hc]; [rewrite <- Hprog, Hnd; eauto|].
  rewrite Hc. simpl.
  unfold counts_transitions, current_node_known; simpl.
  split; [exact Hprog|]. split; [|split].
  - intros n Hn. inversion Hn; subst n. rewrite Hnd. eauto.
  - intros n Hn. destruct (String.eqb_spec k n) as [->|Hne].
    + rewrite dict_get_set_eq. eauto.
    + rewrite dict_get_set_ne by exact Hne. auto.
  - intros n c' Hn. rewrite transitions_app. simpl.
    destruct (String.eqb_spec n k) as [->|Hne].
    + rewrite dict_get_set_eq in Hn. inversion Hn; subst c'.
      rewrite (Hcount k c Hc). lia.
    + rewrite dict_get_set_ne in Hn by congruence.
      rewrite (Hcount n c' Hn). lia.
Qed.

Lemma counts_transitions_fresh (a : Args.t) :
  fresh a -> counts_transitions (Args.compiled_yarn a) (init_fields a).
Proof.
  intros (Hv & _ & Hc & _).
  unfold counts_transitions, current_node_known, init_fields; simpl.
  rewrite Hv, Hc. simpl.
  split; [reflexivity|]. split; [discriminate|]. split.
  - intros n Hn. rewrite zero_visits_get by exact Hn. eauto.
  - intros n c Hn. apply dict_get_zero_value in Hn. exact Hn.
Qed.

Lemma reachable_counts_transitions (lib : std_lib) (p : Program) (r : runner) :
  reachable lib p r -> counts_transitions p r.
Proof.
  induction 1 as [fuel a r Hfresh Hp Hinit|fuel r _ IH|fuel i r _ IH
                 |r _ IH|r _ IH|command fn r _ IH].
  - subst p. pose proof (counts_transitions_fresh a Hfresh) as H0.
    unfold init in Hinit. destruct (Args.autostart a).
    + pose proof (resume_preserves lib _
                    (counts_transitions_frame (Args.compiled_yarn a))
                    (counts_transitions_enter (Args.compiled_yarn a))
                    fuel _ H0) as H1.
      rewrite Hinit in H1. exact H1.
    + inversion Hinit; subst. exact H0.
  - exact (resume_preserves lib _ (counts_transitions_frame p)
             (counts_transitions_enter p) fuel r IH).
  - exact (choose_preserves lib _ (counts_transitions_frame p)
             (counts_transitions_enter p) fuel i r IH).
  - eapply counts_transitions_frame; [|exact IH].
    unfold get_line. crush_goal; frame_leaf.
  - eapply counts_transitions_frame; [|exact IH].
    unfold get_lines. crush_goal; frame_leaf.
  - eapply counts_transitions_frame; [|exact IH].
    unfold add_command_handler. crush_goal; frame_leaf.
Qed.

Lemma entered_counts (k : string) (nd : Node) (count : Z) (r : runner) :
  dict_get k (visits (entered k nd count r)) = Some (count + 1) /\
  (forall n, n <> k ->
             dict_get n (visits (entered k nd count r)) = dict_get n (visits r)) /\
  transitions k (log (entered k nd count r)) = S (transitions k (log r)) /\
  (forall n, n <> k ->
             transitions n (log (entered k nd count r)) = transitions n (log r)).
Proof.
  unfold entered. simpl. repeat split.
  - apply dict_get_set_eq.
  - intros n Hn. apply dict_get_set_ne. congruence.
  - rewrite transitions_app. simpl. rewrite String.eqb_refl. lia.
  - intros n Hn. rewrite transitions_app. simpl.
    destruct (String.eqb_spec n k); [contradiction|lia].
Qed.

(** C6.  In every state of a session constructed without a snapshot,
    [visits] has an entry for every node name of the program; every
    entry is a non-negative integer, equal to the number of node
    transitions into that node since construction; and a node never
    transitioned into has count 0.  A node transition is a call of
    [__go_to_node] that passes the test of the node name, and the
    count is of these calls and of nothing else: such a call finds
    the counter of its node, adds exactly one to it and leaves every
    other counter as it is before it loads the node and calls the
    dispatch loop; a call for a name that is not a node is refused
    and changes nothing; and no other opcode function changes a
    counter. *)
Theorem visits_count_transitions (lib : std_lib) (p : Program) (r : runner) :
  reachable lib p r ->
  (forall n, is_Some (nodes p !! n) ->
             exists c, dict_get n (visits r) = Some c) /\
  (forall n c, dict_get n (visits r) = Some c ->
               0 <= c /\ c = Z.of_nat (transitions n (log r))) /\
  (forall n, is_Some (nodes p !! n) -> transitions n (log r) = O ->
             dict_get n (visits r) = Some 0) /\
  (forall process k nd,
      nodes p !! k = Some nd ->
      exists count,
        dict_get k (visits r) = Some count /\
        go_to_node process k r = process (entered k nd count r) /\
        current_node (entered k nd count r) = Some k /\
        dict_get k (visits (entered k nd count r)) = Some (count + 1) /\
        (forall n, n <> k -> dict_get n (visits (entered k nd count r))
                             = dict_get n (visits r)) /\
        transitions k (log (entered k nd count r)) = S (transitions k (log r)) /\
        (forall n, n <> k -> transitions n (log (entered k nd count r))
                             = transitions n (log r))) /\
  (forall process k,
      nodes p !! k = None ->
      go_to_node process k r = Raise (InvalidNode k) r) /\
  (forall process op f i,
      op <> RUN_NODE ->
      opcode_functions lib process op = Some f ->
      visits (final (f i r)) = visits r /\
      forall n, transitions n (log (final (f i r))) = transitions n (log r)).
Proof.
  intros Hreach.
  destruct (reachable_counts_transitions lib p r Hreach)
    as (Hprog & _ & Hall & Hcount).
  split; [exact Hall|]. split.
  { intros n c Hn. rewrite (Hcount n c Hn). split; [lia|reflexivity]. }
  split.
  { intros n Hn Hzero. destruct (Hall n Hn) as [c Hc].
    rewrite Hc, (Hcount n c Hc), Hzero. reflexivity. }
  split.
  { intros process k nd Hnd.
    destruct (Hall k) as [count Hc]; [rewrite Hnd; eauto|].
    exists count. split; [exact Hc|]. split.
    - rewrite go_to_node_cases, Hprog, Hnd, Hc. reflexivity.
    - split; [reflexivity|]. apply entered_counts. }
  split.
  { intros process k Hnd. rewrite go_to_node_cases, Hprog, Hnd. reflexivity. }
  intros process op f i Hop Hf.
  destruct (simple_opcode_frame lib process op f i r Hop Hf) as [Hv _ _ Ht _].
  split; [exact Hv|exact Ht].
Qed.

Lemma visits_count_transitions_witness :
  let r := final (choose ∅ 100 0 Examples.suspended) in
  dict_get "Start" (visits r) = Some 1 /\
  transitions "Start" (log r) = 1%nat.
Proof.
  intros r.
  assert (Hreach : reachable ∅ Examples.prog r).
  { apply reach_choose.
    apply (reach_init ∅ Examples.prog 100 (Examples.fresh_args Examples.prog)).
    - repeat split.
    - reflexivity.
    - vm_compute. reflexivity. }
  destruct (visits_count_transitions ∅ Examples.prog r Hreach)
    as (Hall & Hcount & _).
  assert (Hone : transitions "Start" (log r) = 1%nat) by (vm_compute; reflexivity).
  destruct (Hall "Start") as [c Hc]; [vm_compute; eauto|].
  destruct (Hcount "Start" c Hc) as [_ Heq].
  rewrite Hone in Heq. rewrite Hc, Heq. split; reflexivity.
Defined.

(** ** Regular expressions: the matcher computes the language *)

Module ReFacts.
Import Re.
Local Open Scope list_scope.

Lemma lang_seq_inv (r1 r2 : regex) (s : list ascii) :
  lang (Seq r1 r2) s ->
  exists s1 s2, s = s1 ++ s2 /\ lang r1 s1 /\ lang r2 s2.
Proof. intros H; inversion H; subst; eauto. Qed.

Lemma lang_alt_inv (r1 r2 : regex) (s : list ascii) :
  lang (Alt r1 r2) s -> lang r1 s \/ lang r2 s.
Proof. intros H; inversion H; subst; auto. Qed.

Lemma lang_cls_inv (p : ascii -> bool) (s : list ascii) :
  lang (Cls p) s -> exists c, s = [c] /\ p c = true.
Proof. intros H; inversion H; subst; eauto. Qed.

Lemma lang_eps_inv (s : list ascii) : lang Eps s -> s = [].
Proof. intros H; inversion H; reflexivity. Qed.

Lemma lang_void_inv (s : list ascii) : lang Void s -> False.
Proof. intros H; inversion H. Qed.

Lemma nullable_lang (r : regex) : nullable r = true <-> lang r [].
Proof.
  induction r as [| |p|r1 IH1 r2 IH2|r1 IH1 r2 IH2|r IH]; simpl.
  - split; [discriminate|]. intros H; destruct (lang_void_inv _ H).
  - split; [constructor|reflexivity].
  - split; [discriminate|].
    intros H. apply lang_cls_inv in H as (c & Hc & _). discriminate.
  - rewrite andb_true_iff, IH1, IH2. split.
    + intros [H1 H2]. apply (lang_seq r1 r2 [] [] H1 H2).
    + intros H. apply lang_seq_inv in H as (s1 & s2 & Heq & H1 & H2).
      symmetry in Heq. apply app_eq_nil in Heq as [-> ->]. auto.
  - rewrite orb_true_iff, IH1, IH2. split.
    + intros [H|H]; [apply lang_alt_l|apply lang_alt_r]; exact H.
    + apply lang_alt_inv.
  - split; [constructor|reflexivity].
Qed.

Lemma lang_star_cons_inv (r : regex) (c : ascii) (s : list ascii) :
  lang (Star r) (c :: s) ->
  exists s1 s2, s = s1 ++ s2 /\ lang r (c :: s1) /\ lang (Star r) s2.
Proof.
  intros H. remember (Star r) as r' eqn:Hr. remember (c :: s) as w eqn:Hw.
  revert s Hw.
  induction H as [| | | | | |r0 s1 s2 H1 _ H2 IH2]; try discriminate.
  inversion Hr; subst r0. intros s Hw.
  destruct s1 as [|c1 s1]; simpl in Hw.
  - apply IH2; auto.
  - inversion Hw; subst. exists s1, s2. auto.
Qed.

Lemma deriv_lang (r : regex) (c : ascii) (s : list ascii) :
  lang (deriv c r) s <-> lang r (c :: s).
Proof.
  revert s.
  induction r as [| |p|r1 IH1 r2 IH2|r1 IH1 r2 IH2|r IH]; intros s; simpl.
  - split; intros H; destruct (lang_void_inv _ H).
  - split; intros H; [destruct (lang_void_inv _ H)|].
    apply lang_eps_inv in H. discriminate.
  - destruct (p c) eqn:Hp; split; intros H.
    + apply lang_eps_inv in H. subst. constructor; exact Hp.
    + apply lang_cls_inv in H as (c' & Heq & _). inversion Heq; subst. constructor.
    + destruct (lang_void_inv _ H).
    + apply lang_cls_inv in H as (c' & Heq & Hc'). inversion Heq; subst. congruence.
  - assert (Hseq : lang (Seq (deriv c r1) r2) s ->
                   lang (Seq r1 r2) (c :: s)).
    { intros H. apply lang_seq_inv in H as (s1 & s2 & -> & H1 & H2).
      apply IH1 in H1. apply (lang_seq r1 r2 (c :: s1) s2 H1 H2). }
    assert (Hinv : lang (Seq r1 r2) (c :: s) ->
                   lang (Seq (deriv c r1) r2) s \/
                   (lang r1 [] /\ lang (deriv c r2) s)).
    { intros H. apply lang_seq_inv in H as (s1 & s2 & Heq & H1 & H2).
      destruct s1 as [|c1 s1]; simpl in Heq.
      - subst s2. right. split; [exact H1|]. apply IH2; exact H2.
      - inversion Heq; subst. left. constructor; [apply IH1; exact H1|exact H2]. }
    destruct (nullable r1) eqn:Hn.
    + split.
      * intros H. apply lang_alt_inv in H as [H|H]; [auto|].
        apply (lang_seq r1 r2 [] (c :: s)).
        -- apply nullable_lang; exact Hn.
        -- apply IH2; assumption.
      * intros H. destruct (Hinv H) as [H'|[_ H']];
          [apply lang_alt_l|apply lang_alt_r]; exact H'.
    + split; [exact Hseq|].
      intros H. destruct (Hinv H) as [H'|[H' _]]; [exact H'|].
      apply nullable_lang in H'. congruence.
  - split; intros H; apply lang_alt_inv in H as [H|H].
    + apply lang_alt_l, IH1; assumption.
    + apply lang_alt_r, IH2; assumption.
    + apply lang_alt_l, IH1; assumption.
    + apply lang_alt_r, IH2; assumption.
  - split.
    + intros H. apply lang_seq_inv in H as (s1 & s2 & -> & H1 & H2).
      apply IH in H1. apply (lang_star_cons r (c :: s1) s2 H1 H2).
    + intros H. apply lang_star_cons_inv in H as (s1 & s2 & -> & H1 & H2).
      constructor; [apply IH; exact H1|exact H2].
Qed.

Lemma matches_lang (r : regex) (s : list ascii) :
  matches r s = true <-> lang r s.
Proof.
  revert r. induction s as [|c s IH]; intros r; simpl.
  - apply nullable_lang.
  - rewrite IH. apply deriv_lang.
Qed.

Lemma scan_cons (q : quoting) (c : ascii) (s : list ascii) :
  scan q (c :: s) = scan (scan1 q c) s.
Proof. reflexivity. Qed.

Lemma scan_nil (q : quoting) : scan q [] = q.
Proof. reflexivity. Qed.

Lemma scan_app (q : quoting) (s1 s2 : list ascii) :
  scan q (s1 ++ s2) = scan (scan q s1) s2.
Proof. apply fold_left_app. Qed.

Lemma scan1_inj (q1 q2 : quoting) (c : ascii) :
  scan1 q1 c = scan1 q2 c -> q1 = q2.
Proof.
  unfold scan1. destruct (Ascii.eqb c "'"), (Ascii.eqb c dquote), q1, q2;
    congruence.
Qed.

Lemma scan_inj (s : list ascii) (q1 q2 : quoting) :
  scan q1 s = scan q2 s -> q1 = q2.
Proof.
  revert q1 q2. induction s as [|c s IH]; intros q1 q2 H; [exact H|].
  rewrite !scan_cons in H. apply IH in H. eapply scan1_inj; exact H.
Qed.

Lemma scan1_other (q : quoting) (c : ascii) :
  is_quote c = false -> scan1 q c = q.
Proof.
  unfold is_quote, scan1. intros H. apply orb_false_iff in H as [-> ->].
  reflexivity.
Qed.

Lemma star_no_single (s : list ascii) :
  lang (Star (Cls (fun c => negb (Ascii.eqb c "'")))) s ->
  scan InSingle s = InSingle.
Proof.
  intros H. remember (Star _) as r eqn:Hr.
  induction H as [| | | | | |r0 s1 s2 H1 _ H2 IH2]; try discriminate;
    [reflexivity|].
  inversion Hr; subst r0.
  apply lang_cls_inv in H1 as (c & -> & Hc). simpl. rewrite scan_cons.
  unfold scan1. apply negb_true_iff in Hc. rewrite Hc.
  destruct (Ascii.eqb c dquote); apply IH2; reflexivity.
Qed.

Lemma star_no_double (s : list ascii) :
  lang (Star (Cls (fun c => negb (Ascii.eqb c dquote)))) s ->
  scan InDouble s = InDouble.
Proof.
  intros H. remember (Star _) as r eqn:Hr.
  induction H as [| | | | | |r0 s1 s2 H1 _ H2 IH2]; try discriminate;
    [reflexivity|].
  inversion Hr; subst r0.
  apply lang_cls_inv in H1 as (c & -> & Hc). simpl. rewrite scan_cons.
  unfold scan1. apply negb_true_iff in Hc. rewrite Hc.
  destruct (Ascii.eqb c "'"); apply IH2; reflexivity.
Qed.

Lemma quoted_body_closed (s : list ascii) :
  lang quoted_body s -> scan Outside s = Outside.
Proof.
  unfold quoted_body, chr. intros H.
  apply lang_alt_inv in H as [H|H]; [|apply lang_alt_inv in H as [H|H]].
  - apply lang_cls_inv in H as (c & -> & Hc). rewrite scan_cons, scan_nil.
    apply scan1_other. apply negb_true_iff. exact Hc.
  - apply lang_seq_inv in H as (s1 & s2 & -> & H1 & H).
    apply lang_seq_inv in H as (s3 & s4 & -> & H3 & H4).
    apply lang_cls_inv in H1 as (c1 & -> & Hc1).
    apply lang_cls_inv in H4 as (c4 & -> & Hc4).
    apply Ascii.eqb_eq in Hc1, Hc4. subst c1 c4.
    simpl. rewrite scan_cons. change (scan1 Outside "'"%char) with InSingle.
    rewrite scan_app, (star_no_single _ H3). reflexivity.
  - apply lang_seq_inv in H as (s1 & s2 & -> & H1 & H).
    apply lang_seq_inv in H as (s3 & s4 & -> & H3 & H4).
    apply lang_cls_inv in H1 as (c1 & -> & Hc1).
    apply lang_cls_inv in H4 as (c4 & -> & Hc4).
    apply Ascii.eqb_eq in Hc1, Hc4. subst c1 c4.
    simpl. rewrite scan_cons. change (scan1 Outside dquote) with InDouble.
    rewrite scan_app, (star_no_double _ H3). reflexivity.
Qed.

Lemma balanced_closed (s : list ascii) : lang balanced s -> closed s.
Proof.
  unfold balanced, closed. intros H. remember (Star quoted_body) as r eqn:Hr.
  induction H as [| | | | | |r0 s1 s2 H1 _ H2 IH2]; try discriminate;
    [reflexivity|].
  inversion Hr; subst r0.
  rewrite scan_app, (quoted_body_closed _ H1). apply IH2; reflexivity.
Qed.

(** From inside a quote, the text up to the closing quote. *)
Lemma scan_in_single (s : list ascii) :
  scan InSingle s = Outside ->
  exists w rest, s = w ++ "'"%char :: rest /\
                 lang (Star (Cls (fun c => negb (Ascii.eqb c "'")))) w /\
                 scan Outside rest = Outside.
Proof.
  induction s as [|c s IH]; [discriminate|]. rewrite scan_cons.
  unfold scan1. destruct (Ascii.eqb c "'") eqn:Hc.
  - apply Ascii.eqb_eq in Hc. subst c. intros H.
    exists [], s. split; [reflexivity|]. split; [constructor|exact H].
  - assert (Hstay : (if Ascii.eqb c dquote then InSingle else InSingle) = InSingle)
      by (destruct (Ascii.eqb c dquote); reflexivity).
    rewrite Hstay. intros H. destruct (IH H) as (w & rest & -> & Hw & Hrest).
    exists (c :: w), rest. split; [reflexivity|]. split; [|exact Hrest].
    apply (lang_star_cons _ [c] w); [|exact Hw].
    constructor. rewrite Hc. reflexivity.
Qed.

Lemma scan_in_double (s : list ascii) :
  scan InDouble s = Outside ->
  exists w rest, s = w ++ dquote :: rest /\
                 lang (Star (Cls (fun c => negb (Ascii.eqb c dquote)))) w /\
                 scan Outside rest = Outside.
Proof.
  induction s as [|c s IH]; [discriminate|]. rewrite scan_cons.
  unfold scan1. destruct (Ascii.eqb c dquote) eqn:Hc.
  - apply Ascii.eqb_eq in Hc. subst c. simpl. intros H.
    exists [], s. split; [reflexivity|]. split; [constructor|exact H].
  - assert (Hstay : (if Ascii.eqb c "'" then InDouble else InDouble) = InDouble)
      by (destruct (Ascii.eqb c "'"); reflexivity).
    rewrite Hstay. intros H. destruct (IH H) as (w & rest & -> & Hw & Hrest).
    exists (c :: w), rest. split; [reflexivity|]. split; [|exact Hrest].
    apply (lang_star_cons _ [c] w); [|exact Hw].
    constructor. rewrite Hc. reflexivity.
Qed.

Lemma closed_balanced_upto (n : nat) (s : list ascii) :
  (length s <= n)%nat -> closed s -> lang balanced s.
Proof.
  unfold closed, balanced. revert s.
  induction n as [|n IH]; intros s Hlen H.
  - destruct s; [constructor|simpl in Hlen; lia].
  - destruct s as [|c s]; [constructor|]. simpl in Hlen. rewrite scan_cons in H.
    unfold scan1 in H. destruct (Ascii.eqb c "'") eqn:Hs.
    + apply Ascii.eqb_eq in Hs. subst c.
      apply scan_in_single in H as (w & rest & -> & Hw & Hrest).
      replace ("'"%char :: w ++ "'"%char :: rest)
        with (("'"%char :: w ++ ["'"%char]) ++ rest)
        by (simpl; rewrite <- app_assoc; reflexivity).
      constructor.
      * apply lang_alt_r, lang_alt_l.
        apply (lang_seq _ _ ["'"%char] (w ++ ["'"%char])).
        -- constructor. reflexivity.
        -- constructor; [exact Hw|]. constructor. reflexivity.
      * apply IH; [|exact Hrest]. rewrite length_app in Hlen. simpl in Hlen. lia.
    + destruct (Ascii.eqb c dquote) eqn:Hd.
      * apply Ascii.eqb_eq in Hd. subst c.
        apply scan_in_double in H as (w & rest & -> & Hw & Hrest).
        replace (dquote :: w ++ dquote :: rest)
          with ((dquote :: w ++ [dquote]) ++ rest)
          by (simpl; rewrite <- app_assoc; reflexivity).
        constructor.
        -- apply lang_alt_r, lang_alt_r.
           apply (lang_seq _ _ [dquote] (w ++ [dquote])).
           ++ constructor. apply Ascii.eqb_refl.
           ++ constructor; [exact Hw|]. constructor. apply Ascii.eqb_refl.
        -- apply IH; [|exact Hrest]. rewrite length_app in Hlen. simpl in Hlen. lia.
      * apply (lang_star_cons _ [c] s).
        -- apply lang_alt_l. constructor. unfold is_quote. rewrite Hs, Hd. reflexivity.
        -- apply IH; [lia|exact H].
Qed.

(** The lookahead of the split pattern succeeds exactly when no quote is
    left open in the rest of the text. *)
Lemma lookahead_closed (rest : list ascii) :
  lookahead rest = true <-> closed rest.
Proof.
  unfold lookahead. rewrite matches_lang. split.
  - intros H. apply lang_seq_inv in H as (s1 & s2 & -> & H1 & H2).
    apply balanced_closed in H1. unfold closed in *. rewrite scan_app, H1.
    apply lang_alt_inv in H2 as [H2|H2].
    + apply lang_eps_inv in H2. subst. reflexivity.
    + apply lang_cls_inv in H2 as (c & -> & Hc). rewrite scan_cons, scan_nil.
      apply scan1_other. unfold is_newline in Hc. apply Ascii.eqb_eq in Hc.
      subst c. reflexivity.
  - intros H. rewrite <- (app_nil_r rest). constructor.
    + apply (closed_balanced_upto (length rest)); [lia|exact H].
    + apply lang_alt_l. constructor.
Qed.

(** In a text with balanced quotes, the space at a position splits the
    text exactly when it stands outside every quoted substring. *)
Lemma split_point_outside_quotes (pre rest : list ascii) :
  closed (pre ++ " "%char :: rest) ->
  (lookahead rest = true <-> closed pre).
Proof.
  unfold closed. rewrite lookahead_closed. unfold closed.
  rewrite scan_app, scan_cons.
  rewrite (scan1_other _ " "%char) by reflexivity.
  intros H. split; intros H'.
  - apply (scan_inj rest). congruence.
  - rewrite H' in H. exact H.
Qed.

End ReFacts.

(** ** RUN_COMMAND: the command text *)

Module CommandFacts.
Import Re ReFacts.
Local Open Scope list_scope.

Lemma split_nonempty (s : list ascii) : split s <> [].
Proof.
  destruct s as [|c s]; simpl; [discriminate|].
  destruct (Ascii.eqb c " " && lookahead s); [discriminate|].
  destruct (split s); discriminate.
Qed.

(** Splitting removes single spaces and nothing else. *)
Lemma split_join (s : list ascii) : join (split s) = s.
Proof.
  induction s as [|c s IH]; [reflexivity|]. simpl.
  destruct (Ascii.eqb c " " && lookahead s) eqn:E.
  - apply andb_true_iff in E as [Hc _]. apply Ascii.eqb_eq in Hc. subst c.
    pose proof (split_nonempty s) as Hne.
    destruct (split s) as [|tok toks]; [congruence|].
    simpl in *. rewrite IH. reflexivity.
  - pose proof (split_nonempty s) as Hne.
    destruct (split s) as [|tok toks]; [congruence|].
    destruct toks; simpl in *; rewrite <- IH; reflexivity.
Qed.

Lemma quote_not_newline (q : ascii) : is_quote q = true -> is_newline q = false.
Proof.
  unfold is_quote, is_newline. intros H.
  apply orb_true_iff in H as [H|H]; apply Ascii.eqb_eq in H; subst q; reflexivity.
Qed.

Lemma group1_strips (body : list ascii) (q : ascii) :
  is_quote q = true ->
  forallb (fun c => negb (is_newline c)) body = true ->
  group1 (body ++ [q]) = Some body.
Proof.
  intros Hq. induction body as [|c body IH]; simpl; intros Hb.
  - rewrite (quote_not_newline q Hq), Hq. reflexivity.
  - apply andb_true_iff in Hb as [Hc Hb]. apply negb_true_iff in Hc.
    rewrite Hc, (IH Hb). reflexivity.
Qed.

Lemma group1_strips_before_newline (body : list ascii) (q n : ascii) :
  is_quote q = true -> is_newline n = true ->
  forallb (fun c => negb (is_newline c)) body = true ->
  group1 (body ++ [q; n]) = Some body.
Proof.
  intros Hq Hn. induction body as [|c body IH]; simpl; intros Hb.
  - assert (Hnq : is_quote n = false).
    { destruct (is_quote n) eqn:E; [|reflexivity].
      apply quote_not_newline in E. congruence. }
    rewrite (quote_not_newline q Hq), Hn, Hq, Hnq. reflexivity.
  - apply andb_true_iff in Hb as [Hc Hb]. apply negb_true_iff in Hc.
    rewrite Hc, (IH Hb). reflexivity.
Qed.

Lemma group1_inv (s g : list ascii) :
  group1 s = Some g ->
  exists q tail, s = g ++ q :: tail /\ is_quote q = true /\
                 forallb (fun c => negb (is_newline c)) g = true /\
                 (tail = [] \/ exists n, tail = [n] /\ is_newline n = true).
Proof.
  revert g. induction s as [|c s IH]; intros g; simpl; [discriminate|].
  destruct (if is_newline c then None else group1 s) as [g'|] eqn:E.
  - intros H. inversion H; subst g.
    destruct (is_newline c) eqn:Hc; [discriminate|].
    destruct (IH g' E) as (q & tail & -> & Hq & Hg & Htail).
    exists q, tail. simpl. rewrite Hc, Hg. auto.
  - destruct s as [|n [|x s]]; simpl.
    + destruct (is_quote c) eqn:Hq; [|discriminate].
      intros H; inversion H; subst. exists c, [].
      repeat split; auto.
    + destruct (is_quote c && is_newline n) eqn:Hq; [|discriminate].
      apply andb_true_iff in Hq as [Hq Hn].
      intros H; inversion H; subst. exists c, [n].
      repeat split; eauto.
    + discriminate.
Qed.

(** What [sanitize_quotes] does to a token. *)
Lemma sanitize_quotes_cases (arg : list ascii) :
  (forall q1 body q2,
      arg = q1 :: body ++ [q2] ->
      is_quote q1 = true -> is_quote q2 = true ->
      forallb (fun c => negb (is_newline c)) body = true ->
      sanitize_quotes arg = body) /\
  (sanitize_quotes arg <> arg ->
   exists q1 q2 tail,
     arg = q1 :: sanitize_quotes arg ++ q2 :: tail /\
     is_quote q1 = true /\ is_quote q2 = true /\
     forallb (fun c => negb (is_newline c)) (sanitize_quotes arg) = true /\
     (tail = [] \/ exists n, tail = [n] /\ is_newline n = true)).
Proof.
  split.
  - intros q1 body q2 -> H1 H2 Hb. unfold sanitize_quotes.
    rewrite H1, (group1_strips body q2 H2 Hb). reflexivity.
  - unfold sanitize_quotes. destruct arg as [|q body]; [congruence|].
    destruct (is_quote q) eqn:Hq; [|congruence].
    destruct (group1 body) as [g|] eqn:Hg; [|congruence].
    intros _. destruct (group1_inv body g Hg) as (q2 & tail & -> & H2 & Hb & Ht).
    exists q, q2, tail. auto.
Qed.

End CommandFacts.

(** C8, as the code has it.  The command text, stripped of surrounding
    whitespace, is cut at single space characters and nowhere else
    (joining the pieces with one space gives the stripped text back);
    a space cuts exactly when no quote is left open in the text after
    it, so that in a text with balanced quotes a space cuts exactly when
    it stands outside the quoted substrings, which stay whole.  The
    first piece is the command name, taken as it is; every later piece
    is an argument, and it loses its first and its last character when
    both are quote characters (single or double, not necessarily the
    same) with no newline in between, and is taken as it is otherwise.
    The text mycommand foo "bar baz" 'qux' gives the command name
    mycommand and the arguments foo, bar baz, qux. *)
Theorem parse_command_by_the_patterns :
  parse_command Examples.mycommand = ("mycommand", ["foo"; "bar baz"; "qux"]) /\
  (forall text,
      let stripped := Py.strip (list_ascii_of_string text) in
      exists command args,
        Re.split stripped = command :: args /\
        Re.join (command :: args) = stripped /\
        parse_command text =
        (string_of_list_ascii command,
         map (fun arg => string_of_list_ascii (Re.sanitize_quotes arg)) args)) /\
  (forall c rest,
      Re.split (c :: rest) =
      match Re.split rest with
      | tok :: toks =>
          if Ascii.eqb c " " && Re.lookahead rest then [] :: tok :: toks
          else (c :: tok) :: toks
      | [] => []
      end) /\
  (forall rest, Re.lookahead rest = true <-> Re.closed rest) /\
  (forall pre rest,
      Re.closed (pre ++ " "%char :: rest) ->
      (Re.lookahead rest = true <-> Re.closed pre)) /\
  (forall arg,
      (forall q1 body q2,
          arg = (q1 :: body ++ [q2])%list ->
          Re.is_quote q1 = true -> Re.is_quote q2 = true ->
          forallb (fun c => negb (Re.is_newline c)) body = true ->
          Re.sanitize_quotes arg = body) /\
      (Re.sanitize_quotes arg <> arg ->
       exists q1 q2 tail,
         arg = (q1 :: Re.sanitize_quotes arg ++ q2 :: tail)%list /\
         Re.is_quote q1 = true /\ Re.is_quote q2 = true /\
         forallb (fun c => negb (Re.is_newline c)) (Re.sanitize_quotes arg) = true /\
         (tail = [] \/ exists n, tail = [n] /\ Re.is_newline n = true))).
Proof.
  split; [vm_compute; reflexivity|].
  split.
  { intros text stripped.
    pose proof (CommandFacts.split_nonempty stripped) as Hne.
    pose proof (CommandFacts.split_join stripped) as Hjoin.
    unfold parse_command. fold stripped.
    destruct (Re.split stripped) as [|command args]; [congruence|].
    exists command, args. auto. }
  split.
  { intros c rest. simpl.
    pose proof (CommandFacts.split_nonempty rest) as Hne.
    destruct (Re.split rest) as [|tok toks]; [congruence|].
    destruct (Ascii.eqb c " " && Re.lookahead rest); reflexivity. }
  split; [exact ReFacts.lookahead_closed|].
  split; [exact ReFacts.split_point_outside_quotes|].
  exact CommandFacts.sanitize_quotes_cases.
Qed.

(** C8, as stated, fails on a quoted command name: the documented
    reading strips the quotes of every token, the code keeps those of
    the first one. *)
Lemma quoted_command_name_keeps_quotes :
  parse_command Examples.quoted_name
  = (Examples.dq +:+ "a b" +:+ Examples.dq, ["c"]) /\
  Documented.parse_command Examples.quoted_name = ["a b"; "c"] /\
  fst (parse_command Examples.quoted_name)
    :: snd (parse_command Examples.quoted_name)
  <> Documented.parse_command Examples.quoted_name.
Proof.
  split; [vm_compute; reflexivity|].
  split; [vm_compute; reflexivity|].
  vm_compute. discriminate.
Qed.

Lemma parse_command_by_the_patterns_witness :
  Re.sanitize_quotes (list_ascii_of_string "'qux'") = list_ascii_of_string "qux" /\
  (Re.lookahead (list_ascii_of_string "b' c") = true <->
   Re.closed (list_ascii_of_string "x 'a")).
Proof.
  destruct parse_command_by_the_patterns as (_ & _ & _ & _ & Hsplit & Hsan).
  split.
  - destruct (Hsan (list_ascii_of_string "'qux'")) as [Hstrip _].
    apply (Hstrip "'"%char (list_ascii_of_string "qux") "'"%char); reflexivity.
  - apply (Hsplit (list_ascii_of_string "x 'a") (list_ascii_of_string "b' c")).
    reflexivity.
Defined.

(** ** PUSH_VARIABLE *)

Module VisitsFacts.
Import Re.
Local Open Scope list_scope.

Lemma strip_prefix_spec (p s rest : list ascii) :
  strip_prefix p s = Some rest <-> s = p ++ rest.
Proof.
  revert s. induction p as [|a p IH]; intros s; simpl.
  - split; [intros H; inversion H; reflexivity|intros ->; reflexivity].
  - destruct s as [|b s]; [split; discriminate|].
    destruct (Ascii.eqb_spec a b) as [->|Hne].
    + rewrite IH. split; [intros ->; reflexivity|intros H; inversion H; reflexivity].
    + split; [discriminate|]. intros H; inversion H; congruence.
Qed.

Lemma take_while_spec (p : ascii -> bool) (s : list ascii) :
  exists post, s = take_while p s ++ post /\
               forallb p (take_while p s) = true /\
               (forall c post', post = c :: post' -> p c = false).
Proof.
  induction s as [|c s (post & Hs & Hall & Hpost)]; simpl.
  - exists []. repeat split; [discriminate].
  - destruct (p c) eqn:Hc.
    + exists post. simpl. rewrite Hc, Hall. split; [congruence|]. split; auto.
    + exists (c :: s). repeat split. intros c' post' H. inversion H; subst; exact Hc.
Qed.

Lemma take_while_all (p : ascii -> bool) (g post : list ascii) :
  forallb p g = true ->
  (forall c post', post = c :: post' -> p c = false) ->
  take_while p (g ++ post) = g.
Proof.
  intros Hg Hpost. induction g as [|c g IH]; simpl in *.
  - destruct post as [|c post]; [reflexivity|]. simpl.
    rewrite (Hpost c post eq_refl). reflexivity.
  - apply andb_true_iff in Hg as [Hc Hg]. rewrite Hc, (IH Hg). reflexivity.
Qed.

Lemma visits_at_some (s g : list ascii) :
  visits_at s = Some g ->
  exists post, s = visits_prefix ++ g ++ post /\ g <> [] /\
               forallb is_word g = true /\
               (forall c post', post = c :: post' -> is_word c = false).
Proof.
  unfold visits_at.
  destruct (strip_prefix visits_prefix s) as [rest|] eqn:E; [|discriminate].
  apply strip_prefix_spec in E. subst s.
  destruct (take_while_spec is_word rest) as (post & Hrest & Hall & Hpost).
  destruct (take_while is_word rest) as [|c g'] eqn:Ht; [discriminate|].
  intros H; inversion H; subst g.
  exists post. split; [congruence|]. split; [discriminate|]. auto.
Qed.

Lemma visits_at_none (s : list ascii) (c : ascii) (post : list ascii) :
  visits_at s = None -> s = visits_prefix ++ c :: post -> is_word c = false.
Proof.
  unfold visits_at. intros H ->.
  assert (E : strip_prefix visits_prefix (visits_prefix ++ c :: post)
              = Some (c :: post)) by (apply strip_prefix_spec; reflexivity).
  rewrite E in H. simpl in H.
  destruct (is_word c); [discriminate|reflexivity].
Qed.

Lemma search_visits_some (s g : list ascii) :
  search_visits s = Some g -> names_visits s g.
Proof.
  induction s as [|a s IH]; [discriminate|].
  change (search_visits (a :: s))
    with (match visits_at (a :: s) with
          | Some g => Some g
          | None => search_visits s
          end).
  destruct (visits_at (a :: s)) as [g'|] eqn:E.
  - intros H; inversion H; subst g'.
    destruct (visits_at_some _ _ E) as (post & Hs & Hne & Hall & Hpost).
    exists [], post.
    split; [exact Hs|]. split; [exact Hne|]. split; [exact Hall|].
    split; [exact Hpost|]. intros; simpl; lia.
  - intros H. destruct (IH H) as (pre & post & Hs & Hne & Hall & Hpost & Hleft).
    exists (a :: pre), post. subst s.
    split; [reflexivity|]. split; [exact Hne|]. split; [exact Hall|].
    split; [exact Hpost|].
    intros pre1 c1 post1 Heq Hc1. destruct pre1 as [|a1 pre1].
    + simpl in Heq. rewrite (visits_at_none _ c1 post1 E Heq) in Hc1. discriminate.
    + rewrite <- !app_comm_cons in Heq. injection Heq as _ Heq'. simpl.
      apply le_n_S. exact (Hleft pre1 c1 post1 Heq' Hc1).
Qed.

Lemma search_visits_hit (s g : list ascii) :
  visits_at s = Some g -> search_visits s = Some g.
Proof.
  destruct s as [|a s]; [discriminate|].
  change (search_visits (a :: s))
    with (match visits_at (a :: s) with
          | Some g => Some g
          | None => search_visits s
          end).
  intros ->. reflexivity.
Qed.

Lemma names_visits_search (s g : list ascii) :
  names_visits s g -> search_visits s = Some g.
Proof.
  intros (pre & post & Hs & Hne & Hall & Hpost & Hleft). revert s Hs Hleft.
  induction pre as [|a pre IH]; intros s Hs Hleft.
  - simpl in Hs. subst s.
    assert (Hat : visits_at (visits_prefix ++ g ++ post) = Some g).
    { unfold visits_at.
      assert (E : strip_prefix visits_prefix (visits_prefix ++ g ++ post)
                  = Some (g ++ post)) by (apply strip_prefix_spec; reflexivity).
      rewrite E, (take_while_all is_word g post Hall Hpost).
      destruct g; [congruence|reflexivity]. }
    apply search_visits_hit. exact Hat.
  - subst s.
    change (search_visits ((a :: pre) ++ visits_prefix ++ g ++ post))
      with (match visits_at ((a :: pre) ++ visits_prefix ++ g ++ post) with
            | Some g => Some g
            | None => search_visits (pre ++ visits_prefix ++ g ++ post)
            end).
    destruct (visits_at ((a :: pre) ++ visits_prefix ++ g ++ post)) as [g'|] eqn:E.
    + destruct (visits_at_some _ _ E) as (post' & Hs' & Hne' & _ & _).
      destruct g' as [|c1 g']; [congruence|].
      specialize (Hleft [] c1 (g' ++ post') Hs').
      apply visits_at_some in E as (_ & _ & _ & Hw & _).
      simpl in Hw. apply andb_true_iff in Hw as [Hw _].
      specialize (Hleft Hw). simpl in Hleft. lia.
    + apply IH; [reflexivity|].
      intros pre1 c1 post1 Heq Hc1.
      assert (Heq2 : (a :: pre) ++ visits_prefix ++ g ++ post
                     = (a :: pre1) ++ visits_prefix ++ c1 :: post1)
        by (rewrite <- !app_comm_cons; f_equal; exact Heq).
      specialize (Hleft (a :: pre1) c1 post1 Heq2 Hc1). simpl in Hleft. lia.
Qed.

(** The search of [__push_variable] finds exactly the leftmost
    occurrence of the pattern. *)
Lemma search_visits_spec (s g : list ascii) :
  search_visits s = Some g <-> names_visits s g.
Proof. split; [apply search_visits_some|apply names_visits_search]. Qed.

End VisitsFacts.

Lemma search_visits_names (name node_name : string) :
  search_visits name = Some node_name <-> names_visits name node_name.
Proof.
  unfold search_visits, names_visits.
  rewrite <- VisitsFacts.search_visits_spec. split.
  - destruct (Re.search_visits (list_ascii_of_string name)) as [g|];
      simpl; [|discriminate].
    intros H; inversion H; subst.
    rewrite list_ascii_of_string_of_list_ascii. reflexivity.
  - intros ->. simpl. rewrite string_of_list_ascii_of_string. reflexivity.
Qed.

Lemma names_visits_dec (name : string) :
  (exists node_name, names_visits name node_name) \/
  (forall node_name, ~ names_visits name node_name).
Proof.
  destruct (search_visits name) as [g|] eqn:E.
  - left. exists g. apply search_visits_names. exact E.
  - right. intros g Hg. apply search_visits_names in Hg. congruence.
Qed.

Section Rekey.

Context {V : Type} (f : string -> string).

Lemma rekey_absent (g : string) (d acc : list (string * V)) :
  (forall k v, In (k, v) d -> f k <> g) ->
  dict_get g (fold_left (rekey_step f) d acc) = dict_get g acc.
Proof.
  revert acc. induction d as [|[k0 v0] d IH]; intros acc Hno; [reflexivity|].
  simpl. rewrite IH by (intros k v Hin; apply (Hno k v); right; exact Hin).
  unfold rekey_step. simpl. apply dict_get_set_ne. apply (Hno k0 v0). left; reflexivity.
Qed.

Lemma rekey_present (g : string) (c : V) (d acc : list (string * V)) :
  (forall k v, In (k, v) d -> f k = g -> v = c) ->
  (exists k, In (k, c) d /\ f k = g) ->
  dict_get g (fold_left (rekey_step f) d acc) = Some c.
Proof.
  revert acc. induction d as [|[k0 v0] d IH]; intros acc Hsame (k & Hin & Hk).
  - destruct Hin.
  - simpl.
    destruct (existsb (fun kv => String.eqb (f (fst kv)) g) d) eqn:Ex.
    + apply existsb_exists in Ex as ([k1 v1] & Hin1 & Hk1).
      simpl in Hk1. apply String.eqb_eq in Hk1.
      assert (v1 = c) as -> by (apply (Hsame k1 v1); [right; exact Hin1|exact Hk1]).
      apply IH; [|eauto].
      intros k' v' Hin' Hk'. apply (Hsame k' v'); [right; exact Hin'|exact Hk'].
    + assert (Hno : forall k' v', In (k', v') d -> f k' <> g).
      { intros k' v' Hin' Hk'.
        assert (existsb (fun kv => String.eqb (f (fst kv)) g) d = true); [|congruence].
        apply existsb_exists. exists (k', v'). split; [exact Hin'|].
        simpl. apply String.eqb_eq. exact Hk'. }
      rewrite rekey_absent by exact Hno.
      destruct Hin as [Hhead|Hin]; [|destruct (Hno k c Hin Hk)].
      inversion Hhead; subst k0 v0. unfold rekey_step. simpl.
      rewrite Hk. apply dict_get_set_eq.
Qed.

End Rekey.

Lemma rekey_last (V : Type) (f : string -> string) (n : string)
    (d acc : list (string * V)) :
  dict_get n (fold_left (rekey_step f) d acc) =
  fold_left (fun found kv => if String.eqb (f (fst kv)) n then Some (snd kv)
                             else found) d (dict_get n acc).
Proof.
  revert acc. induction d as [|[k v] d IH]; intros acc; [reflexivity|].
  simpl. rewrite IH. f_equal. unfold rekey_step. simpl.
  destruct (String.eqb_spec (f k) n) as [->|Hne].
  - apply dict_get_set_eq.
  - apply dict_get_set_ne. exact Hne.
Qed.

Lemma replace_dots_underscored (k : string) : replace_dots k = underscored k.
Proof. reflexivity. Qed.

Section Renamed.

Context {V : Type} (f : string -> string) (n : string).

Lemma last_renamed_none (d : list (string * V)) (o : option V) :
  (forall k v, In (k, v) d -> f k <> n) ->
  fold_left (fun found kv => if String.eqb (f (fst kv)) n then Some (snd kv)
                             else found) d o = o.
Proof.
  revert o. induction d as [|[k v] d IH]; intros o Hno; [reflexivity|].
  simpl. destruct (String.eqb_spec (f k) n) as [Heq|_].
  - destruct (Hno k v); [left; reflexivity|exact Heq].
  - apply IH. intros k' v' Hin. apply (Hno k' v'). right. exact Hin.
Qed.

Lemma last_renamed_last (pre post : list (string * V)) (k : string) (c : V) :
  f k = n ->
  (forall k' c', In (k', c') post -> f k' <> n) ->
  last_renamed f n (pre ++ (k, c) :: post) = Some c.
Proof.
  intros Hk Hpost. unfold last_renamed.
  rewrite fold_left_app. simpl. rewrite Hk, String.eqb_refl.
  apply last_renamed_none. exact Hpost.
Qed.

Lemma last_renamed_absent (d : list (string * V)) :
  (forall k v, In (k, v) d -> f k <> n) -> last_renamed f n d = None.
Proof. intros Hno. apply last_renamed_none. exact Hno. Qed.

Lemma last_renamed_same (d : list (string * V)) (c : V) :
  (forall k v, In (k, v) d -> f k = n -> v = c) ->
  (exists k, In (k, c) d /\ f k = n) ->
  last_renamed f n d = Some c.
Proof.
  intros Hsame Hex. unfold last_renamed.
  pose proof (rekey_last V f n d []) as H. simpl in H. rewrite <- H.
  apply rekey_present; assumption.
Qed.

End Renamed.

Lemma push_variable_renamed (instruction : Instruction) (r : runner)
    (op : Operand) (more : list Operand) (node_name : string) :
  operands instruction = op :: more ->
  search_visits (string_value op) = Some node_name ->
  push_variable instruction r =
  Ok tt (set_vm_data_stack
           (Py.VInt (default 0 (last_renamed replace_dots node_name (visits r)))
              :: vm_data_stack r) r).
Proof.
  intros Hops Hsearch.
  unfold push_variable. unfold bind at 1. unfold operand_at, of_option.
  rewrite Hops. simpl. rewrite Hsearch.
  unfold bind, get, push, modify, dict_rekey, last_renamed.
  rewrite rekey_last. simpl.
  destruct (fold_left _ (visits r) None); reflexivity.
Qed.

(** C9, as the code has it.  PUSH_VARIABLE(name) pushes a visit count
    exactly when the pattern $visits_<nodeName> is found somewhere in
    the name, nodeName being the run of letters, digits and
    underscores that follows the first such place.  The count is
    looked up among the node names with every dot turned into an
    underscore: it is the count of the last entry of [visits] whose
    name so rewritten is nodeName (so the count of the node, when one
    node has that name), and 0 when there is none; the lookup never
    raises.  When the pattern is not found, the value bound to name in
    the variables is pushed, and the fatal error is raised exactly
    when name is unbound. *)
Theorem push_variable_visits_or_variable (instruction : Instruction)
    (r : runner) (op : Operand) (more : list Operand) :
  operands instruction = op :: more ->
  let name := string_value op in
  let pushed v := Ok tt (set_vm_data_stack (v :: vm_data_stack r) r) in
  ((exists node_name, names_visits name node_name) \/
   (forall node_name, ~ names_visits name node_name)) /\
  (forall node_name,
      names_visits name node_name ->
      push_variable instruction r =
      pushed (Py.VInt (default 0 (last_renamed underscored node_name (visits r)))) /\
      (forall pre k c post,
          visits r = (pre ++ (k, c) :: post)%list ->
          underscored k = node_name ->
          (forall k' c', In (k', c') post -> underscored k' <> node_name) ->
          push_variable instruction r = pushed (Py.VInt c)) /\
      (forall c,
          (exists k, In (k, c) (visits r) /\ underscored k = node_name) ->
          (forall k v, In (k, v) (visits r) -> underscored k = node_name -> v = c) ->
          push_variable instruction r = pushed (Py.VInt c)) /\
      ((forall k v, In (k, v) (visits r) -> underscored k <> node_name) ->
       push_variable instruction r = pushed (Py.VInt 0))) /\
  ((forall node_name, ~ names_visits name node_name) ->
   (forall v, variables r !! name = Some v ->
              push_variable instruction r = pushed v) /\
   (variables r !! name = None ->
    push_variable instruction r = Raise (VariableNotSet name) r)).
Proof.
  intros Hops name pushed.
  split; [apply names_visits_dec|].
  split.
  - intros node_name Hname. apply search_visits_names in Hname.
    pose proof (push_variable_renamed instruction r op more node_name Hops Hname)
      as Hpush.
    change (last_renamed replace_dots node_name (visits r))
      with (last_renamed underscored node_name (visits r)) in Hpush.
    split; [exact Hpush|]. split; [|split].
    + intros pre k c post Hv Hk Hpost. rewrite Hpush, Hv.
      rewrite (last_renamed_last underscored node_name pre post k c Hk Hpost).
      reflexivity.
    + intros c Hex Hsame. rewrite Hpush.
      rewrite (last_renamed_same underscored node_name (visits r) c Hsame Hex).
      reflexivity.
    + intros Hno. rewrite Hpush.
      rewrite (last_renamed_absent underscored node_name (visits r) Hno).
      reflexivity.
  - intros Hnone.
    assert (Hsearch : search_visits name = None).
    { destruct (search_visits name) as [g|] eqn:E; [|reflexivity].
      apply search_visits_names in E. destruct (Hnone g E). }
    assert (Hstart : forall k : Operand -> M unit,
               (let* operand := operand_at instruction 0 in k operand) r = k op r).
    { intros k. unfold bind, operand_at, of_option. rewrite Hops. reflexivity. }
    unfold push_variable. rewrite Hstart. fold name. rewrite Hsearch.
    unfold bind, get, push, modify, raise. split.
    + intros v Hv. rewrite Hv. reflexivity.
    + intros Hv. rewrite Hv. reflexivity.
Qed.

Lemma push_variable_visits_or_variable_witness :
  push_variable (Examples.I PUSH_VARIABLE [OString "$visits_a_b"]) Examples.dotted
  = Ok tt (set_vm_data_stack (Py.VInt 2 :: vm_data_stack Examples.dotted)
             Examples.dotted) /\
  push_variable (Examples.I PUSH_VARIABLE [OString "$gold"]) Examples.suspended
  = Raise (VariableNotSet "$gold") Examples.suspended.
Proof.
  split.
  - destruct (push_variable_visits_or_variable
                (Examples.I PUSH_VARIABLE [OString "$visits_a_b"])
                Examples.dotted (OString "$visits_a_b") [] eq_refl)
      as (_ & Hvisits & _).
    destruct (Hvisits "a_b") as (_ & Hlast & _).
    { apply search_visits_names. vm_compute. reflexivity. }
    apply (Hlast [("a_b", 5)] "a.b" 2 []).
    + reflexivity.
    + vm_compute. reflexivity.
    + intros k' c' [].
  - destruct (push_variable_visits_or_variable
                (Examples.I PUSH_VARIABLE [OString "$gold"])
                Examples.suspended (OString "$gold") [] eq_refl)
      as (_ & _ & Hvar).
    destruct Hvar as [_ Hunset].
    { intros g Hg. apply search_visits_names in Hg. vm_compute in Hg.
      discriminate Hg. }
    apply Hunset. vm_compute. reflexivity.
Defined.

(** C9, as stated, fails in two ways.  A name that only contains the
    pattern is not of the form $visits_<nodeName>, and is bound in the
    variables, yet its value is not pushed: the visit count of Start
    is.  And when two node names differ in a dot only, the name
    $visits_a_b does not give the count of the node a_b, which is 5,
    but that of the node a.b, which comes later in [visits]. *)
Lemma push_variable_finds_the_pattern_inside :
  (forall node_name, "x$visits_Start" <> "$visits_" +:+ node_name) /\
  variables Examples.pattern_inside !! "x$visits_Start" = Some (Py.VStr "v") /\
  push_variable (Examples.I PUSH_VARIABLE [OString "x$visits_Start"])
    Examples.pattern_inside
  = Ok tt (set_vm_data_stack (Py.VInt 1 :: vm_data_stack Examples.pattern_inside)
             Examples.pattern_inside) /\
  dict_get "a_b" (visits Examples.dotted) = Some 5 /\
  push_variable (Examples.I PUSH_VARIABLE [OString "$visits_a_b"]) Examples.dotted
  = Ok tt (set_vm_data_stack (Py.VInt 2 :: vm_data_stack Examples.dotted)
             Examples.dotted).
Proof.
  split; [intros node_name H; discriminate H|].
  split; [vm_compute; reflexivity|].
  split; [vm_compute; reflexivity|].
  split; [reflexivity|].
  vm_compute. reflexivity.
Qed.

(** ** Rebuilding a session from its snapshot *)

(** The two runners are opened, their equal attributes are identified,
    and the branches of the code are followed on both at once. *)
Ltac blind_crush :=
  let H := fresh "H" in
  intros [] [] H; unfold core in H; simpl in H; injection H as; subst;
  unfold_m; simpl;
  repeat (simpl;
          match goal with
          | |- context [match ?s with _ => _ end] =>
              lazymatch s with
              | context [match _ with _ => _ end] => fail
              | _ => destruct s eqn:?
              end
          end);
  simpl; try reflexivity.

Lemma core_idem (r : runner) : core (core r) = core r.
Proof. reflexivity. Qed.

Lemma core_proj {T} (f : runner -> T) :
  (forall r, f (core r) = f r) ->
  forall x y, core x = core y -> f x = f y.
Proof. intros Hf x y H. rewrite <- (Hf x), <- (Hf y), H. reflexivity. Qed.

Lemma erase_eq_inv {A} (X Y : result A) :
  erase X = erase Y ->
  match X, Y with
  | Ok a r, Ok a' r' => a = a' /\ core r = core r'
  | Raise e r, Raise e' r' => e = e' /\ core r = core r'
  | _, _ => False
  end.
Proof.
  destruct X as [a r|e r], Y as [a' r'|e' r']; simpl; intros H;
    try discriminate.
  - split; [congruence|exact (f_equal final H)].
  - split; [congruence|exact (f_equal final H)].
Qed.

Lemma blind_bind {A B} (m : M A) (k : A -> M B) :
  blind m -> (forall a, blind (k a)) -> blind (bind m k).
Proof.
  intros Hm Hk x y H. unfold bind.
  pose proof (erase_eq_inv _ _ (Hm x y H)) as Hxy.
  destruct (m x) as [a r1|e r1], (m y) as [a' r2|e' r2]; try contradiction;
    destruct Hxy as [-> Hcore].
  - apply Hk. exact Hcore.
  - simpl. rewrite Hcore. reflexivity.
Qed.

Lemma blind_pop0 : blind pop0.
Proof. unfold pop0. blind_crush. Qed.

Lemma blind_pop_params (n : nat) (acc : list Py.value) :
  blind (pop_params n acc).
Proof.
  revert acc. induction n as [|n IH]; intros acc; simpl.
  - unfold ret. blind_crush.
  - apply blind_bind; [apply blind_pop0|]. intros v. apply IH.
Qed.

Lemma blind_call_func (lib : std_lib) (i : Instruction) :
  blind (call_func lib i).
Proof.
  unfold call_func.
  apply blind_bind; [unfold operand_at; blind_crush|]. intros op.
  destruct (lib !! string_value op) as [[expected fn]|]; [|unfold raise; blind_crush].
  apply blind_bind; [apply blind_pop0|]. intros top.
  apply blind_bind; [blind_crush|]. intros actual.
  destruct (negb (Z.of_nat expected =? actual)); [unfold raise; blind_crush|].
  apply blind_bind; [apply blind_pop_params|]. intros params.
  destruct (fn params); [unfold push|unfold raise]; blind_crush.
Qed.

(** No opcode function reads the log or the [autostart] flag. *)
Lemma blind_simple (lib : std_lib) (process : M unit) (op : OpCode)
    (f : Instruction -> M unit) (i : Instruction) :
  op <> RUN_NODE -> opcode_functions lib process op = Some f -> blind (f i).
Proof.
  intros Hop Hf.
  destruct op; simpl in Hf; inversion Hf; subst; clear Hf;
    try congruence; try apply blind_call_func.
  - unfold jump_to. blind_crush.
  - unfold jump. blind_crush.
  - unfold run_line. blind_crush.
  - unfold run_command. blind_crush.
  - unfold add_option. blind_crush.
  - unfold show_options. blind_crush.
  - unfold push_string. blind_crush.
  - unfold push_float. blind_crush.
  - unfold push_bool. blind_crush.
  - unfold push_null. blind_crush.
  - unfold jump_if_false. blind_crush.
  - unfold pop. blind_crush.
  - unfold push_variable. blind_crush.
  - unfold store_variable. blind_crush.
  - unfold stop. blind_crush.
Qed.

Lemma blind_enter_node (k : string) : blind (enter_node k).
Proof. unfold enter_node, go_to_node. blind_crush. Qed.

Lemma blind_go_to_node (process : M unit) (k : string) :
  blind process -> blind (go_to_node process k).
Proof.
  intros Hp x y H. rewrite !go_to_node_enter.
  pose proof (erase_eq_inv _ _ (blind_enter_node k x y H)) as He.
  destruct (enter_node k x) as [[] r1|e r1], (enter_node k y) as [[] r2|e' r2];
    try contradiction; destruct He as [He Hcore].
  - apply Hp. exact Hcore.
  - subst. simpl. rewrite Hcore. reflexivity.
Qed.

Lemma blind_run_node (process : M unit) (i : Instruction) :
  blind process -> blind (run_node process i).
Proof.
  intros Hp. unfold run_node.
  destruct (operands i) as [|operand more]; [|apply blind_go_to_node; exact Hp].
  intros x y H.
  assert (Hstack : vm_data_stack x = vm_data_stack y)
    by exact (core_proj vm_data_stack (fun _ => eq_refl) x y H).
  unfold bind at 1 3. unfold get at 1 2. rewrite Hstack.
  destruct (vm_data_stack y) as [|[node_key|f|b| |n] rest] eqn:Hy;
    try (unfold raise; simpl; rewrite H; reflexivity).
  rewrite <- Hy in Hstack.
  apply blind_bind; [apply blind_pop0| |exact H].
  intros _. apply blind_go_to_node. exact Hp.
Qed.

(** Nor does the dispatch loop, so two runners that agree on their
    other attributes run alike. *)
Lemma blind_process_instruction (lib : std_lib) (fuel : nat) :
  blind (process_instruction lib fuel).
Proof.
  induction fuel as [|fuel IH]; intros x y H.
  - simpl. unfold raise. simpl. rewrite H. reflexivity.
  - rewrite !process_instruction_S. cbv zeta.
    rewrite <- (core_proj vm_instruction_stack (fun _ => eq_refl) x y H).
    rewrite <- (core_proj program_counter (fun _ => eq_refl) x y H).
    destruct (Z.of_nat (length (vm_instruction_stack x)) <? 1);
      [simpl; rewrite H; reflexivity|].
    destruct (program_counter x >? Z.of_nat (length (vm_instruction_stack x)) - 1);
      [simpl; rewrite H; reflexivity|].
    destruct (Py.index (vm_instruction_stack x) (program_counter x))
      as [instruction|]; [|simpl; rewrite H; reflexivity].
    assert (H1 : core (set_program_counter (program_counter x + 1) x)
                 = core (set_program_counter (program_counter x + 1) y)).
    { revert H. destruct x, y. unfold core; simpl. intros H. injection H as.
      subst. reflexivity. }
    assert (H2 : core (set_log (log x ++ [Dispatched instruction])
                         (set_program_counter (program_counter x + 1) x))
                 = core (set_log (log y ++ [Dispatched instruction])
                           (set_program_counter (program_counter x + 1) y))).
    { revert H. destruct x, y. unfold core; simpl. intros H. injection H as.
      subst. reflexivity. }
    destruct (opcode_functions lib (process_instruction lib fuel) (opcode instruction))
      as [f|] eqn:Hf; [|simpl; rewrite H1; reflexivity].
    assert (Hblind : blind (f instruction)).
    { assert (Hdec : opcode instruction = RUN_NODE \/ opcode instruction <> RUN_NODE)
        by (destruct (opcode instruction);
            (left; reflexivity) || (right; discriminate)).
      destruct Hdec as [Hrun|Hother].
      - rewrite Hrun in Hf. simpl in Hf. inversion Hf; subst f.
        apply blind_run_node. exact IH.
      - eapply blind_simple; eassumption. }
    pose proof (erase_eq_inv _ _ (Hblind _ _ H2)) as Hres.
    destruct (f instruction (set_log (log x ++ _) _)) as [[] r1|e r1],
             (f instruction (set_log (log y ++ _) _)) as [[] r2|e' r2];
      try contradiction; destruct Hres as [Hv Hcore].
    + rewrite (core_proj paused (fun _ => eq_refl) r1 r2 Hcore).
      rewrite (core_proj finished (fun _ => eq_refl) r1 r2 Hcore).
      destruct (negb (paused r2) && negb (finished r2)).
      * apply IH. revert Hcore. destruct r1, r2. unfold core; simpl.
        intros Hc. injection Hc as. subst. reflexivity.
      * simpl. rewrite Hcore. reflexivity.
    + subst. simpl. rewrite Hcore. reflexivity.
Qed.

Lemma blind_resume (lib : std_lib) (fuel : nat) : blind (resume lib fuel).
Proof.
  intros x y H. unfold resume. unfold bind at 1 3. unfold get at 1 2.
  rewrite (core_proj vm_data_stack (fun _ => eq_refl) x y H).
  destruct (vm_data_stack y) as [|[s|f|b| |n] rest];
    try (unfold raise; simpl; rewrite H; reflexivity).
  unfold bind, modify. apply blind_process_instruction.
  revert H. destruct x, y. unfold core; simpl. intros H. injection H as.
  subst. reflexivity.
Qed.

Lemma blind_choose (lib : std_lib) (fuel : nat) (i : Z) :
  blind (choose lib fuel i).
Proof.
  intros x y H. unfold choose. unfold bind at 1 5. unfold get at 1 2.
  rewrite (core_proj option_buffer (fun _ => eq_refl) x y H).
  unfold of_option, bind at 1 4.
  destruct (Py.index (option_buffer y) i) as [chosen|];
    [|unfold raise; simpl; rewrite H; reflexivity].
  unfold ret, bind, modify, push. apply blind_resume.
  revert H. destruct x, y. unfold core; simpl. intros H. injection H as.
  subst. reflexivity.
Qed.

Lemma map_or_some {V} (m : gmap string V) : map_or (Some m) ∅ = m.
Proof. unfold map_or. destruct (decide (m = ∅)); congruence. Qed.

Lemma list_or_some_nil {A} (l : list A) : list_or (Some l) [] = l.
Proof. destruct l; reflexivity. Qed.

Lemma list_or_some {A} (l d : list A) : l <> [] -> list_or (Some l) d = l.
Proof. destruct l; [congruence|reflexivity]. Qed.

Lemma zero_visits_empty (p : Program) : nodes p = ∅ -> zero_visits p = [].
Proof. unfold zero_visits. intros ->. rewrite map_to_list_empty. reflexivity. Qed.

(** When [__init__] rebuilds the suspended session as it was. *)
Lemma snapshot_faithful (r : runner) :
  paused r = true ->
  finished r = ends_with_stop (vm_instruction_stack r) ->
  vm_data_stack r <> [] ->
  vm_instruction_stack r <> [] ->
  (visits r <> [] \/ nodes (compiled_yarn r) = ∅) ->
  core (init_fields (snapshot r)) = core r.
Proof.
  intros Hpaused Hfinished Hstack Hinstr Hvisits.
  assert (Hv : list_or (Some (visits r)) (zero_visits (compiled_yarn r)) = visits r).
  { destruct Hvisits as [Hne|Hempty]; [apply list_or_some; exact Hne|].
    rewrite (zero_visits_empty _ Hempty). apply list_or_some_nil. }
  unfold init_fields, core.
  cbn [compiled_yarn string_lookup_table enable_tracing experimental_newlines
       visits variables current_node command_handlers line_buffer option_buffer
       vm_data_stack vm_instruction_stack program_counter previous_instruction
       paused finished autostart log].
  unfold snapshot.
  cbn [Args.compiled_yarn Args.string_lookup_table Args.autostart
       Args.enable_tracing Args.experimental_newlines Args.visits Args.variables
       Args.current_node Args.command_handlers Args.line_buffer
       Args.option_buffer Args.vm_data_stack Args.vm_instruction_stack
       Args.program_counter Args.previous_instruction].
  rewrite !map_or_some, !list_or_some_nil, Hv.
  rewrite (list_or_some _ _ Hstack), (list_or_some _ _ Hinstr).
  rewrite <- Hfinished, Hpaused. reflexivity.
Qed.

(** A session suspended with a non-empty value stack, inside a node whose
    instruction list does not end with STOP (more generally, whose
    finished flag is what [__init__] recomputes), is rebuilt from its
    snapshot as it was, and goes on as the original does: resume() and
    choose() return or raise alike and leave the same attributes. *)
Lemma snapshot_then_continue (lib : std_lib) (fuel : nat) (r : runner) :
  paused r = true ->
  finished r = ends_with_stop (vm_instruction_stack r) ->
  vm_data_stack r <> [] ->
  vm_instruction_stack r <> [] ->
  (visits r <> [] \/ nodes (compiled_yarn r) = ∅) ->
  init lib fuel (snapshot r) = Ok tt (init_fields (snapshot r)) /\
  erase (resume lib fuel (init_fields (snapshot r))) = erase (resume lib fuel r) /\
  (forall i, erase (choose lib fuel i (init_fields (snapshot r)))
             = erase (choose lib fuel i r)).
Proof.
  intros Hp Hf Hs Hi Hv.
  pose proof (snapshot_faithful r Hp Hf Hs Hi Hv) as Hcore.
  split; [reflexivity|]. split.
  - apply blind_resume. exact Hcore.
  - intros i. apply blind_choose. exact Hcore.
Qed.

Lemma snapshot_then_continue_example :
  erase (choose ∅ 50 0 (init_fields (snapshot Examples.looping)))
  = erase (choose ∅ 50 0 Examples.looping) /\
  line_buffer (final (choose ∅ 50 0 Examples.looping)) = ["Done"].
Proof.
  split; [|vm_compute; reflexivity].
  apply (snapshot_then_continue ∅ 50 Examples.looping).
  - vm_compute; reflexivity.
  - vm_compute; reflexivity.
  - vm_compute; discriminate.
  - vm_compute; discriminate.
  - left. vm_compute; discriminate.
Defined.

(** C1 on the code.  The session [Examples.suspended] waits at
    SHOW_OPTIONS, not finished, with an empty value stack.  The session
    rebuilt from its full snapshot has the finished flag set, because
    the instruction list of the node ends with STOP, and the value stack
    holding the string Start, because the empty stack of the snapshot is
    falsy.  Choosing option 0 then runs the original session to its end
    and produces the line Done, while the rebuilt session dispatches the
    single JUMP and returns with no line. *)
Theorem restored_session_stops_early :
  init ∅ 100 (Examples.fresh_args Examples.prog) = Ok tt Examples.suspended /\
  init ∅ 100 (snapshot Examples.suspended) = Ok tt Examples.restored /\
  (paused Examples.suspended, finished Examples.suspended,
   vm_data_stack Examples.suspended) = (true, false, []) /\
  (paused Examples.restored, finished Examples.restored,
   vm_data_stack Examples.restored) = (true, true, [Py.VStr "Start"]) /\
  (exists r', choose ∅ 100 0 Examples.suspended = Ok tt r' /\
              line_buffer r' = ["Done"] /\ finished r' = true /\
              dispatches (log r') = (dispatches (log Examples.suspended) + 4)%nat) /\
  (exists r', choose ∅ 100 0 Examples.restored = Ok tt r' /\
              line_buffer r' = [] /\
              log r' = [Dispatched (Examples.I JUMP [])]).
Proof.
  split; [vm_compute; reflexivity|].
  split; [vm_compute; reflexivity|].
  split; [vm_compute; reflexivity|].
  split; [vm_compute; reflexivity|].
  split.
  - eexists. split; [vm_compute; reflexivity|].
    split; [reflexivity|]. split; [reflexivity|]. vm_compute. reflexivity.
  - eexists. split; [vm_compute; reflexivity|].
    split; reflexivity.
Qed.

(** * Further properties of the code *)

(** ** What a normal return means *)

Lemma process_instruction_returns_suspended (lib : std_lib) (fuel : nat)
    (r r' : runner) :
  process_instruction lib fuel r = Ok tt r' -> suspended_or_finished r'.
Proof.
  revert r. induction fuel as [|fuel IH]; intros r; [discriminate|].
  rewrite process_instruction_S. cbv zeta.
  destruct (Z.of_nat (length (vm_instruction_stack r)) <? 1); [discriminate|].
  destruct (program_counter r >? Z.of_nat (length (vm_instruction_stack r)) - 1);
    [discriminate|].
  destruct (Py.index (vm_instruction_stack r) (program_counter r))
    as [instruction|]; [|discriminate].
  destruct (opcode_functions lib (process_instruction lib fuel) (opcode instruction))
    as [f|]; [|discriminate].
  destruct (f instruction _) as [[] r1|e r1]; [|discriminate].
  destruct (negb (paused r1) && negb (finished r1)) eqn:Htest.
  - apply IH.
  - intros H; inversion H; subst r'. unfold suspended_or_finished.
    destruct (paused r1), (finished r1); auto; discriminate.
Qed.

(** When resume(), choose() or a constructor with autostart returns
    without an exception, the runner is paused at SHOW_OPTIONS or
    finished by STOP: the dispatch loop has no other way to return. *)
Theorem returns_only_when_suspended (lib : std_lib) (fuel : nat) (r r' : runner) :
  (resume lib fuel r = Ok tt r' -> suspended_or_finished r') /\
  (forall i, choose lib fuel i r = Ok tt r' -> suspended_or_finished r') /\
  (forall a, Args.autostart a = true -> init lib fuel a = Ok tt r' ->
             suspended_or_finished r').
Proof.
  assert (Hresume : forall x, resume lib fuel x = Ok tt r' -> suspended_or_finished r').
  { intros x. unfold resume. unfold bind at 1. unfold get at 1.
    destruct (vm_data_stack x) as [|[s|f|b| |n] rest]; try discriminate.
    unfold bind, modify. apply process_instruction_returns_suspended. }
  split; [apply Hresume|]. split.
  - intros i. unfold choose. unfold bind at 1. unfold get at 1.
    unfold of_option, bind at 1.
    destruct (Py.index (option_buffer r) i) as [chosen|]; [|discriminate].
    unfold ret, bind, modify, push. apply Hresume.
  - intros a Hauto. unfold init. rewrite Hauto. apply Hresume.
Qed.

Lemma returns_only_when_suspended_witness :
  suspended_or_finished Examples.suspended.
Proof.
  destruct (returns_only_when_suspended ∅ 100
              (init_fields (Examples.fresh_args Examples.prog))
              Examples.suspended) as (_ & _ & H).
  apply (H (Examples.fresh_args Examples.prog)); [reflexivity|].
  vm_compute. reflexivity.
Defined.

(** ** RUN_NODE ends the call that dispatches it *)

Lemma run_node_eq (process : M unit) (i : Instruction) (r : runner) :
  run_node process i r =
  match operands i with
  | operand :: _ => go_to_node process (string_value operand) r
  | [] =>
      match vm_data_stack r with
      | Py.VStr node_key :: rest =>
          go_to_node process node_key (set_vm_data_stack rest r)
      | _ => Raise RunNodeRequiresString r
      end
  end.
Proof.
  unfold run_node. destruct (operands i) as [|operand more]; [|reflexivity].
  unfold bind at 1. unfold get at 1.
  destruct (vm_data_stack r) as [|[node_key|f|b| |n] rest] eqn:Hstack;
    try reflexivity.
  unfold bind. rewrite pop0_eq, Hstack. reflexivity.
Qed.

Lemma run_node_returns_suspended (lib : std_lib) (fuel : nat) (i : Instruction)
    (r r' : runner) :
  run_node (process_instruction lib fuel) i r = Ok tt r' ->
  suspended_or_finished r'.
Proof.
  assert (Hgo : forall k x, go_to_node (process_instruction lib fuel) k x = Ok tt r' ->
                            suspended_or_finished r').
  { intros k x. rewrite go_to_node_enter.
    destruct (enter_node k x) as [[] x'|e x']; [|discriminate].
    apply process_instruction_returns_suspended. }
  rewrite run_node_eq. destruct (operands i) as [|operand more]; [|apply Hgo].
  destruct (vm_data_stack r) as [|[node_key|f|b| |n] rest]; try discriminate.
  apply Hgo.
Qed.

Lemma run_node_ends_the_call (lib : std_lib) (fuel : nat) (r : runner)
    (instruction : Instruction) :
  Py.index (vm_instruction_stack r) (program_counter r) = Some instruction ->
  opcode instruction = RUN_NODE ->
  process_instruction lib (S fuel) r =
  run_node (process_instruction lib fuel) instruction
    (set_log (log r ++ [Dispatched instruction])
       (set_program_counter (program_counter r + 1) r)).
Proof.
  intros Hidx Hop.
  rewrite (process_instruction_fetch lib fuel r instruction
             (run_node (process_instruction lib fuel)) Hidx)
    by (rewrite Hop; reflexivity).
  destruct (run_node (process_instruction lib fuel) instruction _)
    as [[] r1|e r1] eqn:Hrun; [|reflexivity].
  apply run_node_returns_suspended in Hrun.
  destruct Hrun as [H|H]; rewrite H; [reflexivity|].
  rewrite andb_false_r. reflexivity.
Qed.

(** The call of the dispatch loop that finds RUN_NODE at the program
    counter is the call of [__run_node] and nothing more: the target
    node runs inside it until the session is paused or finished, so the
    instructions that follow RUN_NODE in the old node are never reached
    by falling through. *)
Theorem run_node_never_falls_through (lib : std_lib) (fuel : nat) (r : runner)
    (instruction : Instruction) :
  Py.index (vm_instruction_stack r) (program_counter r) = Some instruction ->
  opcode instruction = RUN_NODE ->
  process_instruction lib (S fuel) r =
  run_node (process_instruction lib fuel) instruction
    (set_log (log r ++ [Dispatched instruction])
       (set_program_counter (program_counter r + 1) r)).
Proof. exact (run_node_ends_the_call lib fuel r instruction). Qed.

Lemma run_node_never_falls_through_witness :
  process_instruction ∅ 1 (set_program_counter 6 Examples.looping) =
  run_node (process_instruction ∅ 0)
    (Examples.I RUN_NODE [OString "Start"])
    (set_log (log (set_program_counter 6 Examples.looping) ++
                [Dispatched (Examples.I RUN_NODE [OString "Start"])])
       (set_program_counter
          (program_counter (set_program_counter 6 Examples.looping) + 1)
          (set_program_counter 6 Examples.looping))).
Proof.
  assert (Hidx : Py.index
                   (vm_instruction_stack (set_program_counter 6 Examples.looping))
                   (program_counter (set_program_counter 6 Examples.looping))
                 = Some (Examples.I RUN_NODE [OString "Start"]))
    by (vm_compute; reflexivity).
  exact (run_node_never_falls_through ∅ 0
           (set_program_counter 6 Examples.looping)
           (Examples.I RUN_NODE [OString "Start"]) Hidx eq_refl).
Defined.

(** ** Recursion depth *)

Lemma run_node_more_fuel (lib : std_lib) (n m : nat) (i : Instruction) (r : runner) :
  (forall x, completed (process_instruction lib n x) ->
             process_instruction lib m x = process_instruction lib n x) ->
  completed (run_node (process_instruction lib n) i r) ->
  run_node (process_instruction lib m) i r =
  run_node (process_instruction lib n) i r.
Proof.
  intros IH.
  assert (Hgo : forall k x,
             completed (go_to_node (process_instruction lib n) k x) ->
             go_to_node (process_instruction lib m) k x =
             go_to_node (process_instruction lib n) k x).
  { intros k x. rewrite !go_to_node_enter.
    destruct (enter_node k x) as [[] x'|e x']; [apply IH|reflexivity]. }
  rewrite !run_node_eq. destruct (operands i) as [|operand more]; [|apply Hgo].
  destruct (vm_data_stack r) as [|[node_key|f|b| |k] rest]; try reflexivity.
  apply Hgo.
Qed.

Lemma opcode_functions_simple (lib : std_lib) (p1 p2 : M unit) (op : OpCode) :
  op <> RUN_NODE -> opcode_functions lib p1 op = opcode_functions lib p2 op.
Proof. destruct op; intros H; try reflexivity. congruence. Qed.

Lemma process_instruction_more_fuel (lib : std_lib) (n m : nat) (r : runner) :
  (n <= m)%nat ->
  completed (process_instruction lib n r) ->
  process_instruction lib m r = process_instruction lib n r.
Proof.
  revert m r. induction n as [|n IH]; intros m r Hle Hc; [destruct Hc|].
  destruct m as [|m]; [lia|].
  assert (IH' : forall x, completed (process_instruction lib n x) ->
                          process_instruction lib m x = process_instruction lib n x)
    by (intros x Hx; apply IH; [lia|exact Hx]).
  rewrite process_instruction_S in Hc. rewrite !process_instruction_S.
  cbv zeta in *.
  destruct (Z.of_nat (length (vm_instruction_stack r)) <? 1); [reflexivity|].
  destruct (program_counter r >? Z.of_nat (length (vm_instruction_stack r)) - 1);
    [reflexivity|].
  destruct (Py.index (vm_instruction_stack r) (program_counter r))
    as [instruction|]; [|reflexivity].
  set (r2 := set_log (log r ++ [Dispatched instruction])
               (set_program_counter (program_counter r + 1) r)) in *.
  assert (Hdec : opcode instruction = RUN_NODE \/ opcode instruction <> RUN_NODE)
    by (destruct (opcode instruction);
        (left; reflexivity) || (right; discriminate)).
  destruct Hdec as [Hrun|Hother].
  - rewrite Hrun in *. simpl in *.
    assert (Heq : run_node (process_instruction lib m) instruction r2
                  = run_node (process_instruction lib n) instruction r2).
    { apply run_node_more_fuel; [exact IH'|].
      revert Hc.
      destruct (run_node (process_instruction lib n) instruction r2)
        as [[] r1|e r1]; simpl; [trivial|intros Hc; exact Hc]. }
    rewrite Heq.
    destruct (run_node (process_instruction lib n) instruction r2)
      as [[] r1|e r1]; [|reflexivity].
    destruct (negb (paused r1) && negb (finished r1));
      [apply IH'; exact Hc|reflexivity].
  - rewrite (opcode_functions_simple lib (process_instruction lib m)
               (process_instruction lib n) _ Hother).
    destruct (opcode_functions lib (process_instruction lib n) (opcode instruction))
      as [f|]; [|reflexivity].
    destruct (f instruction r2) as [[] r1|e r1]; [|reflexivity].
    destruct (negb (paused r1) && negb (finished r1));
      [apply IH'; exact Hc|reflexivity].
Qed.

Lemma resume_eq (lib : std_lib) (fuel : nat) (r : runner) :
  resume lib fuel r =
  match vm_data_stack r with
  | Py.VStr _ :: _ => process_instruction lib fuel (set_paused false r)
  | _ => Raise NoOptionSelected r
  end.
Proof.
  unfold resume. unfold bind at 1. unfold get at 1.
  destruct (vm_data_stack r) as [|[s|f|b| |k] rest]; reflexivity.
Qed.

Lemma choose_eq (lib : std_lib) (fuel : nat) (i : Z) (r : runner) :
  choose lib fuel i r =
  match Py.index (option_buffer r) i with
  | Some chosen =>
      resume lib fuel
        (set_vm_data_stack (Py.VStr (choice chosen) :: vm_data_stack r)
           (set_option_buffer [] r))
  | None => Raise IndexError r
  end.
Proof.
  unfold choose. unfold bind at 1. unfold get at 1.
  unfold of_option, bind at 1.
  destruct (Py.index (option_buffer r) i) as [chosen|]; reflexivity.
Qed.

(** The dispatch loop calls itself once per instruction, so a run is
    bounded by Python's recursion limit.  The limit has no other
    effect: a call of the loop, of resume() or of choose() that ends
    within depth n, by returning or by raising anything but the
    RecursionError, ends in the same way and in the same state under
    every larger limit. *)
Theorem more_depth_same_run (lib : std_lib) (n m : nat) (r : runner) :
  (n <= m)%nat ->
  (completed (process_instruction lib n r) ->
   process_instruction lib m r = process_instruction lib n r) /\
  (completed (resume lib n r) -> resume lib m r = resume lib n r) /\
  (forall i, completed (choose lib n i r) ->
             choose lib m i r = choose lib n i r).
Proof.
  intros Hle.
  assert (Hresume : forall x, completed (resume lib n x) ->
                              resume lib m x = resume lib n x).
  { intros x. rewrite !resume_eq.
    destruct (vm_data_stack x) as [|[s|f|b| |k] rest];
      try (intros _; reflexivity).
    apply process_instruction_more_fuel. exact Hle. }
  split; [apply process_instruction_more_fuel; exact Hle|].
  split; [apply Hresume|].
  intros i. rewrite !choose_eq.
  destruct (Py.index (option_buffer r) i) as [chosen|];
    [|intros _; reflexivity].
  apply Hresume.
Qed.

Lemma more_depth_same_run_witness :
  resume ∅ 200 (init_fields (Examples.fresh_args Examples.prog)) =
  resume ∅ 5 (init_fields (Examples.fresh_args Examples.prog)).
Proof.
  assert (Hle : (5 <= 200)%nat) by lia.
  destruct (more_depth_same_run ∅ 5 200
              (init_fields (Examples.fresh_args Examples.prog)) Hle)
    as (_ & H & _).
  apply H. vm_compute. exact I.
Defined.

(** ** What each opcode writes *)

Ltac writes_leaf :=
  constructor; simpl; intros;
  repeat match goal with
         | |- _ /\ _ => split
         end;
  intros; try reflexivity; try congruence;
  try (exists []; rewrite app_nil_r; reflexivity);
  try (eexists; reflexivity);
  try (eexists; rewrite <- app_assoc; reflexivity);
  try (left; reflexivity);
  try (right; eexists; split; [|reflexivity]; reflexivity);
  try (right; eexists; eexists; reflexivity).



Lemma pop_params_only_stack (n : nat) (acc : list Py.value) (r : runner) :
  exists s, final (pop_params n acc r) = set_vm_data_stack s r.
Proof.
  revert acc r. induction n as [|n IH]; intros acc r; simpl.
  - exists (vm_data_stack r). symmetry. apply set_vm_data_stack_id.
  - unfold bind at 1. rewrite pop0_eq.
    destruct (vm_data_stack r) as [|v rest] eqn:Hs; simpl.
    + exists []. rewrite <- Hs. symmetry. apply set_vm_data_stack_id.
    + destruct (IH (v :: acc) (set_vm_data_stack rest r)) as [s Hs'].
      exists s. rewrite Hs'. reflexivity.
Qed.

Lemma call_func_only_stack (lib : std_lib) (i : Instruction) (r : runner) :
  exists s, final (call_func lib i r) = set_vm_data_stack s r.
Proof.
  assert (Hid : exists s, r = set_vm_data_stack s r)
    by (exists (vm_data_stack r); symmetry; apply set_vm_data_stack_id).
  unfold call_func, operand_at, of_option. unfold bind at 1.
  destruct (Py.index (operands i) 0) as [op|]; simpl; [|exact Hid].
  destruct (lib !! string_value op) as [[expected fn]|]; simpl; [|exact Hid].
  unfold bind at 1. rewrite pop0_eq.
  destruct (vm_data_stack r) as [|top rest]; simpl; [exact Hid|].
  unfold bind at 1.
  destruct (Py.int top) as [actual|]; simpl; [|eexists; reflexivity].
  destruct (negb (Z.of_nat expected =? actual)); simpl; [eexists; reflexivity|].
  unfold bind.
  destruct (pop_params_only_stack expected [] (set_vm_data_stack rest r)) as [s Hs].
  destruct (pop_params expected [] (set_vm_data_stack rest r)) as [params r1|e r1];
    simpl in Hs; subst r1.
  - destruct (fn params); simpl; eexists; reflexivity.
  - simpl. eexists; reflexivity.
Qed.

Lemma simple_opcode_writes (lib : std_lib) (process : M unit) (op : OpCode)
    (f : Instruction -> M unit) (i : Instruction) (r : runner) :
  op <> RUN_NODE ->
  opcode_functions lib process op = Some f ->
  writes op r (final (f i r)).
Proof.
  intros Hop Hf.
  destruct op; simpl in Hf; inversion Hf; subst; clear Hf; try congruence.
  - unfold jump_to. crush_goal; writes_leaf.
  - unfold jump. crush_goal; writes_leaf.
  - unfold run_line. crush_goal; writes_leaf.
  - unfold run_command. crush_goal; writes_leaf.
  - unfold add_option. crush_goal; writes_leaf.
  - unfold show_options. crush_goal; writes_leaf.
  - unfold push_string. crush_goal; writes_leaf.
  - unfold push_float. crush_goal; writes_leaf.
  - unfold push_bool. crush_goal; writes_leaf.
  - unfold push_null. crush_goal; writes_leaf.
  - unfold jump_if_false. crush_goal; writes_leaf.
  - unfold pop. crush_goal; writes_leaf.
  - destruct (call_func_only_stack lib i r) as [s ->]. writes_leaf.
  - unfold push_variable. crush_goal; writes_leaf.
  - unfold store_variable. crush_goal; writes_leaf.
  - unfold stop. crush_goal; writes_leaf.
Qed.

(** Which attributes an opcode function can change, whether it returns
    or raises.  Apart from RUN_NODE: none touches the instruction list,
    the previous instruction, the string table, the command handlers,
    the visit counters or the current node; only STORE_VARIABLE writes
    the variables, and it binds one name; only RUN_LINE and RUN_COMMAND
    write the line buffer, and they append to it; only ADD_OPTION
    writes the option buffer, and it appends one option whose index is
    the length of the buffer; only the PUSH opcodes, POP and CALL_FUNC
    write the value stack (JUMP and STORE_VARIABLE read its top and
    leave it in place); only SHOW_OPTIONS writes the paused flag, only
    STOP the finished flag, only the three jumps the program
    counter. *)
Theorem opcodes_write_their_own_fields (lib : std_lib) (process : M unit)
    (op : OpCode) (f : Instruction -> M unit) (i : Instruction) (r : runner) :
  op <> RUN_NODE ->
  opcode_functions lib process op = Some f ->
  writes op r (final (f i r)).
Proof. exact (simple_opcode_writes lib process op f i r). Qed.

Lemma opcodes_write_their_own_fields_witness :
  writes STORE_VARIABLE Examples.after_first_line
    (final (store_variable (Examples.I STORE_VARIABLE [OString "$gold"])
              Examples.after_first_line)).
Proof.
  assert (Hop : STORE_VARIABLE <> RUN_NODE) by discriminate.
  exact (opcodes_write_their_own_fields ∅ (ret tt) STORE_VARIABLE store_variable
           (Examples.I STORE_VARIABLE [OString "$gold"]) Examples.after_first_line
           Hop eq_refl).
Defined.

(** ** Invariants of the dialogue data *)

Ltac data_leaf := constructor; simpl; intros; reflexivity.

Lemma enter_node_same_data (k : string) (r : runner) :
  same_data r (final (enter_node k r)).
Proof.
  unfold enter_node, go_to_node. crush_goal; data_leaf.
Qed.

Section Loop.

Variable lib : std_lib.
Variable Q : runner -> Prop.
Hypothesis Q_writes : forall op r r', writes op r r' -> Q r -> Q r'.
Hypothesis Q_control : forall r r', same_data r r' -> Q r -> Q r'.
Hypothesis Q_clear : forall r, Q r -> Q (set_option_buffer [] r).

Lemma run_node_loop (process : M unit) (i : Instruction) (r : runner) :
  (forall x, Q x -> Q (final (process x))) ->
  Q r -> Q (final (run_node process i r)).
Proof.
  intros Hprocess HQ.
  assert (Hgo : forall k x, Q x -> Q (final (go_to_node process k x))).
  { intros k x Hx. rewrite go_to_node_enter.
    pose proof (Q_control _ _ (enter_node_same_data k x) Hx) as He.
    destruct (enter_node k x); simpl in *; auto. }
  rewrite run_node_eq.
  destruct (operands i) as [|operand more]; [|apply Hgo; exact HQ].
  destruct (vm_data_stack r) as [|[node_key|f|b| |n] rest] eqn:Hstack;
    try exact HQ.
  apply Hgo. eapply Q_control; [|exact HQ]. data_leaf.
Qed.

Lemma process_instruction_loop (fuel : nat) (r : runner) :
  Q r -> Q (final (process_instruction lib fuel r)).
Proof.
  revert r. induction fuel as [|fuel IH]; intros r HQ; [exact HQ|].
  rewrite process_instruction_S. cbv zeta.
  destruct (Z.of_nat (length (vm_instruction_stack r)) <? 1); [exact HQ|].
  destruct (program_counter r >? Z.of_nat (length (vm_instruction_stack r)) - 1);
    [exact HQ|].
  destruct (Py.index (vm_instruction_stack r) (program_counter r))
    as [instruction|]; [|exact HQ].
  set (r1 := set_program_counter (program_counter r + 1) r).
  set (r2 := set_log (log r ++ [Dispatched instruction]) r1).
  assert (HQ1 : Q r1) by (eapply Q_control; [|exact HQ]; data_leaf).
  assert (HQ2 : Q r2) by (eapply Q_control; [|exact HQ]; data_leaf).
  destruct (opcode_functions lib (process_instruction lib fuel) (opcode instruction))
    as [f|] eqn:Hf; [|exact HQ1].
  assert (HQ3 : Q (final (f instruction r2))).
  { assert (Hdec : opcode instruction = RUN_NODE \/ opcode instruction <> RUN_NODE)
      by (destruct (opcode instruction); (left; reflexivity) || (right; discriminate)).
    destruct Hdec as [Hrun|Hother].
    - rewrite Hrun in Hf. simpl in Hf. inversion Hf; subst f.
      apply run_node_loop; [exact IH|exact HQ2].
    - eapply Q_writes; [|exact HQ2].
      eapply simple_opcode_writes; eassumption. }
  destruct (f instruction r2) as [[] r'|e r']; simpl in HQ3; [|exact HQ3].
  destruct (negb (paused r') && negb (finished r')); [|exact HQ3].
  apply IH. eapply Q_control; [|exact HQ3]. data_leaf.
Qed.

Lemma resume_loop (fuel : nat) (r : runner) :
  Q r -> Q (final (resume lib fuel r)).
Proof.
  intros HQ. rewrite resume_eq.
  destruct (vm_data_stack r) as [|[s|f|b| |n] rest]; try exact HQ.
  apply process_instruction_loop.
  eapply Q_control; [|exact HQ]. data_leaf.
Qed.

Lemma choose_loop (fuel : nat) (i : Z) (r : runner) :
  Q r -> Q (final (choose lib fuel i r)).
Proof.
  intros HQ. rewrite choose_eq.
  destruct (Py.index (option_buffer r) i) as [chosen|]; [|exact HQ].
  apply resume_loop.
  eapply Q_control; [|apply Q_clear; exact HQ]. data_leaf.
Qed.

End Loop.

(** resume() and choose() only ever append to the line buffer, whether
    they return or raise: the lines that were waiting to be read are
    still there, in the same order, in front of the new ones. *)
Theorem line_buffer_only_grows (lib : std_lib) (fuel : nat) (r : runner) :
  (exists l, line_buffer (final (resume lib fuel r)) = (line_buffer r ++ l)%list) /\
  (forall i, exists l,
      line_buffer (final (choose lib fuel i r)) = (line_buffer r ++ l)%list).
Proof.
  set (Q := fun x : runner => exists l, line_buffer x = (line_buffer r ++ l)%list).
  assert (Hw : forall op x x', writes op x x' -> Q x -> Q x').
  { intros op x x' [_ _ _ [_ [l' Hl']] _ _ _ _ _] [l Hl].
    exists (l ++ l')%list. rewrite Hl', Hl, app_assoc. reflexivity. }
  assert (Hc : forall x x', same_data x x' -> Q x -> Q x').
  { intros x x' [Hl' _ _ _ _ _] [l Hl]. exists l. rewrite Hl'. exact Hl. }
  assert (Hclear : forall x, Q x -> Q (set_option_buffer [] x))
    by (intros x Hx; exact Hx).
  assert (H0 : Q r) by (exists []; rewrite app_nil_r; reflexivity).
  split.
  - exact (resume_loop lib Q Hw Hc fuel r H0).
  - intros i. exact (choose_loop lib Q Hw Hc Hclear fuel i r H0).
Qed.

Lemma keeps_configuration_writes (r0 : runner) (op : OpCode) (x x' : runner) :
  writes op x x' -> keeps_configuration r0 x -> keeps_configuration r0 x'.
Proof.
  intros [(_ & _ & Ht & Hh & Hn) _ [_ Hv] _ _ _ _ _ _] (Ht0 & Hh0 & Hn0 & Hv0).
  unfold keeps_configuration.
  rewrite Ht, Hh, Hn. repeat split; try assumption.
  intros k Hk. specialize (Hv0 k Hk).
  destruct Hv as [->|(k' & v & ->)]; [exact Hv0|].
  destruct (decide (k' = k)) as [->|Hne].
  - rewrite lookup_insert_eq. eauto.
  - rewrite lookup_insert_ne by exact Hne. exact Hv0.
Qed.

Lemma keeps_configuration_control (r0 x x' : runner) :
  same_data x x' -> keeps_configuration r0 x -> keeps_configuration r0 x'.
Proof.
  intros [_ _ Hv Ht Hh Hn] H. unfold keeps_configuration.
  rewrite Hv, Ht, Hh, Hn. exact H.
Qed.

(** Running the program never changes the string table, the registered
    command handlers or the newline setting, and never unsets a
    variable: after resume() or choose(), returned or raised, every
    variable that was set is still set. *)
Theorem running_keeps_configuration (lib : std_lib) (fuel : nat) (r : runner) :
  keeps_configuration r (final (resume lib fuel r)) /\
  (forall i, keeps_configuration r (final (choose lib fuel i r))).
Proof.
  assert (H0 : keeps_configuration r r) by (repeat split; auto).
  assert (Hclear : forall x, keeps_configuration r x ->
                             keeps_configuration r (set_option_buffer [] x))
    by (intros x Hx; exact Hx).
  split.
  - exact (resume_loop lib _ (keeps_configuration_writes r)
             (keeps_configuration_control r) fuel r H0).
  - intros i.
    exact (choose_loop lib _ (keeps_configuration_writes r)
             (keeps_configuration_control r) Hclear fuel i r H0).
Qed.

Lemma indexed_nil : indexed [].
Proof. intros [|k] o H; discriminate. Qed.

Lemma indexed_app (buffer : list option_entry) (o : option_entry) :
  indexed buffer -> appended_option buffer o -> indexed (buffer ++ [o]).
Proof.
  intros Hb Ho k o' Hk.
  destruct (Nat.lt_ge_cases k (length buffer)) as [Hlt|Hge].
  - rewrite nth_error_app1 in Hk by exact Hlt. apply Hb. exact Hk.
  - rewrite nth_error_app2 in Hk by exact Hge.
    destruct (k - length buffer)%nat as [|m] eqn:Hm; simpl in Hk.
    + inversion Hk; subst o'. unfold appended_option in Ho. rewrite Ho.
      f_equal. lia.
    + destruct m; discriminate.
Qed.

Lemma indexed_writes (op : OpCode) (x x' : runner) :
  writes op x x' -> indexed (option_buffer x) -> indexed (option_buffer x').
Proof.
  intros [_ _ _ _ [_ Ho] _ _ _ _] Hx.
  destruct Ho as [->|(o & Ho & ->)]; [exact Hx|].
  apply indexed_app; assumption.
Qed.

Lemma indexed_control (x x' : runner) :
  same_data x x' -> indexed (option_buffer x) -> indexed (option_buffer x').
Proof. intros [_ Ho _ _ _ _] Hx. rewrite Ho. exact Hx. Qed.

Lemma reachable_indexed (lib : std_lib) (p : Program) (r : runner) :
  reachable lib p r -> indexed (option_buffer r).
Proof.
  set (Q := fun x : runner => indexed (option_buffer x)).
  assert (Hclear : forall x, Q x -> Q (set_option_buffer [] x))
    by (intros x _; exact indexed_nil).
  induction 1 as [fuel a r Hfresh Hp Hinit|fuel r _ IH|fuel i r _ IH
                 |r _ IH|r _ IH|command fn r _ IH].
  - assert (H0 : Q (init_fields a)).
    { destruct Hfresh as (_ & _ & _ & _ & Ho & _).
      unfold Q, init_fields. simpl. rewrite Ho. exact indexed_nil. }
    unfold init in Hinit. destruct (Args.autostart a).
    + pose proof (resume_loop lib Q indexed_writes indexed_control fuel _ H0) as H1.
      rewrite Hinit in H1. exact H1.
    + inversion Hinit; subst. exact H0.
  - exact (resume_loop lib Q indexed_writes indexed_control fuel r IH).
  - exact (choose_loop lib Q indexed_writes indexed_control Hclear fuel i r IH).
  - unfold get_line. crush_goal; exact IH.
  - unfold get_lines. crush_goal; exact IH.
  - unfold add_command_handler. crush_goal; exact IH.
Qed.

Lemma index_nth {A} (l : list A) (k : nat) (x : A) :
  nth_error l k = Some x -> Py.index l (Z.of_nat k) = Some x.
Proof.
  intros H. assert (Hk : (k < length l)%nat) by (apply nth_error_Some; congruence).
  unfold Py.index.
  destruct (Z.leb_spec 0 (Z.of_nat k)); [|lia].
  destruct (Z.ltb_spec (Z.of_nat k) (Z.of_nat (length l))); [|lia].
  simpl. rewrite Nat2Z.id. exact H.
Qed.

(** In a session, the index that an option of get_choices() carries is
    the index to pass to choose() to take that option: the options are
    numbered from 0 in the order they were added since the last
    choice, so choose(option.index) clears the buffer, pushes that
    option's target and resumes. *)
Theorem shown_index_selects_the_option (lib : std_lib) (p : Program)
    (r : runner) (o : option_entry) (fuel : nat) :
  reachable lib p r ->
  In o (get_choices r) ->
  choose lib fuel (index o) r =
  resume lib fuel
    (set_vm_data_stack (Py.VStr (choice o) :: vm_data_stack r)
       (set_option_buffer [] r)).
Proof.
  intros Hr Ho. apply reachable_indexed in Hr.
  apply In_nth_error in Ho. destruct Ho as [k Hk].
  rewrite (Hr k o Hk). rewrite choose_eq.
  unfold get_choices in Hk. rewrite (index_nth _ _ _ Hk).
  reflexivity.
Qed.

Lemma shown_index_selects_the_option_witness :
  choose ∅ 100 0 Examples.suspended =
  resume ∅ 100
    (set_vm_data_stack (Py.VStr "L" :: vm_data_stack Examples.suspended)
       (set_option_buffer [] Examples.suspended)).
Proof.
  assert (Hreach : reachable ∅ Examples.prog Examples.suspended).
  { apply (reach_init ∅ Examples.prog 100 (Examples.fresh_args Examples.prog)).
    - repeat split.
    - reflexivity.
    - vm_compute. reflexivity. }
  assert (Hin : In {| index := 0; text := "Pick"; choice := "L" |}
                  (get_choices Examples.suspended)).
  { assert (Hc : get_choices Examples.suspended =
                 [{| index := 0; text := "Pick"; choice := "L" |}])
      by (vm_compute; reflexivity).
    rewrite Hc. left. reflexivity. }
  exact (shown_index_selects_the_option ∅ Examples.prog Examples.suspended
           {| index := 0; text := "Pick"; choice := "L" |} 100 Hreach Hin).
Defined.

(** ** Node counters and node transitions *)

Lemma dict_set_keys {V} (k : string) (v c : V) (d : list (string * V)) :
  dict_get k d = Some c -> map fst (dict_set k v d) = map fst d.
Proof.
  induction d as [|[k' v'] d IH]; simpl; [discriminate|].
  destruct (String.eqb_spec k k') as [->|Hne]; simpl.
  - reflexivity.
  - intros H. rewrite (IH H). reflexivity.
Qed.



Lemma counters_grow_frame (r0 r r' : runner) :
  frame r r' -> counters_grow r0 r -> counters_grow r0 r'.
Proof.
  intros [Hv _ _ _ _] H. unfold counters_grow. rewrite Hv. exact H.
Qed.

Lemma counters_grow_enter (r0 : runner) (k : string) (r : runner) :
  counters_grow r0 r -> counters_grow r0 (final (enter_node k r)).
Proof.
  intros [Hkeys Hget].
  unfold enter_node. rewrite go_to_node_cases.
  destruct (nodes (compiled_yarn r) !! k) as [nd|]; [|split; assumption].
  destruct (dict_get k (visits r)) as [count|] eqn:Hcount; [|split; assumption].
  split.
  - simpl. rewrite (dict_set_keys _ _ _ _ Hcount). exact Hkeys.
  - intros n c Hn. destruct (Hget n c Hn) as (c' & Hc' & Hle). simpl.
    destruct (String.eqb_spec k n) as [->|Hne].
    + rewrite dict_get_set_eq. exists (count + 1). split; [reflexivity|].
      rewrite Hcount in Hc'. inversion Hc'; subst. lia.
    + rewrite dict_get_set_ne by exact Hne. eauto.
Qed.

(** resume() and choose(), returned or raised, leave the visit counters
    with the same node names in the same order, and no counter lower
    than it was: a counter is only ever incremented. *)
Theorem counters_only_grow (lib : std_lib) (fuel : nat) (r : runner) :
  counters_grow r (final (resume lib fuel r)) /\
  (forall i, counters_grow r (final (choose lib fuel i r))).
Proof.
  assert (H0 : counters_grow r r).
  { split; [reflexivity|]. intros n c Hn. exists c. split; [exact Hn|lia]. }
  split.
  - exact (resume_preserves lib _ (counters_grow_frame r)
             (counters_grow_enter r) fuel r H0).
  - intros i.
    exact (choose_preserves lib _ (counters_grow_frame r)
             (counters_grow_enter r) fuel i r H0).
Qed.

(** In a session that started without a snapshot, [__go_to_node] has
    two outcomes only: for a name that is not a node of the program it
    raises and changes nothing; for a node of the program the counter
    exists (the increment cannot raise a KeyError), and the dispatch
    loop is called with the node as the current node, its counter
    incremented, its instructions loaded, the program counter at 0 and
    RUN_NODE as the previous instruction. *)
Theorem go_to_node_in_session (lib : std_lib) (p : Program) (r : runner)
    (process : M unit) (k : string) :
  reachable lib p r ->
  match nodes p !! k with
  | None => go_to_node process k r = Raise (InvalidNode k) r
  | Some nd =>
      exists count,
        dict_get k (visits r) = Some count /\
        go_to_node process k r = process (entered k nd count r)
  end.
Proof.
  intros Hr. apply reachable_counts_transitions in Hr.
  destruct Hr as (Hprog & _ & Hall & _).
  rewrite go_to_node_cases, Hprog.
  destruct (nodes p !! k) as [nd|] eqn:Hnd; [|reflexivity].
  destruct (Hall k) as [count Hcount]; [rewrite Hnd; eauto|].
  exists count. rewrite Hcount. split; reflexivity.
Qed.

Lemma go_to_node_in_session_witness :
  exists count,
    dict_get "Start" (visits Examples.suspended) = Some count /\
    go_to_node (ret tt) "Start" Examples.suspended =
    ret tt (entered "Start" Examples.start_node count Examples.suspended).
Proof.
  assert (Hreach : reachable ∅ Examples.prog Examples.suspended).
  { apply (reach_init ∅ Examples.prog 100 (Examples.fresh_args Examples.prog)).
    - repeat split.
    - reflexivity.
    - vm_compute. reflexivity. }
  pose proof (go_to_node_in_session ∅ Examples.prog Examples.suspended
                (ret tt) "Start" Hreach) as H.
  assert (Hnd : nodes Examples.prog !! "Start" = Some Examples.start_node)
    by (vm_compute; reflexivity).
  rewrite Hnd in H. exact H.
Defined.

(** A session that started without a snapshot never modifies the
    compiled program, its current node (once set) is a node of the
    program, and the visit counters keep the node names they were
    created with, in the same order. *)
Theorem session_keeps_program (lib : std_lib) (p : Program) (r : runner) :
  reachable lib p r ->
  compiled_yarn r = p /\
  current_node_known r /\
  map fst (visits r) = map fst (zero_visits p).
Proof.
  intros Hr.
  destruct (reachable_counts_transitions lib p r Hr) as (Hp & Hk & _).
  split; [exact Hp|]. split; [exact Hk|].
  set (Q := fun x : runner => map fst (visits x) = map fst (zero_visits p)).
  assert (Hframe : forall x x', frame x x' -> Q x -> Q x').
  { intros x x' [Hv _ _ _ _] Hx. unfold Q. rewrite Hv. exact Hx. }
  assert (Henter : forall k x, Q x -> Q (final (enter_node k x))).
  { intros k x Hx. unfold enter_node. rewrite go_to_node_cases.
    destruct (nodes (compiled_yarn x) !! k) as [nd|]; [|exact Hx].
    destruct (dict_get k (visits x)) as [count|] eqn:Hcount; [|exact Hx].
    unfold Q, entered, ret. simpl.
    rewrite (dict_set_keys _ _ _ _ Hcount). exact Hx. }
  clear Hp Hk.
  induction Hr as [fuel a r Hfresh Hp Hinit|fuel r _ IH|fuel i r _ IH
                  |r _ IH|r _ IH|command fn r _ IH].
  - assert (H0 : Q (init_fields a)).
    { destruct Hfresh as (Hv & _). unfold Q, init_fields. simpl.
      rewrite Hv, Hp. reflexivity. }
    unfold init in Hinit. destruct (Args.autostart a).
    + pose proof (resume_preserves lib Q Hframe Henter fuel _ H0) as H1.
      rewrite Hinit in H1. exact H1.
    + inversion Hinit; subst r. exact H0.
  - exact (resume_preserves lib Q Hframe Henter fuel r IH).
  - exact (choose_preserves lib Q Hframe Henter fuel i r IH).
  - unfold get_line. crush_goal; exact IH.
  - unfold get_lines. crush_goal; exact IH.
  - unfold add_command_handler. crush_goal; exact IH.
Qed.

Lemma session_keeps_program_witness :
  compiled_yarn Examples.suspended = Examples.prog /\
  current_node_known Examples.suspended /\
  map fst (visits Examples.suspended) = map fst (zero_visits Examples.prog).
Proof.
  assert (Hreach : reachable ∅ Examples.prog Examples.suspended).
  { apply (reach_init ∅ Examples.prog 100 (Examples.fresh_args Examples.prog)).
    - repeat split.
    - reflexivity.
    - vm_compute. reflexivity. }
  exact (session_keeps_program ∅ Examples.prog Examples.suspended Hreach).
Defined.

(** ** Construction with autostart *)

Lemma init_autostart_fresh (lib : std_lib) (fuel : nat) (a : Args.t) :
  fresh a ->
  Args.autostart a = true ->
  init lib (S fuel) a =
  match nodes (Args.compiled_yarn a) !! "Start" with
  | None => Raise (InvalidNode "Start") (started a)
  | Some nd => process_instruction lib fuel (entered "Start" nd 0 (started a))
  end.
Proof.
  intros (Hv & Hvars & Hc & Hl & Ho & Hs & Hi & Hpc & Hprev) Hauto.
  unfold init. rewrite Hauto.
  assert (Hstack : vm_data_stack (init_fields a) = [Py.VStr "Start"])
    by (unfold init_fields; simpl; rewrite Hs; reflexivity).
  assert (Hinstr : vm_instruction_stack (init_fields a) = [run_node_marker])
    by (unfold init_fields; simpl; rewrite Hi; reflexivity).
  assert (Hcounter : program_counter (init_fields a) = 0) by exact Hpc.
  assert (Hvisits : visits (init_fields a) = zero_visits (Args.compiled_yarn a))
    by (unfold init_fields; simpl; rewrite Hv; reflexivity).
  assert (Hlog : log (init_fields a) = []) by reflexivity.
  rewrite resume_eq, Hstack.
  set (r0 := set_paused false (init_fields a)).
  assert (Hidx : Py.index (vm_instruction_stack r0) (program_counter r0)
                 = Some run_node_marker).
  { change (Py.index (vm_instruction_stack (init_fields a))
                     (program_counter (init_fields a)) = Some run_node_marker).
    rewrite Hinstr, Hcounter. reflexivity. }
  rewrite (run_node_ends_the_call lib fuel r0 run_node_marker Hidx eq_refl).
  rewrite run_node_eq. simpl operands. cbv iota.
  assert (Hs0 : vm_data_stack
                  (set_log (log r0 ++ [Dispatched run_node_marker])
                     (set_program_counter (program_counter r0 + 1) r0))
                = [Py.VStr "Start"]) by exact Hstack.
  rewrite Hs0.
  assert (Hst : set_vm_data_stack []
                  (set_log (log r0 ++ [Dispatched run_node_marker])
                     (set_program_counter (program_counter r0 + 1) r0))
                = started a).
  { change (log r0) with (log (init_fields a)).
    change (program_counter r0) with (program_counter (init_fields a)).
    rewrite Hlog, Hcounter. reflexivity. }
  rewrite Hst. rewrite go_to_node_cases.
  assert (Hp : compiled_yarn (started a) = Args.compiled_yarn a) by reflexivity.
  assert (Hvs : visits (started a) = zero_visits (Args.compiled_yarn a))
    by exact Hvisits.
  rewrite Hp, Hvs.
  destruct (nodes (Args.compiled_yarn a) !! "Start") as [nd|] eqn:Hnd;
    [|reflexivity].
  rewrite zero_visits_get by (rewrite Hnd; eauto). reflexivity.
Qed.

(** A constructor call with autostart and without a snapshot does one
    thing before the program runs: it dispatches the initial RUN_NODE,
    which pops the name Start.  Without a node of that name the
    constructor raises; with one, it is the dispatch loop started at
    the first instruction of that node, with the value stack empty and
    the counter of Start at 1. *)
Theorem autostart_enters_start (lib : std_lib) (fuel : nat) (a : Args.t) :
  fresh a ->
  Args.autostart a = true ->
  init lib (S fuel) a =
  match nodes (Args.compiled_yarn a) !! "Start" with
  | None => Raise (InvalidNode "Start") (started a)
  | Some nd => process_instruction lib fuel (entered "Start" nd 0 (started a))
  end.
Proof. exact (init_autostart_fresh lib fuel a). Qed.

Lemma autostart_enters_start_witness :
  init ∅ 1 (Examples.fresh_args Examples.no_start_prog) =
  Raise (InvalidNode "Start") (started (Examples.fresh_args Examples.no_start_prog)).
Proof.
  assert (Hfresh : fresh (Examples.fresh_args Examples.no_start_prog))
    by (repeat split).
  pose proof (autostart_enters_start ∅ 0 (Examples.fresh_args Examples.no_start_prog)
                Hfresh eq_refl) as H.
  assert (Hn : nodes (Args.compiled_yarn (Examples.fresh_args Examples.no_start_prog))
               !! "Start" = None) by (vm_compute; reflexivity).
  rewrite Hn in H. exact H.
Defined.

(** ** The bounds of the program counter *)

(** What the dispatch loop does with the program counter, for n
    instructions in the list: with n = 0 it raises and changes nothing;
    a counter of n or more raises and changes nothing; the counter is
    not tested from below, so a counter from -n to -1 fetches the
    instruction counted from the end of the list, as Python indexing
    does, and a counter below -n is an IndexError; and an instruction
    whose opcode is not in the dispatch table raises after the counter
    has been incremented. *)
Theorem program_counter_bounds (lib : std_lib) (fuel : nat) (r : runner) :
  let n := Z.of_nat (length (vm_instruction_stack r)) in
  let run := process_instruction lib (S fuel) r in
  (n = 0 -> run = Raise InstructionStackEmpty r) /\
  (0 < n -> n <= program_counter r -> run = Raise ProgramCounterOverrun r) /\
  (0 < n -> program_counter r < - n -> run = Raise IndexError r) /\
  (- n <= program_counter r < n ->
   exists instruction,
     nth_error (vm_instruction_stack r) (Z.to_nat (program_counter r mod n))
     = Some instruction /\
     Py.index (vm_instruction_stack r) (program_counter r) = Some instruction /\
     forall code,
       opcode instruction = UNRECOGNIZED code ->
       run = Raise (OpCodeNotImplemented (UNRECOGNIZED code))
               (set_program_counter (program_counter r + 1) r)).
Proof.
  intros n run. unfold run. rewrite process_instruction_S. cbv zeta. fold n.
  repeat split.
  - intros Hn. destruct (Z.ltb_spec n 1); [reflexivity|lia].
  - intros Hn Hpc. destruct (Z.ltb_spec n 1); [lia|].
    destruct (Z.gtb_spec (program_counter r) (n - 1)); [reflexivity|lia].
  - intros Hn Hpc. destruct (Z.ltb_spec n 1); [lia|].
    destruct (Z.gtb_spec (program_counter r) (n - 1)); [lia|].
    rewrite index_out_of_range by (fold n; lia). reflexivity.
  - intros Hpc.
    destruct (index_in_range (vm_instruction_stack r) (program_counter r) Hpc)
      as (instruction & Hidx & Hnth).
    exists instruction. split; [exact Hnth|]. split; [exact Hidx|].
    intros code Hop.
    destruct (Z.ltb_spec n 1); [lia|].
    destruct (Z.gtb_spec (program_counter r) (n - 1)); [lia|].
    rewrite Hidx, Hop. reflexivity.
Qed.

Lemma program_counter_bounds_witness :
  process_instruction ∅ 1 (set_program_counter 6 Examples.suspended) =
  Raise ProgramCounterOverrun (set_program_counter 6 Examples.suspended).
Proof.
  destruct (program_counter_bounds ∅ 0 (set_program_counter 6 Examples.suspended))
    as (_ & H & _).
  assert (Hlen : Z.of_nat (length (vm_instruction_stack
                                     (set_program_counter 6 Examples.suspended))) = 6)
    by (vm_compute; reflexivity).
  apply H; rewrite Hlen; simpl; lia.
Defined.

(** ** Reading the lines *)

(** get_line() raises exactly when has_line() is false, and then
    changes nothing; reading one line with get_line() and the rest
    with get_lines() gives the same lines, in the same order, as one
    get_lines(), and leaves the same state; after get_lines() there is
    no line. *)
Theorem lines_are_read_in_order (r : runner) :
  (has_line r = false <-> get_line r = Raise IndexError r) /\
  (has_line r = true ->
   (let* line := get_line in let* rest := get_lines in ret (line :: rest)) r
   = get_lines r) /\
  has_line (final (get_lines r)) = false.
Proof.
  unfold has_line, get_line, get_lines. unfold_m.
  destruct (line_buffer r) as [|line rest] eqn:Hl; simpl.
  - repeat split; try reflexivity. discriminate.
  - repeat split; try discriminate; try reflexivity.
Qed.

Lemma lines_are_read_in_order_witness :
  (let* line := get_line in let* rest := get_lines in ret (line :: rest))
    Examples.after_first_line
  = get_lines Examples.after_first_line.
Proof.
  destruct (lines_are_read_in_order Examples.after_first_line) as (_ & H & _).
  apply H. reflexivity.
Defined.

(** ** What [int] converts *)

Lemma int_lstrip_last (x : list ascii) (c : ascii) :
  Py.int_space c = false ->
  exists y, Py.int_lstrip (x ++ [c]) = (y ++ [c])%list.
Proof.
  intros Hc. induction x as [|a x IH]; simpl.
  - rewrite Hc. exists []. reflexivity.
  - destruct (Py.int_space a); [exact IH|].
    exists (a :: x). reflexivity.
Qed.

(** [int] does not skip the separators that [str.strip] removes: a
    string that starts with one of 0x1c to 0x1f is not a number. *)
Lemma int_of_str_separator (c : ascii) (s : string) :
  (28 <= nat_of_ascii c <= 31)%nat ->
  Py.int_of_str (String c s) = None.
Proof.
  intros Hc.
  assert (Hspace : Py.int_space c = false).
  { unfold Py.int_space.
    destruct (Nat.leb_spec 9 (nat_of_ascii c)), (Nat.leb_spec (nat_of_ascii c) 13),
      (Nat.eqb_spec (nat_of_ascii c) 32), (Nat.eqb_spec (nat_of_ascii c) 133),
      (Nat.eqb_spec (nat_of_ascii c) 160); simpl; try reflexivity; lia. }
  assert (Hdigit : Py.is_digit c = false).
  { unfold Py.is_digit.
    destruct (Nat.leb_spec 48 (nat_of_ascii c)); [lia|reflexivity]. }
  assert (Hminus : c <> "-"%char).
  { intros ->. change (nat_of_ascii "-") with 45%nat in Hc. lia. }
  assert (Hplus : c <> "+"%char).
  { intros ->. change (nat_of_ascii "+") with 43%nat in Hc. lia. }
  unfold Py.int_of_str, Py.int_strip. simpl list_ascii_of_string.
  cbn [Py.int_lstrip]. rewrite Hspace.
  cbn [rev].
  destruct (int_lstrip_last (rev (list_ascii_of_string s)) c Hspace) as [y Hy].
  rewrite Hy, rev_app_distr. cbn [rev app].
  assert (Hparse : Py.digits 0 false (c :: rev y) = None).
  { simpl. rewrite Hdigit, andb_false_r. reflexivity. }
  cbv zeta.
  destruct (_ <? _)%nat; [reflexivity|].
  destruct (ascii_dec c "-") as [->|_]; [congruence|].
  destruct (ascii_dec c "+") as [->|_]; [congruence|].
  destruct c as [[] [] [] [] [] [] [] []]; try exact Hparse;
    simpl in Hminus, Hplus; congruence.
Qed.

(** ** RUN_LINE, ADD_OPTION, RUN_COMMAND and the expression count *)

Lemma check_expressions_zero (instruction : Instruction) (k : nat)
    (count : Operand) (r : runner) :
  nth_error (operands instruction) k = Some count ->
  Py.int_of_float (float_value count) = Some 0 ->
  check_expressions instruction (Z.of_nat k) r = Ok tt r.
Proof.
  intros Hk Hint. apply index_nth in Hk.
  pose proof (index_some_range _ _ _ Hk) as Hrange.
  unfold check_expressions, operand_at, find_expressions.
  destruct (Z.gtb_spec (Z.of_nat (length (operands instruction))) (Z.of_nat k));
    [|lia].
  unfold of_option, bind. rewrite Hk. unfold ret at 1. cbv beta iota.
  rewrite Hint. reflexivity.
Qed.

Lemma check_expressions_nonzero (instruction : Instruction) (k : nat)
    (count : Operand) (n : Z) (r : runner) :
  nth_error (operands instruction) k = Some count ->
  Py.int_of_float (float_value count) = Some n ->
  n <> 0 ->
  check_expressions instruction (Z.of_nat k) r = Raise ExpressionsNotSupported r.
Proof.
  intros Hk Hint Hn. apply index_nth in Hk.
  pose proof (index_some_range _ _ _ Hk) as Hrange.
  unfold check_expressions, operand_at, find_expressions.
  destruct (Z.gtb_spec (Z.of_nat (length (operands instruction))) (Z.of_nat k));
    [|lia].
  unfold of_option, bind. rewrite Hk. unfold ret at 1. cbv beta iota.
  rewrite Hint. unfold ret at 1, raise. cbv beta iota.
  destruct (Z.eqb_spec n 0); [contradiction|reflexivity].
Qed.

Lemma run_line_checked (instruction : Instruction) (key : Operand)
    (more : list Operand) (r : runner) :
  operands instruction = key :: more ->
  run_line instruction r =
  match check_expressions instruction 1 r with
  | Ok _ r1 =>
      (let* r0 := get in
       let* _ :=
         if experimental_newlines r0 then
           match opcode (previous_instruction r0) with
           | RUN_LINE =>
               let* prev_operand := operand_at (previous_instruction r0) 0 in
               let* prev_line_no := lookup_line_no (string_value prev_operand) in
               let* curr_line_no := lookup_line_no (string_value key) in
               let diff := curr_line_no - prev_line_no in
               if diff >? 1 then
                 modify (fun r => set_line_buffer
                           (line_buffer r ++ repeat EmptyString (Z.to_nat (diff - 1))) r)
               else ret tt
           | _ => ret tt
           end
         else ret tt in
       let* line := lookup_string (string_value key) in
       append_line line) r1
  | Raise e r1 => Raise e r1
  end.
Proof.
  intros Hops.
  unfold run_line. unfold bind at 1. unfold operand_at at 1, of_option.
  rewrite Hops. simpl. unfold bind at 1.
  destruct (check_expressions instruction 1 r); reflexivity.
Qed.

Lemma add_option_checked (instruction : Instruction) (title path : Operand)
    (more : list Operand) (r : runner) :
  operands instruction = title :: path :: more ->
  add_option instruction r =
  match check_expressions instruction 2 r with
  | Ok _ r1 =>
      (let* title_text := lookup_string (string_value title) in
       modify (fun r => set_option_buffer
                 (option_buffer r ++
                    [{| index := Z.of_nat (length (option_buffer r));
                        text := title_text;
                        choice := string_value path |}]) r)) r1
  | Raise e r1 => Raise e r1
  end.
Proof.
  intros Hops.
  assert (Ht : Py.index (operands instruction) 0 = Some title)
    by (apply (index_nth _ 0%nat); rewrite Hops; reflexivity).
  assert (Hp : Py.index (operands instruction) 1 = Some path)
    by (apply (index_nth _ 1%nat); rewrite Hops; reflexivity).
  unfold add_option, operand_at, of_option. rewrite Ht, Hp.
  unfold bind at 1. unfold ret at 1. unfold bind at 1. unfold ret at 1.
  unfold bind at 1.
  destruct (check_expressions instruction 2 r); reflexivity.
Qed.

Lemma run_command_checked (instruction : Instruction) (text : Operand)
    (more : list Operand) (r : runner) :
  operands instruction = text :: more ->
  run_command instruction r =
  match command_handlers r !! fst (parse_command (string_value text)) with
  | None => warn (no_handler_warning (fst (parse_command (string_value text)))) r
  | Some fn =>
      match check_expressions instruction 1 r with
      | Ok _ r1 =>
          match fn (snd (parse_command (string_value text))) with
          | ReturnsStr line => append_line line r1
          | ReturnsOther => Ok tt r1
          | HandlerRaises => Raise Raised r1
          end
      | Raise e r1 => Raise e r1
      end
  end.
Proof.
  intros Hops.
  unfold run_command. unfold bind at 1. unfold operand_at at 1, of_option.
  rewrite Hops. simpl.
  destruct (parse_command (string_value text)) as [command args]. simpl.
  unfold bind at 1. unfold get at 1.
  destruct (command_handlers r !! command) as [fn|]; [|reflexivity].
  unfold bind at 1.
  destruct (check_expressions instruction 1 r); [|reflexivity].
  destruct (fn args); reflexivity.
Qed.

(** How many blank lines RUN_LINE puts in front of a line.  Without the
    experimental newlines, or when the previous instruction is not a
    RUN_LINE (RUN_NODE after a node transition, for one), the text is
    appended alone.  With them, after a RUN_LINE whose line stands m in
    the source, a line that stands n is preceded by n - m - 1 empty
    lines, and by none when the two are adjacent, on the same line or
    in reverse order.  The two line numbers are converted by [int]:
    when one of them is not an integer for it, RUN_LINE raises and
    appends nothing. *)
Theorem run_line_blank_lines (instruction : Instruction) (r : runner)
    (key : Operand) (more : list Operand) (entry : table_entry) :
  operands instruction = key :: more ->
  check_expressions instruction 1 r = Ok tt r ->
  string_lookup_table r !! string_value key = Some entry ->
  let appended blank :=
    Ok tt (set_line_buffer
             ((line_buffer r ++ repeat EmptyString blank) ++ [entry_text entry])%list
             r) in
  (experimental_newlines r = false \/ opcode (previous_instruction r) <> RUN_LINE ->
   run_line instruction r = appended 0%nat) /\
  (forall prev_key prev_more prev_entry n m,
      experimental_newlines r = true ->
      opcode (previous_instruction r) = RUN_LINE ->
      operands (previous_instruction r) = prev_key :: prev_more ->
      string_lookup_table r !! string_value prev_key = Some prev_entry ->
      Py.int_of_str (entry_lineNumber prev_entry) = Some m ->
      Py.int_of_str (entry_lineNumber entry) = Some n ->
      run_line instruction r = appended (Z.to_nat (n - m - 1))) /\
  (forall prev_key prev_more prev_entry,
      experimental_newlines r = true ->
      opcode (previous_instruction r) = RUN_LINE ->
      operands (previous_instruction r) = prev_key :: prev_more ->
      string_lookup_table r !! string_value prev_key = Some prev_entry ->
      Py.int_of_str (entry_lineNumber prev_entry) = None \/
      Py.int_of_str (entry_lineNumber entry) = None ->
      run_line instruction r = Raise ConversionError r).
Proof.
  intros Hops Hcheck Hentry appended.
  rewrite (run_line_checked instruction key more r Hops), Hcheck.
  unfold appended. split; [|split].
  - intros Hoff. unfold_m. simpl.
    destruct (experimental_newlines r) eqn:Hexp.
    + destruct Hoff as [Hoff|Hoff]; [discriminate|].
      destruct (opcode (previous_instruction r)); try congruence;
        simpl; rewrite Hentry; simpl; rewrite app_nil_r; reflexivity.
    + simpl. rewrite Hentry. simpl. rewrite app_nil_r. reflexivity.
  - intros prev_key prev_more prev_entry n m Hexp Hprev Hpops Hpentry Hm Hn.
    unfold_m. simpl. rewrite Hexp, Hprev, Hpops. simpl.
    rewrite Hpentry, Hm. simpl. rewrite Hentry, Hn. simpl.
    destruct (Z.gtb_spec (n - m) 1) as [Hgt|Hle]; simpl.
    + rewrite Hentry. simpl. reflexivity.
    + rewrite Hentry. simpl.
      replace (Z.to_nat (n - m - 1)) with 0%nat by lia.
      simpl. rewrite app_nil_r. reflexivity.
  - intros prev_key prev_more prev_entry Hexp Hprev Hpops Hpentry Hnone.
    unfold_m. simpl. rewrite Hexp, Hprev, Hpops. simpl.
    rewrite Hpentry. simpl.
    destruct (Py.int_of_str (entry_lineNumber prev_entry)) as [m|];
      simpl; [|reflexivity].
    rewrite Hentry. simpl.
    destruct Hnone as [Hnone|Hnone]; [discriminate|].
    rewrite Hnone. reflexivity.
Qed.

Lemma run_line_blank_lines_witness :
  run_line (Examples.I RUN_LINE [OString "l2"]) Examples.after_first_line =
  Ok tt (set_line_buffer ["Pick"; EmptyString; EmptyString; "Done"]
           Examples.after_first_line) /\
  run_line (Examples.I RUN_LINE [OString "l2"]) Examples.separator_line =
  Raise ConversionError Examples.separator_line.
Proof.
  split.
  - assert (Hentry : string_lookup_table Examples.after_first_line !! "l2" =
                     Some {| entry_text := "Done"; entry_lineNumber := "4" |})
      by (vm_compute; reflexivity).
    assert (Hprev : string_lookup_table Examples.after_first_line !! "l1" =
                    Some {| entry_text := "Pick"; entry_lineNumber := "1" |})
      by (vm_compute; reflexivity).
    destruct (run_line_blank_lines (Examples.I RUN_LINE [OString "l2"])
                Examples.after_first_line (OString "l2") []
                {| entry_text := "Done"; entry_lineNumber := "4" |}
                eq_refl eq_refl Hentry) as (_ & H & _).
    exact (H (OString "l1") []
             {| entry_text := "Pick"; entry_lineNumber := "1" |}
             4 1 eq_refl eq_refl eq_refl Hprev eq_refl eq_refl).
  - assert (Hentry : string_lookup_table Examples.separator_line !! "l2" =
                     Some {| entry_text := "Done";
                             entry_lineNumber := Examples.after_separator "4" |})
      by (vm_compute; reflexivity).
    assert (Hprev : string_lookup_table Examples.separator_line !! "l1" =
                    Some {| entry_text := "Pick"; entry_lineNumber := "1" |})
      by (vm_compute; reflexivity).
    destruct (run_line_blank_lines (Examples.I RUN_LINE [OString "l2"])
                Examples.separator_line (OString "l2") []
                {| entry_text := "Done";
                   entry_lineNumber := Examples.after_separator "4" |}
                eq_refl eq_refl Hentry) as (_ & _ & H).
    apply (H (OString "l1") []
             {| entry_text := "Pick"; entry_lineNumber := "1" |}
             eq_refl eq_refl eq_refl Hprev).
    right. apply int_of_str_separator. split; apply Nat.leb_le; reflexivity.
Defined.

(** An expression count that is not zero stops the instruction before
    it has any effect: RUN_LINE with such a second operand, ADD_OPTION
    with such a third operand and RUN_COMMAND with such a second
    operand and a registered handler raise and leave the runner as it
    was; no line or option is appended and the handler is not
    called. *)
Theorem expressions_are_refused (r : runner) (instruction : Instruction)
    (count : Operand) (n : Z) :
  Py.int_of_float (float_value count) = Some n ->
  n <> 0 ->
  (forall key more,
      operands instruction = key :: count :: more ->
      run_line instruction r = Raise ExpressionsNotSupported r) /\
  (forall title path more,
      operands instruction = title :: path :: count :: more ->
      add_option instruction r = Raise ExpressionsNotSupported r) /\
  (forall text more fn,
      operands instruction = text :: count :: more ->
      command_handlers r !! fst (parse_command (string_value text)) = Some fn ->
      run_command instruction r = Raise ExpressionsNotSupported r).
Proof.
  intros Hint Hn. repeat split.
  - intros key more Hops.
    rewrite (run_line_checked instruction key (count :: more) r Hops).
    assert (Hcheck : check_expressions instruction 1 r
                     = Raise ExpressionsNotSupported r)
      by (apply (check_expressions_nonzero instruction 1 count n r);
          [rewrite Hops; reflexivity|exact Hint|exact Hn]).
    rewrite Hcheck. reflexivity.
  - intros title path more Hops.
    rewrite (add_option_checked instruction title path (count :: more) r Hops).
    assert (Hcheck : check_expressions instruction 2 r
                     = Raise ExpressionsNotSupported r)
      by (apply (check_expressions_nonzero instruction 2 count n r);
          [rewrite Hops; reflexivity|exact Hint|exact Hn]).
    rewrite Hcheck. reflexivity.
  - intros text more fn Hops Hfn.
    rewrite (run_command_checked instruction text (count :: more) r Hops), Hfn.
    assert (Hcheck : check_expressions instruction 1 r
                     = Raise ExpressionsNotSupported r)
      by (apply (check_expressions_nonzero instruction 1 count n r);
          [rewrite Hops; reflexivity|exact Hint|exact Hn]).
    rewrite Hcheck. reflexivity.
Qed.

Lemma expressions_are_refused_witness :
  run_line (Examples.I RUN_LINE [OString "l2"; OFloat 1%float]) Examples.suspended
  = Raise ExpressionsNotSupported Examples.suspended.
Proof.
  assert (Hn : (1 : Z) <> 0) by lia.
  destruct (expressions_are_refused Examples.suspended
              (Examples.I RUN_LINE [OString "l2"; OFloat 1%float])
              (OFloat 1%float) 1 eq_refl Hn) as [H _].
  exact (H (OString "l2") [] eq_refl).
Defined.

(** An expression count that [int] truncates to zero (0, or any number
    strictly between -1 and 1) has no effect at all: RUN_LINE,
    ADD_OPTION and RUN_COMMAND behave as on the same instruction
    without the count and the operands after it. *)
Theorem zero_expressions_are_ignored (r : runner) (instruction : Instruction)
    (count : Operand) :
  Py.int_of_float (float_value count) = Some 0 ->
  (forall key more,
      operands instruction = key :: count :: more ->
      run_line instruction r = run_line (with_operands [key] instruction) r) /\
  (forall title path more,
      operands instruction = title :: path :: count :: more ->
      add_option instruction r =
      add_option (with_operands [title; path] instruction) r) /\
  (forall text more,
      operands instruction = text :: count :: more ->
      run_command instruction r =
      run_command (with_operands [text] instruction) r).
Proof.
  intros Hint. repeat split.
  - intros key more Hops.
    rewrite (run_line_checked instruction key (count :: more) r Hops).
    rewrite (run_line_checked (with_operands [key] instruction) key [] r eq_refl).
    assert (Hcheck : check_expressions instruction 1 r = Ok tt r)
      by (apply (check_expressions_zero instruction 1 count r);
          [rewrite Hops; reflexivity|exact Hint]).
    rewrite Hcheck. reflexivity.
  - intros title path more Hops.
    rewrite (add_option_checked instruction title path (count :: more) r Hops).
    rewrite (add_option_checked (with_operands [title; path] instruction)
               title path [] r eq_refl).
    assert (Hcheck : check_expressions instruction 2 r = Ok tt r)
      by (apply (check_expressions_zero instruction 2 count r);
          [rewrite Hops; reflexivity|exact Hint]).
    rewrite Hcheck. reflexivity.
  - intros text more Hops.
    rewrite (run_command_checked instruction text (count :: more) r Hops).
    rewrite (run_command_checked (with_operands [text] instruction)
               text [] r eq_refl).
    assert (Hcheck : check_expressions instruction 1 r = Ok tt r)
      by (apply (check_expressions_zero instruction 1 count r);
          [rewrite Hops; reflexivity|exact Hint]).
    rewrite Hcheck. reflexivity.
Qed.

Lemma zero_expressions_are_ignored_witness :
  run_line (Examples.I RUN_LINE [OString "l2"; OFloat 0.5%float]) Examples.suspended
  = run_line (with_operands [OString "l2"]
                (Examples.I RUN_LINE [OString "l2"; OFloat 0.5%float]))
      Examples.suspended.
Proof.
  destruct (zero_expressions_are_ignored Examples.suspended
              (Examples.I RUN_LINE [OString "l2"; OFloat 0.5%float])
              (OFloat 0.5%float) eq_refl) as [H _].
  exact (H (OString "l2") [] eq_refl).
Defined.

(** ** Command handlers *)

(** A handler registered with add_command_handler() is the one that
    RUN_COMMAND calls for that command name, with the parsed arguments:
    a returned string is appended to the line buffer, any other
    returned value is dropped, and an exception of the handler leaves
    RUN_COMMAND with the handler still registered. *)
Theorem registered_handler_is_called (command : string) (fn : handler)
    (instruction : Instruction) (r : runner) (text : Operand) (args : list string) :
  operands instruction = [text] ->
  parse_command (string_value text) = (command, args) ->
  let registered :=
    set_command_handlers (<[command := fn]> (command_handlers r)) r in
  (let* _ := add_command_handler command fn in run_command instruction) r =
  match fn args with
  | ReturnsStr line =>
      Ok tt (set_line_buffer (line_buffer r ++ [line]) registered)
  | ReturnsOther => Ok tt registered
  | HandlerRaises => Raise Raised registered
  end.
Proof.
  intros Hops Hparse registered. unfold registered.
  unfold add_command_handler, run_command, check_expressions. unfold_m.
  rewrite Hops. simpl. rewrite Hparse. simpl.
  rewrite lookup_insert_eq. simpl.
  destruct (fn args); reflexivity.
Qed.

Lemma registered_handler_is_called_witness :
  (let* _ := add_command_handler "say" Examples.echo in
   run_command (Examples.I RUN_COMMAND [OString "say 'hello there'"]))
    Examples.suspended =
  match Examples.echo ["hello there"] with
  | ReturnsStr line =>
      Ok tt (set_line_buffer (line_buffer Examples.suspended ++ [line])
               (set_command_handlers
                  (<["say" := Examples.echo]> (command_handlers Examples.suspended))
                  Examples.suspended))
  | ReturnsOther =>
      Ok tt (set_command_handlers
               (<["say" := Examples.echo]> (command_handlers Examples.suspended))
               Examples.suspended)
  | HandlerRaises =>
      Raise Raised
        (set_command_handlers
           (<["say" := Examples.echo]> (command_handlers Examples.suspended))
           Examples.suspended)
  end.
Proof.
  assert (Hparse : parse_command "say 'hello there'" = ("say", ["hello there"]))
    by (vm_compute; reflexivity).
  exact (registered_handler_is_called "say" Examples.echo
           (Examples.I RUN_COMMAND [OString "say 'hello there'"])
           Examples.suspended (OString "say 'hello there'") ["hello there"]
           eq_refl Hparse).
Defined.

(** ** Variables *)

(** STORE_VARIABLE followed by PUSH_VARIABLE of the same name: the
    stored value, which stays on the stack, is pushed a second time,
    unless the name matches the visits pattern; then the store still
    binds the name, but the push reads a visit counter, and the value
    pushed is a number whatever was stored. *)
Theorem store_then_push (instruction : Instruction) (r : runner)
    (op : Operand) (more : list Operand) (v : Py.value) (rest : list Py.value) :
  operands instruction = op :: more ->
  vm_data_stack r = v :: rest ->
  let stored := set_variables (<[string_value op := v]> (variables r)) r in
  let both := let* _ := store_variable instruction in push_variable instruction in
  (search_visits (string_value op) = None ->
   both r = Ok tt (set_vm_data_stack (v :: v :: rest) stored)) /\
  (search_visits (string_value op) <> None ->
   exists count,
     both r = Ok tt (set_vm_data_stack (Py.VInt count :: v :: rest) stored)).
Proof.
  intros Hops Hstack stored both. unfold both, stored.
  unfold store_variable, push_variable. unfold_m.
  rewrite Hops, Hstack. simpl. split.
  - intros ->. simpl. rewrite lookup_insert_eq. simpl. rewrite Hstack. reflexivity.
  - intros Hsome.
    destruct (search_visits (string_value op)) as [node_name|]; [|congruence].
    simpl.
    destruct (dict_get node_name (dict_rekey replace_dots (visits r))) as [c|];
      simpl; rewrite Hstack; eauto.
Qed.

Lemma store_then_push_witness :
  (let* _ := store_variable (Examples.I STORE_VARIABLE [OString "$gold"]) in
   push_variable (Examples.I STORE_VARIABLE [OString "$gold"]))
    Examples.after_first_line =
  Ok tt (set_vm_data_stack [Py.VFloat 3%float; Py.VFloat 3%float]
           (set_variables (<["$gold" := Py.VFloat 3%float]> ∅)
              Examples.after_first_line)).
Proof.
  destruct (store_then_push (Examples.I STORE_VARIABLE [OString "$gold"])
              Examples.after_first_line (OString "$gold") [] (Py.VFloat 3%float) []
              eq_refl eq_refl) as [H _].
  assert (Hs : search_visits "$gold" = None) by (vm_compute; reflexivity).
  exact (H Hs).
Defined.



(** PUSH_VARIABLE of a name in which the visits pattern is found never
    raises, and pushes one number.  The node names are compared with
    every dot turned into an underscore; when several of them become
    the captured name, the counter pushed is that of the last of them
    in the order of the visits dictionary; when none does, 0 is
    pushed. *)
Theorem push_variable_reads_last_renamed (instruction : Instruction)
    (r : runner) (op : Operand) (more : list Operand) (node_name : string) :
  operands instruction = op :: more ->
  search_visits (string_value op) = Some node_name ->
  let pushed c :=
    Ok tt (set_vm_data_stack (Py.VInt c :: vm_data_stack r) r) in
  let renamed := underscored in
  (forall pre k c post,
      visits r = (pre ++ (k, c) :: post)%list ->
      renamed k = node_name ->
      (forall k' c', In (k', c') post -> renamed k' <> node_name) ->
      push_variable instruction r = pushed c) /\
  ((forall k c, In (k, c) (visits r) -> renamed k <> node_name) ->
   push_variable instruction r = pushed 0).
Proof.
  intros Hops Hsearch pushed renamed.
  pose proof (push_variable_renamed instruction r op more node_name Hops Hsearch)
    as Hpush.
  change (last_renamed replace_dots node_name (visits r))
    with (last_renamed renamed node_name (visits r)) in Hpush.
  split.
  - intros pre k c post Hv Hk Hpost. rewrite Hpush, Hv.
    rewrite (last_renamed_last renamed node_name pre post k c Hk Hpost).
    reflexivity.
  - intros Hno. rewrite Hpush.
    rewrite (last_renamed_absent renamed node_name (visits r) Hno).
    reflexivity.
Qed.

Lemma push_variable_reads_last_renamed_witness :
  push_variable (Examples.I PUSH_VARIABLE [OString "$visits_a_b"]) Examples.dotted =
  Ok tt (set_vm_data_stack (Py.VInt 2 :: vm_data_stack Examples.dotted)
           Examples.dotted).
Proof.
  assert (Hs : search_visits "$visits_a_b" = Some "a_b") by (vm_compute; reflexivity).
  destruct (push_variable_reads_last_renamed
              (Examples.I PUSH_VARIABLE [OString "$visits_a_b"]) Examples.dotted
              (OString "$visits_a_b") [] "a_b" eq_refl Hs) as [Hlast _].
  apply (Hlast [("a_b", 5)] "a.b" 2 []).
  - reflexivity.
  - vm_compute. reflexivity.
  - intros k' c' [].
Defined.

(** ** The arguments of CALL_FUNC *)



(** CALL_FUNC of a function registered with N parameters, on a stack
    that holds a count and N values above the rest: when the count
    converts to N, the function receives the N values in the order they
    were pushed (the deepest first), and its result replaces the count
    and the values; when the function raises, they are gone and nothing
    is pushed; when the count converts to another number, the call is
    refused after the count has been popped; and when [int] does not
    convert the count, its exception leaves the call after the count
    has been popped. *)
Theorem call_func_passes_pushed_arguments (lib : std_lib)
    (instruction : Instruction) (r : runner) (op : Operand)
    (more : list Operand) (fn : list Py.value -> option Py.value)
    (count : Py.value) (args rest : list Py.value) :
  operands instruction = op :: more ->
  lib !! string_value op = Some (length args, fn) ->
  vm_data_stack r = (count :: args ++ rest)%list ->
  (forall actual,
      Py.int count = Some actual ->
      call_func lib instruction r =
      if Z.of_nat (length args) =? actual then
        match fn (rev args) with
        | Some ret_value => Ok tt (set_vm_data_stack (ret_value :: rest) r)
        | None => Raise Raised (set_vm_data_stack rest r)
        end
      else
        Raise (WrongParameterCount (string_value op) (length args) actual)
          (set_vm_data_stack (args ++ rest) r)) /\
  (Py.int count = None ->
   call_func lib instruction r =
   Raise ConversionError (set_vm_data_stack (args ++ rest) r)).
Proof.
  intros Hops Hlib Hstack.
  assert (Hstart : call_func lib instruction r =
            (let* actual_params := of_option (Py.int count) ConversionError in
             if negb (Z.of_nat (length args) =? actual_params) then
               raise (WrongParameterCount (string_value op) (length args)
                        actual_params)
             else
               let* params := pop_params (length args) [] in
               match fn params with
               | None => raise Raised
               | Some ret_value => push ret_value
               end) (set_vm_data_stack (args ++ rest) r)).
  { unfold call_func. unfold bind at 1. unfold operand_at, of_option.
    rewrite Hops. simpl. rewrite Hlib.
    unfold bind at 1. rewrite pop0_eq, Hstack. reflexivity. }
  rewrite Hstart. split.
  - intros actual Hint.
    unfold bind at 1. unfold of_option. rewrite Hint. unfold ret at 1.
    cbv beta iota.
    destruct (Z.of_nat (length args) =? actual); simpl; [|reflexivity].
    unfold bind at 1.
    rewrite (pop_params_args args [] rest
               (set_vm_data_stack (args ++ rest) r) eq_refl).
    rewrite app_nil_r.
    destruct (fn (rev args)); reflexivity.
  - intros Hnone. unfold bind at 1. unfold of_option. rewrite Hnone.
    reflexivity.
Qed.

Lemma call_func_passes_pushed_arguments_witness :
  call_func Examples.lib (Examples.I CALL_FUNC [OString "First"]) Examples.calling =
  Ok tt (set_vm_data_stack [Py.VStr "below"; Py.VStr "rest"] Examples.calling) /\
  call_func Examples.lib (Examples.I CALL_FUNC [OString "First"])
    Examples.separator_count =
  Raise ConversionError
    (set_vm_data_stack [Py.VStr "top"; Py.VStr "below"; Py.VStr "rest"]
       Examples.separator_count).
Proof.
  assert (Hlib : Examples.lib !! "First" = Some (2%nat, Examples.first_of_two))
    by (vm_compute; reflexivity).
  split.
  - destruct (call_func_passes_pushed_arguments Examples.lib
                (Examples.I CALL_FUNC [OString "First"]) Examples.calling
                (OString "First") [] Examples.first_of_two (Py.VFloat 2%float)
                [Py.VStr "top"; Py.VStr "below"] [Py.VStr "rest"]
                eq_refl Hlib eq_refl) as [H _].
    exact (H 2 eq_refl).
  - destruct (call_func_passes_pushed_arguments Examples.lib
                (Examples.I CALL_FUNC [OString "First"]) Examples.separator_count
                (OString "First") [] Examples.first_of_two
                (Py.VStr (Examples.after_separator "2"))
                [Py.VStr "top"; Py.VStr "below"] [Py.VStr "rest"]
                eq_refl Hlib eq_refl) as [_ H].
    apply H. apply int_of_str_separator. split; apply Nat.leb_le; reflexivity.
Defined.


(** ** An instruction that raises *)

Ltac raise_crush Hknown :=
  unfold_m;
  repeat (simpl in *;
          match goal with
          | H : Raise _ _ = Raise _ _ |- _ => inversion H; subst; clear H
          | H : Ok _ _ = Raise _ _ |- _ => discriminate H
          | H : context [match ?x with _ => _ end] |- _ =>
              lazymatch x with
              | context [match _ with _ => _ end] => fail
              | _ => destruct x eqn:?
              end
          end);
  try reflexivity; try congruence;
  try (exfalso;
       match goal with
       | Hc : current_node _ = Some ?n, Hn : nodes _ !! ?n = None |- _ =>
           destruct (Hknown _ Hc) as [? Hs]; rewrite Hn in Hs; discriminate
       end).

Lemma simple_opcode_raises_unchanged (lib : std_lib) (process : M unit)
    (op : OpCode) (f : Instruction -> M unit) (i : Instruction)
    (r r' : runner) (e : exn) :
  op <> RUN_NODE -> op <> CALL_FUNC ->
  opcode_functions lib process op = Some f ->
  current_node_known r ->
  f i r = Raise e r' -> r' = r.
Proof.
  intros Hrun Hcall Hf Hknown H.
  destruct op; simpl in Hf; inversion Hf; subst; clear Hf; try congruence.
  - unfold jump_to in H. raise_crush Hknown.
  - unfold jump in H. raise_crush Hknown.
  - unfold run_line in H. raise_crush Hknown.
  - unfold run_command in H. raise_crush Hknown.
  - unfold add_option in H. raise_crush Hknown.
  - unfold show_options in H. raise_crush Hknown.
  - unfold push_string in H. raise_crush Hknown.
  - unfold push_float in H. raise_crush Hknown.
  - unfold push_bool in H. raise_crush Hknown.
  - unfold push_null in H. raise_crush Hknown.
  - unfold jump_if_false in H. raise_crush Hknown.
  - unfold pop in H. raise_crush Hknown.
  - unfold push_variable in H. raise_crush Hknown.
  - unfold store_variable in H. raise_crush Hknown.
  - unfold stop in H. raise_crush Hknown.
Qed.

(** An instruction that raises has no effect of its own, CALL_FUNC and
    RUN_NODE apart: when the opcode function of any other instruction
    raises in a runner whose current node is a node of the program, the
    exception leaves the call of the dispatch loop with the runner as
    it was before the instruction, except that the program counter is
    already past it; a later resume() does not run the instruction
    again. *)
Theorem failed_instruction_only_advances (lib : std_lib) (fuel : nat)
    (r r' : runner) (instruction : Instruction) (f : Instruction -> M unit)
    (e : exn) :
  Py.index (vm_instruction_stack r) (program_counter r) = Some instruction ->
  opcode instruction <> RUN_NODE ->
  opcode instruction <> CALL_FUNC ->
  opcode_functions lib (process_instruction lib fuel) (opcode instruction)
  = Some f ->
  current_node_known r ->
  let r1 := set_log (log r ++ [Dispatched instruction])
              (set_program_counter (program_counter r + 1) r) in
  f instruction r1 = Raise e r' ->
  r' = r1 /\ process_instruction lib (S fuel) r = Raise e r1.
Proof.
  intros Hidx Hrun Hcall Hf Hknown r1 Hraise.
  assert (Heq : r' = r1).
  { eapply simple_opcode_raises_unchanged; eassumption. }
  split; [exact Heq|].
  rewrite (process_instruction_fetch lib fuel r instruction f Hidx Hf).
  fold r1. rewrite Hraise, Heq. reflexivity.
Qed.

Lemma failed_instruction_only_advances_witness :
  process_instruction ∅ 1 Examples.suspended =
  Raise JumpRequiresString
    (set_log (log Examples.suspended ++ [Dispatched (Examples.I JUMP [])])
       (set_program_counter (program_counter Examples.suspended + 1)
          Examples.suspended)).
Proof.
  assert (Hidx : Py.index (vm_instruction_stack Examples.suspended)
                   (program_counter Examples.suspended)
                 = Some (Examples.I JUMP [])) by (vm_compute; reflexivity).
  assert (Hrun : opcode (Examples.I JUMP []) <> RUN_NODE) by discriminate.
  assert (Hcall : opcode (Examples.I JUMP []) <> CALL_FUNC) by discriminate.
  assert (Hknown : current_node_known Examples.suspended).
  { intros n Hn.
    assert (Hc : current_node Examples.suspended = Some "Start")
      by (vm_compute; reflexivity).
    rewrite Hc in Hn. inversion Hn; subst n. vm_compute. eauto. }
  assert (Hraise : jump (Examples.I JUMP [])
                     (set_log (log Examples.suspended ++
                                 [Dispatched (Examples.I JUMP [])])
                        (set_program_counter
                           (program_counter Examples.suspended + 1)
                           Examples.suspended))
                   = Raise JumpRequiresString
                       (set_log (log Examples.suspended ++
                                   [Dispatched (Examples.I JUMP [])])
                          (set_program_counter
                             (program_counter Examples.suspended + 1)
                             Examples.suspended)))
    by (vm_compute; reflexivity).
  destruct (failed_instruction_only_advances ∅ 0 Examples.suspended _
              (Examples.I JUMP []) jump JumpRequiresString
              Hidx Hrun Hcall eq_refl Hknown Hraise) as [_ H].
  exact H.
Defined.

(** ** Jumps *)

(** JUMP_TO and JUMP continue at the label: in a running session whose
    current node has the label, the call of the dispatch loop that
    finds JUMP_TO of that label, or JUMP with that label on top of the
    value stack, goes on with the program counter at the position of
    the label in the label table of the current node, whatever the
    counter was; the value stack is left as it is. *)
Theorem jumps_continue_at_the_label (lib : std_lib) (fuel : nat) (r : runner)
    (instruction : Instruction) (n label : string) (nd : Node) (target : Z) :
  Py.index (vm_instruction_stack r) (program_counter r) = Some instruction ->
  paused r = false ->
  finished r = false ->
  current_node r = Some n ->
  nodes (compiled_yarn r) !! n = Some nd ->
  labels nd !! label = Some target ->
  (opcode instruction = JUMP_TO /\
   exists op more, operands instruction = op :: more /\ string_value op = label) \/
  (opcode instruction = JUMP /\
   exists rest, vm_data_stack r = Py.VStr label :: rest) ->
  process_instruction lib (S fuel) r =
  process_instruction lib fuel
    (set_previous_instruction instruction
       (set_program_counter target
          (set_log (log r ++ [Dispatched instruction])
             (set_program_counter (program_counter r + 1) r)))).
Proof.
  intros Hidx Hpaused Hfinished Hcur Hnode Hlabel Hcases.
  set (r1 := set_log (log r ++ [Dispatched instruction])
               (set_program_counter (program_counter r + 1) r)).
  destruct Hcases as [(Hop & op & more & Hops & Hname)|(Hop & rest & Hstack)].
  - rewrite (process_instruction_fetch lib fuel r instruction jump_to Hidx)
      by (rewrite Hop; reflexivity).
    fold r1.
    rewrite (jump_to_resolved instruction r1 op more n nd target Hops Hcur Hnode)
      by (rewrite Hname; exact Hlabel).
    simpl. rewrite Hpaused, Hfinished. reflexivity.
  - rewrite (process_instruction_fetch lib fuel r instruction jump Hidx)
      by (rewrite Hop; reflexivity).
    fold r1.
    assert (Hjump : jump instruction r1 = Ok tt (set_program_counter target r1)).
    { unfold jump, find_label. unfold_m. simpl.
      rewrite Hstack. simpl. rewrite Hcur. simpl. rewrite Hnode, Hlabel.
      reflexivity. }
    rewrite Hjump. simpl. rewrite Hpaused, Hfinished. reflexivity.
Qed.

Lemma jumps_continue_at_the_label_witness :
  process_instruction ∅ 1
    (set_paused false
       (set_vm_data_stack [Py.VStr "L"] Examples.suspended)) =
  process_instruction ∅ 0
    (set_previous_instruction (Examples.I JUMP [])
       (set_program_counter 3
          (set_log (log (set_paused false
                           (set_vm_data_stack [Py.VStr "L"] Examples.suspended))
                      ++ [Dispatched (Examples.I JUMP [])])
             (set_program_counter
                (program_counter
                   (set_paused false
                      (set_vm_data_stack [Py.VStr "L"] Examples.suspended)) + 1)
                (set_paused false
                   (set_vm_data_stack [Py.VStr "L"] Examples.suspended)))))).
Proof.
  set (r := set_paused false
              (set_vm_data_stack [Py.VStr "L"] Examples.suspended)).
  assert (Hidx : Py.index (vm_instruction_stack r) (program_counter r)
                 = Some (Examples.I JUMP [])) by (vm_compute; reflexivity).
  assert (Hfin : finished r = false) by (vm_compute; reflexivity).
  assert (Hcur : current_node r = Some "Start") by (vm_compute; reflexivity).
  assert (Hnode : nodes (compiled_yarn r) !! "Start" = Some Examples.start_node)
    by (vm_compute; reflexivity).
  assert (Hlabel : labels Examples.start_node !! "L" = Some 3)
    by (vm_compute; reflexivity).
  apply (jumps_continue_at_the_label ∅ 0 r (Examples.I JUMP []) "Start" "L"
           Examples.start_node 3 Hidx eq_refl Hfin Hcur Hnode Hlabel).
  right. split; [reflexivity|]. exists []. reflexivity.
Defined.

(** ** Starting later *)

(** Constructing with autostart is constructing without it and calling
    resume(): the two runs give the same result and the same state,
    the stored autostart flag apart. *)
Theorem autostart_is_resume (lib : std_lib) (fuel : nat) (a : Args.t) :
  init lib fuel (with_autostart false a)
  = Ok tt (init_fields (with_autostart false a)) /\
  erase (init lib fuel (with_autostart true a))
  = erase (resume lib fuel (init_fields (with_autostart false a))).
Proof.
  split; [reflexivity|].
  unfold init. simpl Args.autostart. cbv iota.
  apply blind_resume. reflexivity.
Qed.


(** ** A node of lines, from construction to STOP *)

Lemma index_app_middle {A} (pre : list A) (x : A) (rest : list A) :
  Py.index (pre ++ x :: rest)%list (Z.of_nat (length pre)) = Some x.
Proof.
  apply index_nth. rewrite nth_error_app2 by lia.
  rewrite Nat.sub_diag. reflexivity.
Qed.

Lemma run_line_plain (key : string) (entry : table_entry) (r : runner) :
  experimental_newlines r = false ->
  string_lookup_table r !! key = Some entry ->
  run_line {| opcode := RUN_LINE; operands := [OString key] |} r =
  Ok tt (set_line_buffer (line_buffer r ++ [entry_text entry]) r).
Proof.
  intros Hexp Hentry.
  rewrite (run_line_checked {| opcode := RUN_LINE; operands := [OString key] |}
             (OString key) [] r eq_refl).
  unfold_m. simpl. rewrite Hexp. simpl. rewrite Hentry. reflexivity.
Qed.

Lemma says_loop (lib : std_lib) (pairs : list (string * table_entry)) :
  forall (pre : list Instruction) (r : runner),
    vm_instruction_stack r = (pre ++ says (map fst pairs))%list ->
    program_counter r = Z.of_nat (length pre) ->
    paused r = false ->
    finished r = false ->
    experimental_newlines r = false ->
    (forall k e, In (k, e) pairs -> string_lookup_table r !! k = Some e) ->
    exists r',
      process_instruction lib (S (length pairs)) r = Ok tt r' /\
      line_buffer r' =
        (line_buffer r ++ map (fun p => entry_text (snd p)) pairs)%list /\
      finished r' = true /\
      option_buffer r' = option_buffer r /\
      visits r' = visits r /\
      current_node r' = current_node r.
Proof.
  induction pairs as [|[k e] pairs IH];
    intros pre r Hstack Hpc Hpaused Hfinished Hexp Htable.
  - assert (Hidx : Py.index (vm_instruction_stack r) (program_counter r)
                   = Some {| opcode := STOP; operands := [] |}).
    { rewrite Hstack, Hpc. apply index_app_middle. }
    cbn [length].
    rewrite (process_instruction_fetch lib 0 r _ stop Hidx eq_refl).
    unfold stop, modify. cbn [finished set_finished]. rewrite andb_false_r.
    eexists. split; [reflexivity|]. simpl. rewrite app_nil_r.
    repeat split; reflexivity.
  - set (i := {| opcode := RUN_LINE; operands := [OString k] |}).
    assert (Hidx : Py.index (vm_instruction_stack r) (program_counter r) = Some i).
    { rewrite Hstack, Hpc. apply index_app_middle. }
    cbn [length].
    rewrite (process_instruction_fetch lib (S (length pairs)) r i run_line
               Hidx eq_refl).
    set (r1 := set_log (log r ++ [Dispatched i])
                 (set_program_counter (program_counter r + 1) r)).
    assert (Hrun : run_line i r1 =
                   Ok tt (set_line_buffer (line_buffer r1 ++ [entry_text e]) r1)).
    { apply run_line_plain; [exact Hexp|].
      apply (Htable k e). left. reflexivity. }
    rewrite Hrun.
    set (r2 := set_line_buffer (line_buffer r1 ++ [entry_text e]) r1).
    assert (Htest : negb (paused r2) && negb (finished r2) = true).
    { change (negb (paused r) && negb (finished r) = true).
      rewrite Hpaused, Hfinished. reflexivity. }
    rewrite Htest.
    destruct (IH (pre ++ [i])%list (set_previous_instruction i r2))
      as (r' & Hrun' & Hlines & Hfin & Hopts & Hvisits & Hnode).
    + change (vm_instruction_stack r = ((pre ++ [i]) ++ says (map fst pairs))%list).
      rewrite Hstack, <- app_assoc. reflexivity.
    + change (program_counter r + 1 = Z.of_nat (length (pre ++ [i])%list)).
      rewrite Hpc, length_app. simpl. lia.
    + exact Hpaused.
    + exact Hfinished.
    + exact Hexp.
    + intros k' e' Hin. apply (Htable k' e'). right. exact Hin.
    + exists r'. split; [exact Hrun'|].
      split.
      { rewrite Hlines. change (line_buffer (set_previous_instruction i r2))
          with (line_buffer r ++ [entry_text e])%list.
        rewrite <- app_assoc. reflexivity. }
      repeat split; assumption.
Qed.

(** The whole run of the simplest program.  A runner constructed with
    autostart, without a snapshot and without experimental newlines, on
    a program whose node Start is a sequence of RUN_LINE instructions
    followed by STOP, with every line in the string table: the
    constructor returns, the line buffer holds the texts of the lines
    in the order of the instructions, the session is finished with no
    option to choose, Start is the current node and has been visited
    once.  For this the dispatch loop calls itself to
    a depth of the number of lines plus two; each of these calls
    stands for a few frames of the interpreter. *)
Theorem lines_node_runs_to_stop (lib : std_lib) (a : Args.t) (nd : Node)
    (pairs : list (string * table_entry)) (fuel : nat) :
  fresh a ->
  Args.autostart a = true ->
  Args.experimental_newlines a = false ->
  nodes (Args.compiled_yarn a) !! "Start" = Some nd ->
  instructions nd = says (map fst pairs) ->
  (forall k e, In (k, e) pairs ->
               string_lookup_table (init_fields a) !! k = Some e) ->
  (length pairs + 2 <= fuel)%nat ->
  exists r',
    init lib fuel a = Ok tt r' /\
    get_lines r' = Ok (map (fun p => entry_text (snd p)) pairs)
                      (set_line_buffer [] r') /\
    finished r' = true /\
    get_choices r' = [] /\
    current_node r' = Some "Start" /\
    dict_get "Start" (visits r') = Some 1.
Proof.
  intros Hfresh Hauto Hexp Hnd Hinstr Htable Hfuel.
  destruct fuel as [|fuel]; [lia|].
  rewrite (init_autostart_fresh lib fuel a Hfresh Hauto), Hnd.
  set (r0 := entered "Start" nd 0 (started a)).
  destruct Hfresh as (Hv & _ & _ & Hl & Ho & _ & Hi & _).
  destruct (says_loop lib pairs [] r0)
    as (r' & Hrun & Hlines & Hfin & Hopts & Hvisits & Hnode).
  - exact Hinstr.
  - reflexivity.
  - reflexivity.
  - change (ends_with_stop
              (list_or (Args.vm_instruction_stack a) [run_node_marker]) = false).
    rewrite Hi. reflexivity.
  - exact Hexp.
  - exact Htable.
  - exists r'. split.
    + rewrite <- Hrun. apply process_instruction_more_fuel; [lia|].
      rewrite Hrun. exact I.
    + split.
      { unfold get_lines. unfold_m. simpl. rewrite Hlines.
        change (line_buffer r0) with (list_or (Args.line_buffer a) []).
        rewrite Hl. reflexivity. }
      split; [exact Hfin|]. split.
      { unfold get_choices. rewrite Hopts.
        change (option_buffer r0) with (list_or (Args.option_buffer a) []).
        rewrite Ho. reflexivity. }
      split; [rewrite Hnode; reflexivity|].
      rewrite Hvisits. unfold r0, entered. simpl. apply dict_get_set_eq.
Qed.

Lemma lines_node_runs_to_stop_witness :
  exists r',
    init ∅ 10 (Examples.fresh_args Examples.lines_prog) = Ok tt r' /\
    get_lines r' =
      Ok (map (fun p => entry_text (snd p))
            [("l1", {| entry_text := "Pick"; entry_lineNumber := "1" |});
             ("l2", {| entry_text := "Done"; entry_lineNumber := "2" |})])
         (set_line_buffer [] r') /\
    finished r' = true /\
    get_choices r' = [] /\
    current_node r' = Some "Start" /\
    dict_get "Start" (visits r') = Some 1.
Proof.
  apply (lines_node_runs_to_stop ∅ (Examples.fresh_args Examples.lines_prog)
           Examples.lines_node
           [("l1", {| entry_text := "Pick"; entry_lineNumber := "1" |});
            ("l2", {| entry_text := "Done"; entry_lineNumber := "2" |})] 10).
  - repeat split.
  - reflexivity.
  - reflexivity.
  - vm_compute. reflexivity.
  - reflexivity.
  - intros k e [H|[H|[]]]; inversion H; subst; vm_compute; reflexivity.
  - simpl. lia.
Defined.


(** ** A node of options, from construction to the pause *)

Lemma add_option_plain (key target : string) (entry : table_entry) (r : runner) :
  string_lookup_table r !! key = Some entry ->
  add_option {| opcode := ADD_OPTION;
                operands := [OString key; OString target] |} r =
  Ok tt (set_option_buffer
           (option_buffer r ++
              [{| index := Z.of_nat (length (option_buffer r));
                  text := entry_text entry;
                  choice := target |}]) r).
Proof.
  intros Hentry.
  rewrite (add_option_checked
             {| opcode := ADD_OPTION; operands := [OString key; OString target] |}
             (OString key) (OString target) [] r eq_refl).
  unfold_m. simpl. rewrite Hentry. reflexivity.
Qed.

Lemma offers_loop (lib : std_lib)
    (triples : list (string * table_entry * string)) :
  forall (pre rest : list Instruction) (r : runner),
    vm_instruction_stack r =
      (pre ++ offers (map (fun t => (fst (fst t), snd t)) triples) ++ rest)%list ->
    program_counter r = Z.of_nat (length pre) ->
    paused r = false ->
    finished r = false ->
    (forall k e t, In (k, e, t) triples -> string_lookup_table r !! k = Some e) ->
    exists r',
      process_instruction lib (S (length triples)) r = Ok tt r' /\
      option_buffer r' =
        (option_buffer r ++
           numbered (Z.of_nat (length (option_buffer r)))
             (map (fun t => (entry_text (snd (fst t)), snd t)) triples))%list /\
      paused r' = true /\
      finished r' = false /\
      line_buffer r' = line_buffer r /\
      vm_data_stack r' = vm_data_stack r /\
      program_counter r' = Z.of_nat (length pre + length triples + 1).
Proof.
  induction triples as [|[[k e] t] triples IH];
    intros pre rest r Hstack Hpc Hpaused Hfinished Htable.
  - assert (Hidx : Py.index (vm_instruction_stack r) (program_counter r)
                   = Some {| opcode := SHOW_OPTIONS; operands := [] |}).
    { rewrite Hstack, Hpc. apply index_app_middle. }
    cbn [length].
    rewrite (process_instruction_fetch lib 0 r _ show_options Hidx eq_refl).
    unfold show_options, modify. cbn [paused set_paused]. simpl negb.
    eexists. split; [reflexivity|]. simpl. rewrite app_nil_r.
    repeat split; try reflexivity; try assumption. lia.
  - set (i := {| opcode := ADD_OPTION; operands := [OString k; OString t] |}).
    assert (Hidx : Py.index (vm_instruction_stack r) (program_counter r) = Some i).
    { rewrite Hstack, Hpc. apply index_app_middle. }
    cbn [length].
    rewrite (process_instruction_fetch lib (S (length triples)) r i add_option
               Hidx eq_refl).
    set (r1 := set_log (log r ++ [Dispatched i])
                 (set_program_counter (program_counter r + 1) r)).
    assert (Hadd : add_option i r1 =
                   Ok tt (set_option_buffer
                            (option_buffer r1 ++
                               [{| index := Z.of_nat (length (option_buffer r1));
                                   text := entry_text e;
                                   choice := t |}]) r1)).
    { apply add_option_plain. apply (Htable k e t). left. reflexivity. }
    rewrite Hadd.
    set (r2 := set_option_buffer
                 (option_buffer r1 ++
                    [{| index := Z.of_nat (length (option_buffer r1));
                        text := entry_text e; choice := t |}]) r1).
    assert (Htest : negb (paused r2) && negb (finished r2) = true).
    { change (negb (paused r) && negb (finished r) = true).
      rewrite Hpaused, Hfinished. reflexivity. }
    rewrite Htest.
    destruct (IH (pre ++ [i])%list rest (set_previous_instruction i r2))
      as (r' & Hrun' & Hopts & Hp & Hfin & Hlines & Hdata & Hcounter).
    + change (vm_instruction_stack r =
              ((pre ++ [i]) ++
                 offers (map (fun t => (fst (fst t), snd t)) triples) ++ rest)%list).
      rewrite Hstack, <- app_assoc. reflexivity.
    + change (program_counter r + 1 = Z.of_nat (length (pre ++ [i])%list)).
      rewrite Hpc, length_app. simpl. lia.
    + exact Hpaused.
    + exact Hfinished.
    + intros k' e' t' Hin. apply (Htable k' e' t'). right. exact Hin.
    + exists r'. split; [exact Hrun'|].
      split.
      { rewrite Hopts.
        change (option_buffer (set_previous_instruction i r2))
          with (option_buffer r ++
                  [{| index := Z.of_nat (length (option_buffer r));
                      text := entry_text e; choice := t |}])%list.
        rewrite <- app_assoc, length_app. simpl.
        replace (Z.of_nat (length (option_buffer r) + 1))
          with (Z.of_nat (length (option_buffer r)) + 1) by lia.
        reflexivity. }
      split; [exact Hp|]. split; [exact Hfin|].
      split; [exact Hlines|]. split; [exact Hdata|].
      rewrite Hcounter, length_app. simpl. lia.
Qed.

(** The first run of a node of options.  A runner constructed with
    autostart and without a snapshot, on a program whose node Start
    begins with ADD_OPTION instructions followed by SHOW_OPTIONS, with
    every option line in the string table: the constructor returns,
    paused and not finished, with no line to read, an empty value
    stack, the program counter after SHOW_OPTIONS, and get_choices()
    holds the options in the order of the instructions, numbered from
    0, each with the text of its line and its target.  For this the dispatch loop calls itself to a
    depth of the number of options plus two; each of these calls
    stands for a few frames of the interpreter. *)
Theorem options_node_waits (lib : std_lib) (a : Args.t) (nd : Node)
    (triples : list (string * table_entry * string))
    (rest : list Instruction) (fuel : nat) :
  fresh a ->
  Args.autostart a = true ->
  nodes (Args.compiled_yarn a) !! "Start" = Some nd ->
  instructions nd =
    (offers (map (fun t => (fst (fst t), snd t)) triples) ++ rest)%list ->
  (forall k e t, In (k, e, t) triples ->
                 string_lookup_table (init_fields a) !! k = Some e) ->
  (length triples + 2 <= fuel)%nat ->
  exists r',
    init lib fuel a = Ok tt r' /\
    paused r' = true /\
    finished r' = false /\
    get_choices r' =
      numbered 0 (map (fun t => (entry_text (snd (fst t)), snd t)) triples) /\
    has_line r' = false /\
    vm_data_stack r' = [] /\
    program_counter r' = Z.of_nat (length triples + 1).
Proof.
  intros Hfresh Hauto Hnd Hinstr Htable Hfuel.
  destruct fuel as [|fuel]; [lia|].
  rewrite (init_autostart_fresh lib fuel a Hfresh Hauto), Hnd.
  set (r0 := entered "Start" nd 0 (started a)).
  destruct Hfresh as (Hv & _ & _ & Hl & Ho & _ & Hi & _).
  destruct (offers_loop lib triples [] rest r0)
    as (r' & Hrun & Hopts & Hp & Hfin & Hlines & Hdata & Hcounter).
  - exact Hinstr.
  - reflexivity.
  - reflexivity.
  - change (ends_with_stop
              (list_or (Args.vm_instruction_stack a) [run_node_marker]) = false).
    rewrite Hi. reflexivity.
  - exact Htable.
  - exists r'. split.
    + rewrite <- Hrun. apply process_instruction_more_fuel; [lia|].
      rewrite Hrun. exact I.
    + split; [exact Hp|]. split; [exact Hfin|]. split.
      { unfold get_choices. rewrite Hopts.
        change (option_buffer r0) with (list_or (Args.option_buffer a) []).
        rewrite Ho. reflexivity. }
      split.
      { unfold has_line. rewrite Hlines.
        change (line_buffer r0) with (list_or (Args.line_buffer a) []).
        rewrite Hl. reflexivity. }
      split; [rewrite Hdata; reflexivity|].
      rewrite Hcounter. reflexivity.
Qed.

Lemma options_node_waits_witness :
  exists r',
    init ∅ 10 (Examples.fresh_args Examples.prog) = Ok tt r' /\
    paused r' = true /\
    finished r' = false /\
    get_choices r' =
      numbered 0
        (map (fun t => (entry_text (snd (fst t)), snd t))
           [("l1", {| entry_text := "Pick"; entry_lineNumber := "1" |}, "L")]) /\
    has_line r' = false /\
    vm_data_stack r' = [] /\
    program_counter r' =
      Z.of_nat (length [("l1", {| entry_text := "Pick"; entry_lineNumber := "1" |},
                         "L")] + 1).
Proof.
  apply (options_node_waits ∅ (Examples.fresh_args Examples.prog)
           Examples.start_node
           [("l1", {| entry_text := "Pick"; entry_lineNumber := "1" |}, "L")]
           [Examples.I JUMP []; Examples.I POP [];
            Examples.I RUN_LINE [OString "l2"]; Examples.I STOP []] 10).
  - repeat split.
  - reflexivity.
  - vm_compute. reflexivity.
  - reflexivity.
  - intros k e t [H|[]]; inversion H; subst; vm_compute; reflexivity.
  - simpl. lia.
Defined.
